(** * InsightFlow: the tool registry, the tool handlers, the chat routes and
      the chat component, embedded from the TypeScript sources, with the
      properties of the specification stated and settled over them. *)

From stdpp Require Import base strings list pretty.
From Stdlib Require Import ZArith Lia Ascii.

Open Scope string_scope.
Open Scope Z_scope.
Open Scope list_scope.

(* ===================================================================== *)
(** * JavaScript values, exceptions and completions                      *)
(* ===================================================================== *)

(** JavaScript values as the sources use them.  Numbers that occur in the
    modelled code are array lengths, HTTP statuses and clock readings, so
    a number carries an integer.  An object is the list of its own
    enumerable properties in enumeration order. *)
#[warnings="-register-all"] Inductive jsval : Type :=
| JUndefined
| JNull
| JBool (b : bool)
| JNum (n : Z)
| JStr (s : string)
| JArr (items : list jsval)
| JObj (props : list (string * jsval)).

(** What a [throw] carries: a plain [Error] (also [TypeError]) with its
    message, or an [OpenAI.APIError] with [name], [status] and [message]
    ([status] is [number | undefined] in the client library). *)
Inductive exn : Type :=
| Error (message : string)
| APIError (name : string) (status : option Z) (message : string).

Definition message (e : exn) : string :=
  match e with
  | Error m => m
  | APIError _ _ m => m
  end.

(** [error instanceof OpenAI.APIError] *)
Definition is_APIError (e : exn) : bool :=
  match e with
  | APIError _ _ _ => true
  | Error _ => false
  end.

(** The completion of an awaited call: a value, or a thrown exception. *)
Inductive completion (A : Type) : Type :=
| Returned (a : A)
| Thrown (e : exn).
Arguments Returned {A} a.
Arguments Thrown {A} e.

(** Sequencing of awaited calls: [x ← c; k] runs [k] on the value of [c]
    and propagates an exception of [c]. *)
#[global] Instance completion_ret : MRet completion := @Returned.
#[global] Instance completion_bind : MBind completion :=
  λ A B k c, match c with
             | Returned a => k a
             | Thrown e => Thrown e
             end.

(** [try { body } catch (error) { handler }] *)
Definition try_catch {A : Type} (body : completion A)
    (handler : exn -> completion A) : completion A :=
  match body with
  | Returned a => Returned a
  | Thrown e => handler e
  end.

(** [try { body } finally { cleanup }]: an exception of the cleanup
    replaces the completion of the body. *)
Definition try_finally {A : Type} (body : completion A)
    (cleanup : completion unit) : completion A :=
  match cleanup with
  | Returned _ => body
  | Thrown e => Thrown e
  end.

(** Truthiness ([if (v)], [!v], [v || d]). *)
Definition truthy (v : jsval) : bool :=
  match v with
  | JUndefined | JNull => false
  | JBool b => b
  | JNum n => negb (n =? 0)
  | JStr s => negb (String.eqb s "")
  | JArr _ | JObj _ => true
  end.

(** Property read [o.k] on a non-nullish value: [undefined] when absent. *)
Fixpoint assoc_get {V : Type} (k : string) (m : list (string * V)) : option V :=
  match m with
  | [] => None
  | (k', v) :: m' => if String.eqb k k' then Some v else assoc_get k m'
  end.

Definition prop (o : list (string * jsval)) (k : string) : jsval :=
  default JUndefined (assoc_get k o).

(** Binding a destructuring parameter [({ first, ... })] to the argument
    [v]: a [TypeError] on [undefined] and [null], the properties of an
    object, no property at all for a number, a string, a boolean or an
    array (the keys the handlers bind are no members of these). *)
Definition destructure (v : jsval) (first : string)
  : completion (list (string * jsval)) :=
  match v with
  | JUndefined =>
      Thrown (Error ("Cannot destructure property '" +:+ first
                     +:+ "' of 'undefined' as it is undefined."))
  | JNull =>
      Thrown (Error ("Cannot destructure property '" +:+ first
                     +:+ "' of 'null' as it is null."))
  | JObj props => Returned props
  | JBool _ | JNum _ | JStr _ | JArr _ => Returned []
  end.

(** The indices ["0"; ...; "n-1"] of an array-like of length [n]. *)
Definition index_keys (n : nat) : list string :=
  (fun i : nat => pretty (Z.of_nat i)) <$> seq 0 n.

(** [Object.keys(v)]: a [TypeError] on [undefined] and [null], the own
    enumerable property names otherwise. *)
Definition Object_keys (v : jsval) : completion (list string) :=
  match v with
  | JUndefined | JNull =>
      Thrown (Error "Cannot convert undefined or null to object")
  | JBool _ | JNum _ => Returned []
  | JStr s => Returned (index_keys (String.length s))
  | JArr items => Returned (index_keys (length items))
  | JObj props => Returned (props.*1)
  end.

(** [a[0]] on an array of values. *)
Definition first_item (a : list jsval) : jsval :=
  default JUndefined (a !! 0%nat).

(** [a.slice(0, n)] *)
Definition slice0 {A : Type} (n : nat) (a : list A) : list A := take n a.

(* ===================================================================== *)
(** * [Map]: an insertion-ordered map with string keys                   *)
(* ===================================================================== *)

Module JsMap.

(** The entries in insertion order; [set] keeps the keys distinct. *)
Definition t (V : Type) : Type := list (string * V).

Definition empty {V : Type} : t V := [].

(** [m.set(k, v)]: replaces the value of an existing key in place,
    appends a fresh key at the end. *)
Fixpoint set {V : Type} (k : string) (v : V) (m : t V) : t V :=
  match m with
  | [] => [(k, v)]
  | (k', v') :: m' =>
      if String.eqb k k' then (k, v) :: m' else (k', v') :: set k v m'
  end.

(** [m.get(k)]: [None] stands for [undefined]. *)
Definition get {V : Type} (k : string) (m : t V) : option V :=
  assoc_get k m.

(** [Array.from(m.values())] *)
Definition values {V : Type} (m : t V) : list V := m.*2.

Definition keys {V : Type} (m : t V) : list string := m.*1.

End JsMap.

(* ===================================================================== *)
(** * lib/tools/registry.ts: [ToolRegistry]                              *)
(* ===================================================================== *)

(** A [PydanticTool] as the registry sees it: the object given to the
    constructor, with a [name] and a [handler] of type [H]. *)
Record PydanticTool (H : Type) : Type := mkTool {
  name : string;
  description : string;
  inputSchema : list (string * string);
  handler : H
}.
Arguments mkTool {H} _ _ _ _.
Arguments name {H} _.
Arguments description {H} _.
Arguments inputSchema {H} _.
Arguments handler {H} _.

Module ToolRegistry.

Record t (H : Type) : Type := mk { tools : JsMap.t (PydanticTool H) }.
Arguments mk {H} _.
Arguments tools {H} _.

(** [constructor() { this.tools = new Map() }] *)
Definition constructor {H : Type} : t H := mk JsMap.empty.

(** [register(tool) { this.tools.set(tool.name, tool) }] *)
Definition register {H : Type} (r : t H) (tool : PydanticTool H) : t H :=
  mk (JsMap.set (name tool) tool (tools r)).

(** [get(name) { return this.tools.get(name) }] *)
Definition get {H : Type} (r : t H) (n : string) : option (PydanticTool H) :=
  JsMap.get n (tools r).

(** [list() { return Array.from(this.tools.values()) }] *)
Definition list {H : Type} (r : t H) := JsMap.values (tools r).

(** A sequence of [register] calls on a fresh registry, as in
    [Object.values(tools).forEach(tool => registry.register(tool))]. *)
Definition register_all {H : Type} (ts : Datatypes.list (PydanticTool H)) : t H :=
  foldl register constructor ts.

End ToolRegistry.

(** The tool registered last under name [n] in the sequence [ts]. *)
Definition last_registered {H : Type} (n : string)
    (ts : list (PydanticTool H)) : option (PydanticTool H) :=
  List.find (fun tool => String.eqb n (name tool)) (rev ts).

(* ===================================================================== *)
(** * lib/tools/definitions.ts: the tool handlers                        *)
(* ===================================================================== *)

(** [v === 'literal'] *)
Definition is_str (v : jsval) (lit : string) : bool :=
  match v with
  | JStr s => String.eqb s lit
  | _ => false
  end.

(** A value used as a property key: [o[v]]. *)
Definition property_key (v : jsval) : string :=
  match v with
  | JStr s => s
  | JUndefined => "undefined"
  | JNull => "null"
  | JBool true => "true"
  | JBool false => "false"
  | JNum n => pretty n
  | JArr _ | JObj _ => "[object Object]"
  end.

(** A workbook as [XLSX.readFile] returns it: the sheet names and the
    object that maps a sheet name to its worksheet. *)
Record WorkBook : Type := mkWorkBook {
  SheetNames : list string;
  Sheets : list (string * jsval)
}.

(** The libraries the handlers call.  [XLSX.utils.sheet_to_json] yields
    one object per data row; [sql.query] yields a result object. *)
Record Externals : Type := mkExternals {
  XLSX_readFile : jsval → completion WorkBook;
  XLSX_sheet_to_json : jsval → completion (list (list (string * jsval)));
  process_env : string → jsval;
  sql_connect : jsval → completion unit;
  sql_query : jsval → jsval → completion (list (string * jsval));
  sql_close : completion unit
}.

(** A handler is called with one argument, whatever the caller passes,
    and is awaited; its parameter is a destructuring pattern. *)
Definition Handler : Type := Externals → jsval → completion jsval.

Module Definitions.

(** The first four statements of the [try] block of [excelAnalyzer]:
    the rows of the first sheet of the workbook at [filePath]. *)
Definition read_rows (ext : Externals) (filePath : jsval)
  : completion (list (list (string * jsval))) :=
  workbook ← XLSX_readFile ext filePath;
  let sheetName :=
    match SheetNames workbook !! 0%nat with
    | Some s => JStr s
    | None => JUndefined
    end in
  let worksheet := prop (Sheets workbook) (property_key sheetName) in
  XLSX_sheet_to_json ext worksheet.

Definition excelAnalyzer_handler : Handler := λ ext argument,
  args ← destructure argument "filePath";
  let filePath := prop args "filePath" in
  let operation := prop args "operation" in
  try_catch
    (data ← read_rows ext filePath;
     if is_str operation "summary" then
       columns ← Object_keys (first_item (JObj <$> data));
       mret (JObj [("rowCount", JNum (Z.of_nat (length data)));
                   ("columns", JArr (JStr <$> columns));
                   ("sample", JArr (slice0 5 (JObj <$> data)))])
     else if is_str operation "analyze" then
       mret (JObj [("result", JStr "分析結果")])
     else
       mret (JObj [("error", JStr "不支持的操作")]))
    (λ error, mret (JObj [("error", JStr (message error))])).

Definition databaseQuery_handler : Handler := λ ext argument,
  args ← destructure argument "query";
  let query := prop args "query" in
  let parameters := prop args "parameters" in
  try_finally
    (try_catch
       (_ ← sql_connect ext
              (JObj [("server", process_env ext "DB_SERVER");
                     ("database", process_env ext "DB_NAME");
                     ("user", process_env ext "DB_USER");
                     ("password", process_env ext "DB_PASSWORD");
                     ("options", JObj [("encrypt", JBool true)])]);
        result ← sql_query ext query parameters;
        mret (JObj [("data", prop result "recordset")]))
       (λ error, mret (JObj [("error", JStr (message error))])))
    (sql_close ext).

Definition dataVisualizer_handler : Handler := λ ext argument,
  args ← destructure argument "data";
  let data := prop args "data" in
  let chartType := prop args "chartType" in
  let options := prop args "options" in
  mret (JObj [("chartConfig",
               JObj [("type", chartType); ("data", data); ("options", options)])]).

Definition excelAnalyzer : PydanticTool Handler :=
  mkTool "excelAnalyzer" "分析Excel文件並執行數據處理"
    [("filePath", "string"); ("query", "string"); ("operation", "string")]
    excelAnalyzer_handler.

Definition databaseQuery : PydanticTool Handler :=
  mkTool "databaseQuery" "執行MS SQL數據庫查詢"
    [("query", "string"); ("parameters", "object")]
    databaseQuery_handler.

Definition dataVisualizer : PydanticTool Handler :=
  mkTool "dataVisualizer" "生成數據可視化圖表"
    [("data", "array"); ("chartType", "string"); ("options", "object")]
    dataVisualizer_handler.

(** [Object.values(tools)], in the order of the object literal. *)
Definition tools : list (PydanticTool Handler) :=
  [excelAnalyzer; databaseQuery; dataVisualizer].

End Definitions.

(** [export const registry = new ToolRegistry()] after the registration
    loop at the end of registry.ts. *)
Definition registry : ToolRegistry.t Handler :=
  ToolRegistry.register_all Definitions.tools.

(** The fields an argument object leaves undefined among those a schema
    declares. *)
Definition missing_fields (declared : list string) (args : list (string * jsval))
  : list string :=
  filter (λ k, assoc_get k args = None) declared.

(* ===================================================================== *)
(** * Streams and responses of the route handlers                         *)
(* ===================================================================== *)

(** A line feed, for the template literals of the sources. *)
Definition LF : string := String "010"%char "".

(** What a reader of an upstream body delivers: the chunks it yields, in
    order, and then either [done] or a rejected [read()]. *)
Inductive ReadEnd : Type :=
| Done
| ReadFails (e : exn).

Record Upstream : Type := mkUpstream {
  chunks : list string;
  ending : ReadEnd
}.

(** How the route leaves the stream it builds. *)
Inductive Closing : Type :=
| Closed
| Errored (e : exn)
| LeftOpen.

(** The chunks put on a response stream, in the order of the calls of
    [controller.enqueue] (or [writer.write]). *)
Record Stream : Type := mkStream {
  enqueued : list string;
  closing : Closing
}.

Inductive Body : Type :=
| BodyText (text : string)
| BodyJson (v : jsval)
| BodyStream (s : Stream).

Record Response : Type := mkResponse {
  body : Body;
  status : Z;
  headers : list (string * string)
}.

(** The header a [Response] gets from a text body. *)
Definition text_headers : list (string * string) :=
  [("content-type", "text/plain;charset=UTF-8")].

(** The statuses that admit no body. *)
Definition null_body_status (st : Z) : bool :=
  (st =? 101) || (st =? 103) || (st =? 204) || (st =? 205) || (st =? 304).

(** [new Response(body, { status })] for a text or a stream body.  The
    status is converted to an unsigned short, an undefined status is
    200; the constructor throws a [RangeError] for a status outside
    200..599 and a [TypeError] for a body under a status that admits
    none.  A text body sets the content type. *)
Definition new_Response (b : Body) (st : option Z) : completion Response :=
  let status :=
    match st with
    | Some n => n mod 65536
    | None => 200
    end in
  if (status <? 200) || (599 <? status) then
    Thrown (Error "init status must be in the range of 200 to 599, inclusive.")
  else if null_body_status status then
    Thrown (Error "Response with null body status cannot have body")
  else
    Returned (mkResponse b status
                match b with
                | BodyText _ => text_headers
                | _ => []
                end).

(** The controller of a stream under construction. *)
Definition fresh : Stream := mkStream [] LeftOpen.

(** [controller.enqueue(value)] (or [writer.write(value)]) *)
Definition enqueue (value : string) (c : Stream) : Stream :=
  mkStream (enqueued c ++ [value]) (closing c).

(** [controller.close()] (or [writer.close()]) *)
Definition close (c : Stream) : Stream := mkStream (enqueued c) Closed.

(** The stream after an exception in [start], or after
    [writer.abort(e)]. *)
Definition abort (e : exn) (c : Stream) : Stream :=
  mkStream (enqueued c) (Errored e).

(** The read loop shared by the routes:
    [while (true) { const { done, value } = await reader.read();
                    if (done) break; controller.enqueue(value) }]
    followed by [controller.close()]; [cs] and [fin] are what the
    reader still has to deliver.  A [read()] that rejects ends the loop
    with the exception. *)
Fixpoint read_loop (cs : list string) (fin : ReadEnd) (c : Stream) : Stream :=
  match cs with
  | [] =>
      match fin with
      | Done => close c
      | ReadFails e => abort e c
      end
  | value :: cs' => read_loop cs' fin (enqueue value c)
  end.

Definition forward (up : Upstream) (c : Stream) : Stream :=
  read_loop (chunks up) (ending up) c.

(* ===================================================================== *)
(** * The orchestrating chat route ([getTools] and [POST], in
      app/metadata.ts after the page metadata)                            *)
(* ===================================================================== *)

Module ChatRoute.

(** [call.function.name] and [call.function.arguments] of a tool call. *)
Record ToolCall : Type := mkToolCall {
  function_name : string;
  function_arguments : string
}.

Record AssistantMessage : Type := mkAssistantMessage {
  answer : jsval;
  tool_calls : option (list ToolCall)
}.

Record Choice : Type := mkChoice {
  choice_message : option AssistantMessage
}.

Record ChatCompletion : Type := mkChatCompletion {
  choices : list Choice
}.

(** [{ messages, filePath } = await req.json()] *)
Record RequestBody : Type := mkRequestBody {
  messages : list (list (string * jsval));
  filePath : jsval
}.

(** The answer of [fetch('http://127.0.0.1:8000/api/tools')]. *)
Record ToolsResponse : Type := mkToolsResponse {
  tools_ok : bool;
  tools_json : completion jsval
}.

(** The answer of [fetch('http://127.0.0.1:8000/api/chat', ...)]. *)
Record BackendResponse : Type := mkBackendResponse {
  backend_body : option Upstream
}.

(** The collaborators of one call of the route. *)
Record World : Type := mkWorld {
  req_json : completion RequestBody;
  OPENAI_MODEL : jsval;
  fetch_tools : completion ToolsResponse;
  (** [openai.chat.completions.create({ model, messages, tools,
      tool_choice: 'auto', stream: false })] *)
  create_completion :
    string → list (list (string * jsval)) → jsval → completion ChatCompletion;
  (** [fetch(.../api/chat, { body: { content, file_path } })] *)
  fetch_chat : jsval → jsval → completion BackendResponse;
  (** [OpenAIStream(await openai.chat.completions.create({ model,
      stream: true, messages }))] *)
  create_stream :
    string → list (list (string * jsval)) → completion Upstream
}.

(** The calls the route makes to its collaborators, in order. *)
Inductive Call : Type :=
| CallFetchTools
| CallCompletion (tools : jsval)
| CallBackendChat (content file_path : jsval)
| CallStream.

(** The module state: [let cachedTools: any = null], and the calls made
    so far. *)
Record State : Type := mkState {
  cachedTools : jsval;
  calls : list Call
}.

(** Computations of the route: they read and write the module state and
    may throw. *)
Definition M (A : Type) : Type := State → completion A * State.

Definition ret {A} (a : A) : M A := λ s, (Returned a, s).
Definition throw {A} (e : exn) : M A := λ s, (Thrown e, s).
Definition and_then {A B} (m : M A) (k : A → M B) : M B := λ s,
  match m s with
  | (Returned a, s') => k a s'
  | (Thrown e, s') => (Thrown e, s')
  end.
Definition catch {A} (m : M A) (h : exn → M A) : M A := λ s,
  match m s with
  | (Returned a, s') => (Returned a, s')
  | (Thrown e, s') => h e s'
  end.
(** Awaiting a collaborator: the call is recorded, its completion is the
    completion of the [await]. *)
Definition await {A} (c : Call) (answer : completion A) : M A := λ s,
  (answer, mkState (cachedTools s) (calls s ++ [c])).
Definition lift {A} (c : completion A) : M A := λ s, (c, s).
Definition get_cachedTools : M jsval := λ s, (Returned (cachedTools s), s).
Definition set_cachedTools (v : jsval) : M unit := λ s,
  (Returned (), mkState v (calls s)).

Notation "x ←ₘ m ; k" := (and_then m (λ x, k))
  (at level 20, m at level 100, k at level 200, right associativity,
   only parsing).

Definition getTools (w : World) : M jsval :=
  cached ←ₘ get_cachedTools;
  if truthy cached then ret cached
  else
    catch
      (response ←ₘ await CallFetchTools (fetch_tools w);
       if negb (tools_ok response) then throw (Error "Failed to fetch tools")
       else
         fetched ←ₘ lift (tools_json response);
         _ ←ₘ set_cachedTools fetched;
         ret fetched)
      (λ error, ret JNull).

(** [process.env.OPENAI_MODEL || 'gpt-4o-mini-2024-07-18'] *)
Definition model (w : World) : string :=
  match OPENAI_MODEL w with
  | JStr s => if truthy (JStr s) then s else "gpt-4o-mini-2024-07-18"
  | _ => "gpt-4o-mini-2024-07-18"
  end.

(** [message => ({ content: message.content, role: message.role })] *)
Definition content_and_role (m : list (string * jsval)) : list (string * jsval) :=
  [("content", prop m "content"); ("role", prop m "role")].

(** [choice.message?.tool_calls?.length > 0], with the tool calls when
    the test holds. *)
Definition requested_tools (c : Choice) : list ToolCall :=
  match choice_message c with
  | Some m => default [] (tool_calls m)
  | None => []
  end.

Definition tool_notice (tcs : list ToolCall) : string :=
  let toolNames := String.concat ", " (function_name <$> tcs) in
  "[系統] 使用工具: " +:+ toolNames +:+ " 來處理您的請求..." +:+ LF +:+ LF.

Definition direct_notice : string :=
  "[系統] 直接回答您的問題..." +:+ LF +:+ LF.

(** The stream of the tool branch: the notice, then the chunks of the
    backend body; [backendResponse.body!.getReader()] throws inside
    [start] when there is no body, after the notice was enqueued. *)
Definition tool_stream (notice : string) (r : BackendResponse) : Stream :=
  let controller := enqueue notice fresh in
  match backend_body r with
  | Some up => forward up controller
  | None =>
      abort (Error "Cannot read properties of null (reading 'getReader')")
        controller
  end.

Definition direct_stream (notice : string) (up : Upstream) : Stream :=
  forward up (enqueue notice fresh).

(** The [try] block of [POST]. *)
Definition POST_try (w : World) : M Response :=
  request ←ₘ lift (req_json w);
  tools ←ₘ getTools w;
  response ←ₘ await (CallCompletion tools)
    (create_completion w (model w)
       (content_and_role <$> messages request) tools);
  match choices response !! 0%nat with
  | None =>
      throw (Error "Cannot read properties of undefined (reading 'message')")
  | Some choice =>
      match requested_tools choice with
      | (_ :: _) as tcs =>
          let systemMessage := tool_notice tcs in
          match last (messages request) with
          | None =>
              throw (Error
                "Cannot read properties of undefined (reading 'content')")
          | Some lastMessage =>
              let content := prop lastMessage "content" in
              backendResponse ←ₘ
                await (CallBackendChat content (filePath request))
                  (fetch_chat w content (filePath request));
              lift (new_Response
                      (BodyStream (tool_stream systemMessage backendResponse))
                      None)
          end
      | [] =>
          let systemMessage := direct_notice in
          streamResponse ←ₘ await CallStream
            (create_stream w (model w)
               (content_and_role <$> messages request));
          lift (new_Response
                  (BodyStream (direct_stream systemMessage streamResponse))
                  None)
      end
  end.

(** The [catch] block of [POST]; it throws when [new Response] does. *)
Definition POST_catch (error : exn) : completion Response :=
  match error with
  | APIError name status message => new_Response (BodyText message) status
  | Error _ => new_Response (BodyText "An error occurred") (Some 500)
  end.

(** [export async function POST(req)]: the response, or the exception
    the call rejects with, and the module state the call leaves
    behind. *)
Definition POST (w : World) (s : State) : completion Response * State :=
  match POST_try w s with
  | (Returned response, s') => (Returned response, s')
  | (Thrown error, s') => (POST_catch error, s')
  end.

(** The module state when the module is loaded. *)
Definition initial : State := mkState JNull [].

End ChatRoute.

(* ===================================================================== *)
(** * The proxy chat route ([tools] and [POST] of unnamed/part_001)        *)
(* ===================================================================== *)

Module ProxyRoute.

(** One entry of the [tools] array: a name and a JSON schema of the
    parameters with its [required] list. *)
Record ToolSchema : Type := mkToolSchema {
  tool_name : string;
  tool_description : string;
  properties : list (string * (string * string));
  required : list string
}.

Definition tools : list ToolSchema :=
  [ mkToolSchema "analyzeExcel" "分析Excel文件數據"
      [("filePath", ("string", "Excel文件路徑"));
       ("query", ("string", "分析查詢"))]
      ["filePath"; "query"];
    mkToolSchema "queryDatabase" "執行數據庫查詢"
      [("query", ("string", "SQL查詢語句"))]
      ["query"] ].

(** The answer of [fetch(apiUrl, ...)]. *)
Record ApiResponse : Type := mkApiResponse {
  api_ok : bool;
  api_status : Z;
  api_body : option Upstream
}.

Record World : Type := mkWorld {
  (** [{ messages, content } = await req.json()] *)
  req_json : completion (jsval * jsval);
  PYTHON_API_URL : jsval;
  (** [fetch(apiUrl, { body: JSON.stringify({ messages, content }) })] *)
  fetch_api : jsval → jsval → jsval → completion ApiResponse
}.

(** [pump()] on the writer of the [TransformStream]: started only when
    the answer has a body; without one nothing is written and the
    stream is never closed. *)
Definition pump (r : ApiResponse) : Stream :=
  match api_body r with
  | Some up => forward up fresh
  | None => fresh
  end.

Definition POST_try (w : World) : completion Response :=
  '(messages, content) ← req_json w;
  let apiUrl := PYTHON_API_URL w in
  if negb (truthy apiUrl) then
    Thrown (Error "PYTHON_API_URL environment variable is not set")
  else
    response ← fetch_api w apiUrl messages content;
    if negb (api_ok response) then
      Thrown (Error ("HTTP error! status: " +:+ pretty (api_status response)))
    else
      mret (mkResponse (BodyStream (pump response)) 200
              [("Content-Type", "text/plain; charset=utf-8")]).

(** [NextResponse.json({ error: 'Internal Server Error' }, { status: 500 })] *)
Definition internal_server_error : Response :=
  mkResponse (BodyJson (JObj [("error", JStr "Internal Server Error")])) 500
    [("content-type", "application/json")].

Definition POST (w : World) : Response :=
  match POST_try w with
  | Returned response => response
  | Thrown error => internal_server_error
  end.

End ProxyRoute.

(* ===================================================================== *)
(** * The [Chat] component: [handleSubmit] (in src/lib/tools/registry.ts
      after the registry)                                                 *)
(* ===================================================================== *)

Module Chat.

(** Strings are kept as their UTF-8 encoding.  [blank s] is
    [!s.trim()]: every character of [s] is a white space or a line
    terminator of ECMAScript (U+0009..U+000D, U+0020, U+00A0, U+1680,
    U+2000..U+200A, U+2028, U+2029, U+202F, U+205F, U+3000, U+FEFF). *)
Definition ascii_space (c : N) : bool :=
  ((9 <=? c) && (c <=? 13) || (c =? 32))%N.

Definition space3 (a b c : N) : bool :=
  ((a =? 225) && (b =? 154) && (c =? 128)
   || (a =? 226) && (b =? 128)
      && ((128 <=? c) && (c <=? 138) || (c =? 168) || (c =? 169) || (c =? 175))
   || (a =? 226) && (b =? 129) && (c =? 159)
   || (a =? 227) && (b =? 128) && (c =? 128)
   || (a =? 239) && (b =? 187) && (c =? 191))%N.

Fixpoint blank (s : string) : bool :=
  match s with
  | "" => true
  | String a s1 =>
      if ascii_space (N_of_ascii a) then blank s1
      else
        match s1 with
        | "" => false
        | String b s2 =>
            if ((N_of_ascii a =? 194) && (N_of_ascii b =? 160))%N
            then blank s2
            else
              match s2 with
              | "" => false
              | String c s3 =>
                  if space3 (N_of_ascii a) (N_of_ascii b) (N_of_ascii c)
                  then blank s3
                  else false
              end
        end
  end.

Record Message : Type := mkMessage {
  role : string;
  content : string;
  id : string;
  isCollapsed : option bool
}.

(** A number of the upload, held by the text a template literal prints
    for it (["120"], ["0.5"], ["1e+21"]); the handlers of the component
    do nothing else with these numbers. *)
Record JsNumber : Type := mkJsNumber {
  printed : string
}.

Record UploadedFile : Type := mkUploadedFile {
  path : string;
  rows : JsNumber;
  columns : JsNumber
}.

(** The state of the component. *)
Record State : Type := mkState {
  messages : list Message;
  input : string;
  isLoading : bool;
  error : option string;
  status : string;
  currentResponse : string
}.

Definition setMessages (f : list Message → list Message) (s : State) : State :=
  mkState (f (messages s)) (input s) (isLoading s) (error s) (status s)
    (currentResponse s).
Definition setInput (v : string) (s : State) : State :=
  mkState (messages s) v (isLoading s) (error s) (status s) (currentResponse s).
Definition setIsLoading (v : bool) (s : State) : State :=
  mkState (messages s) (input s) v (error s) (status s) (currentResponse s).
Definition setError (v : option string) (s : State) : State :=
  mkState (messages s) (input s) (isLoading s) v (status s) (currentResponse s).
Definition setStatus (v : string) (s : State) : State :=
  mkState (messages s) (input s) (isLoading s) (error s) v (currentResponse s).
Definition setCurrentResponse (f : string → string) (s : State) : State :=
  mkState (messages s) (input s) (isLoading s) (error s) (status s)
    (f (currentResponse s)).

(** The answer of [fetch('/api/chat', ...)]. *)
Record FetchResponse : Type := mkFetchResponse {
  ok : bool;
  response_body : option Upstream
}.

(** The surroundings of one submission: the two readings of
    [Date.now()], the server behind [fetch], and [TextDecoder.decode]. *)
Record World : Type := mkWorld {
  now_user : Z;
  now_assistant : Z;
  fetch : list Message → string → completion FetchResponse;
  decode : string → string
}.

Definition file_info (f : UploadedFile) : Message :=
  mkMessage "system"
    ("已上傳的 Excel 文件信息：" +:+ LF +:+ "路徑：" +:+ path f +:+ LF
     +:+ "行數：" +:+ printed (rows f) +:+ LF
     +:+ "列數：" +:+ printed (columns f))
    "file-info" None.

(** The read loop of [handleSubmit]: each chunk is decoded, added to
    [fullResponse] and to the [currentResponse] state. *)
Fixpoint read_loop (w : World) (cs : list string) (fin : ReadEnd)
    (fullResponse : string) (s : State) : completion string * State :=
  match cs with
  | [] =>
      match fin with
      | Done => (Returned fullResponse, s)
      | ReadFails e => (Thrown e, s)
      end
  | value :: cs' =>
      let text := decode w value in
      read_loop w cs' fin (fullResponse +:+ text)
        (setCurrentResponse (λ prev, prev +:+ text) s)
  end.

Definition userMessage (w : World) (s : State) : Message :=
  mkMessage "user" (input s) (pretty (now_user w)) None.

Definition assistantMessage (w : World) (fullResponse : string) : Message :=
  mkMessage "assistant" fullResponse (pretty (now_assistant w)) (Some false).

(** The statements of [handleSubmit] before its [try]: the notices are
    reset and the user message is appended. *)
Definition begin_turn (w : World) (s : State) : State :=
  let s := setError None s in
  let s := setStatus "正在處理您的請求..." s in
  let s := setCurrentResponse (λ _, "") s in
  let s := setIsLoading true s in
  setMessages (λ prev, prev ++ [userMessage w s]) s.

(** The [try] block.  [s0] is the state the handler closed over (its
    [messages] and [input]), [s] the current state. *)
Definition submit_try (uploadedFile : option UploadedFile) (w : World)
    (s0 s : State) : completion unit * State :=
  let requestMessages :=
    match uploadedFile with
    | Some f => [file_info f]
    | None => []
    end ++ messages s0 ++ [userMessage w s0] in
  match fetch w requestMessages (input s0) with
  | Thrown e => (Thrown e, s)
  | Returned response =>
      if negb (ok response) then (Thrown (Error "伺服器響應錯誤"), s)
      else
        let '(read, s) :=
          match response_body response with
          | Some up => read_loop w (chunks up) (ending up) "" s
          | None => (Returned "", s)
          end in
        match read with
        | Thrown e => (Thrown e, s)
        | Returned fullResponse =>
            let s := setMessages
                       (λ prev, prev ++ [assistantMessage w fullResponse]) s in
            let s := setCurrentResponse (λ _, "") s in
            (Returned (), setInput "" s)
        end
  end.

(** [try { ... } catch (err) { setError(...) } finally { ... }] *)
Definition run_request (uploadedFile : option UploadedFile) (w : World)
    (s0 s : State) : State :=
  let '(outcome, s) := submit_try uploadedFile w s0 s in
  let s :=
    match outcome with
    | Returned _ => s
    | Thrown err =>
        setError
          (Some (if String.eqb (message err) ""
                 then "抱歉，發生了錯誤。請稍後再試。"
                 else message err)) s
    end in
  setIsLoading false (setStatus "" s).

Definition handleSubmit (uploadedFile : option UploadedFile) (w : World)
    (s : State) : State :=
  if blank (input s) then s
  else run_request uploadedFile w s (begin_turn w s).

(** Whether the turn runs to the end of its stream, and with which
    chunks. *)
Inductive Outcome : Type :=
| Completed (received : list string)
| Failed.

Definition outcome (uploadedFile : option UploadedFile) (w : World)
    (s : State) : Outcome :=
  let requestMessages :=
    match uploadedFile with
    | Some f => [file_info f]
    | None => []
    end ++ messages s ++ [userMessage w s] in
  match fetch w requestMessages (input s) with
  | Thrown _ => Failed
  | Returned response =>
      if ok response then
        match response_body response with
        | None => Completed []
        | Some up =>
            match ending up with
            | Done => Completed (chunks up)
            | ReadFails _ => Failed
            end
        end
      else Failed
  end.

End Chat.

(* ===================================================================== *)
(** * The code-execution pipeline behind [/api/chat]                      *)
(* ===================================================================== *)

(** The chat routes hand a turn with tool calls to the Python backend.
    The backend is not among the TypeScript sources; its Code Validator
    and its dataset-analysis handler are modelled here from sections 4.2
    to 4.5 of the specification. *)
Module Backend.

(** Modelled from the spec: the abstract structure of generated code that
    the Code Validator of the backend inspects (section 4.3: a static pass
    over the abstract structure of the code, not over its text). *)
#[warnings="-register-all"] Inductive expr : Type :=
| Name (id : string)
| Num (n : Z)
| Str (s : string)
| Attribute (value : expr) (attr : string)
| Call (func : expr) (args : list expr)
| BinOp (lhs rhs : expr)
| Subscript (value index : expr).

(** Modelled from the spec: the statements of generated code, for the
    Code Validator of the backend (imports, assignments, expressions,
    branches and loops). *)
#[warnings="-register-all"] Inductive stmt : Type :=
| Import (module_name : string)
| Assign (target : string) (value : expr)
| Expr (value : expr)
| If (test : expr) (body orelse : list stmt)
| While (test : expr) (body : list stmt).

(** Modelled from the spec: the Capability Allowlist of the backend
    (section 2): permitted builtins, permitted imports, the single
    injected dataframe binding, and entry points denied besides the
    names the deny-list always holds. *)
Record Allowlist : Type := mkAllowlist {
  permitted_builtins : list string;
  permitted_imports : list string;
  dataframe : string;
  denied_entry_points : list string
}.

(** Modelled from the spec: the deny-list of the Code Validator of the
    backend (section 4.3: [exec], [eval], [compile], [open],
    [__import__], and process, network and filesystem entry points). *)
Definition deny_list (al : Allowlist) : list string :=
  ["exec"; "eval"; "compile"; "open"; "__import__"] ++ denied_entry_points al.

(** Modelled from the spec: an attribute name of the backend's generated
    code that begins and ends with a double underscore (section 4.3). *)
Definition is_dunder (attr : string) : bool :=
  String.prefix "__" attr && String.prefix "__" (String.rev attr).

(** Modelled from the spec: the names generated code may read or assign,
    for the Code Validator of the backend (section 4.3: the injected
    dataframe binding and the permitted builtins). *)
Definition name_allowed (al : Allowlist) (id : string) : bool :=
  bool_decide (id = dataframe al) || bool_decide (id ∈ permitted_builtins al).

(** Modelled from the spec: the verdict of the Code Validator of the
    backend (section 3, GeneratedCode). *)
Inductive Verdict : Type :=
| accepted
| rejected (reason : string).

(** Modelled from the spec: the order in which the Code Validator of the
    backend reports: the first violation among the items of a list. *)
Definition first_violation {A : Type} (check : A → option string)
  : list A → option string :=
  fix go (l : list A) : option string :=
    match l with
    | [] => None
    | a :: l' =>
        match check a with
        | Some reason => Some reason
        | None => go l'
        end
    end.

(** Modelled from the spec: the callee test of the Code Validator of the
    backend: a call to a name on the deny-list (section 4.3). *)
Definition denied_callee (al : Allowlist) (func : expr) : option string :=
  match func with
  | Name id => if bool_decide (id ∈ deny_list al) then Some id else None
  | _ => None
  end.

(** Modelled from the spec: the pass of the Code Validator of the backend
    over an expression (section 4.3); the reason names the offending
    construct. *)
Fixpoint expr_violation (al : Allowlist) (e : expr) : option string :=
  match e with
  | Name id =>
      if name_allowed al id then None else Some ("name not allowed: " +:+ id)
  | Num _ | Str _ => None
  | Attribute value attr =>
      if is_dunder attr then Some ("dunder attribute: " +:+ attr)
      else expr_violation al value
  | Call func args =>
      match denied_callee al func with
      | Some id => Some ("call to denied name: " +:+ id)
      | None =>
          match expr_violation al func with
          | Some reason => Some reason
          | None => first_violation (expr_violation al) args
          end
      end
  | BinOp lhs rhs =>
      match expr_violation al lhs with
      | Some reason => Some reason
      | None => expr_violation al rhs
      end
  | Subscript value index =>
      match expr_violation al value with
      | Some reason => Some reason
      | None => expr_violation al index
      end
  end.

(** Modelled from the spec: the pass of the Code Validator of the backend
    over a statement (section 4.3). *)
Fixpoint stmt_violation (al : Allowlist) (st : stmt) : option string :=
  match st with
  | Import module_name =>
      if bool_decide (module_name ∈ permitted_imports al) then None
      else Some ("import not allowed: " +:+ module_name)
  | Assign target value =>
      if name_allowed al target then expr_violation al value
      else Some ("assignment not allowed: " +:+ target)
  | Expr value => expr_violation al value
  | If test body orelse =>
      match expr_violation al test with
      | Some reason => Some reason
      | None =>
          match first_violation (stmt_violation al) body with
          | Some reason => Some reason
          | None => first_violation (stmt_violation al) orelse
          end
      end
  | While test body =>
      match expr_violation al test with
      | Some reason => Some reason
      | None => first_violation (stmt_violation al) body
      end
  end.

(** Modelled from the spec: [validate(code_text, allowlist)] of the Code
    Validator of the backend (section 4.3); code that does not parse is
    rejected.  [parse] is the parser of the language of generated code. *)
Definition validate (parse : string → option (list stmt))
    (code_text : string) (al : Allowlist) : Verdict :=
  match parse code_text with
  | None => rejected "syntax error"
  | Some program =>
      match first_violation (stmt_violation al) program with
      | Some reason => rejected reason
      | None => accepted
      end
  end.

(** Modelled from the spec: the outcome tag of an ExecutionResult of the
    backend (section 3). *)
Inductive OutcomeTag : Type :=
| success
| timeout
| memory_exceeded
| runtime_error
| validation_rejected.

(** Modelled from the spec: the ExecutionResult of the backend
    (section 3): captured output, terminal value, outcome tag and the
    reason of a failure. *)
Record ExecutionResult : Type := mkExecutionResult {
  stdout : list string;
  terminal : option jsval;
  outcome : OutcomeTag;
  failure_reason : string
}.

(** Modelled from the spec: the collaborators of the dataset-analysis
    handler of the backend: the Code Generator (section 4.5; [None] is a
    failed generation), the parser, and the Sandbox Executor
    (section 4.4). *)
Record Pipeline : Type := mkPipeline {
  generate : string → list (string * string) → option string;
  parse : string → option (list stmt);
  run : list stmt → ExecutionResult
}.

(** Modelled from the spec: the dataset-analysis handler of the backend
    (section 4.2): Code Generator, then Code Validator, then Sandbox
    Executor; a failed or empty generation is a [runtime_error] before
    validation, rejected code is never run.  The second component lists
    the programs handed to the Sandbox Executor. *)
Definition analyze_dataset (p : Pipeline) (al : Allowlist)
    (user_request : string) (schema : list (string * string))
  : ExecutionResult * list (list stmt) :=
  match generate p user_request schema with
  | None => (mkExecutionResult [] None runtime_error "generation failed", [])
  | Some code_text =>
      if String.eqb code_text "" then
        (mkExecutionResult [] None runtime_error "empty generation", [])
      else
        match validate (parse p) code_text al with
        | rejected reason =>
            (mkExecutionResult [] None validation_rejected reason, [])
        | accepted =>
            match parse p code_text with
            | Some program => (run p program, [program])
            | None => (mkExecutionResult [] None validation_rejected "syntax error", [])
            end
        end
  end.

End Backend.

(* ===================================================================== *)
(** * Notions used to state the properties                                *)
(* ===================================================================== *)

(** [subexpr e e']: the expression [e] occurs in [e']. *)
Inductive subexpr (e : Backend.expr) : Backend.expr → Prop :=
| subexpr_here : subexpr e e
| subexpr_attribute value attr :
    subexpr e value → subexpr e (Backend.Attribute value attr)
| subexpr_func func args :
    subexpr e func → subexpr e (Backend.Call func args)
| subexpr_arg func args a :
    a ∈ args → subexpr e a → subexpr e (Backend.Call func args)
| subexpr_binop_l lhs rhs : subexpr e lhs → subexpr e (Backend.BinOp lhs rhs)
| subexpr_binop_r lhs rhs : subexpr e rhs → subexpr e (Backend.BinOp lhs rhs)
| subexpr_subscript_l value index :
    subexpr e value → subexpr e (Backend.Subscript value index)
| subexpr_subscript_r value index :
    subexpr e index → subexpr e (Backend.Subscript value index).

(** [occurs e st]: the expression [e] occurs in the statement [st]. *)
Inductive occurs (e : Backend.expr) : Backend.stmt → Prop :=
| occurs_assign target value :
    subexpr e value → occurs e (Backend.Assign target value)
| occurs_expr value : subexpr e value → occurs e (Backend.Expr value)
| occurs_if_test test body orelse :
    subexpr e test → occurs e (Backend.If test body orelse)
| occurs_if_body test body orelse st :
    st ∈ body → occurs e st → occurs e (Backend.If test body orelse)
| occurs_if_orelse test body orelse st :
    st ∈ orelse → occurs e st → occurs e (Backend.If test body orelse)
| occurs_while_test test body :
    subexpr e test → occurs e (Backend.While test body)
| occurs_while_body test body st :
    st ∈ body → occurs e st → occurs e (Backend.While test body).

Definition occurs_in (e : Backend.expr) (program : list Backend.stmt) : Prop :=
  ∃ st, st ∈ program ∧ occurs e st.

(** The program calls one of [exec], [eval], [open], [__import__]. *)
Definition contains_denied_call (program : list Backend.stmt) : Prop :=
  ∃ id args,
    id ∈ ["exec"; "eval"; "open"; "__import__"]
    ∧ occurs_in (Backend.Call (Backend.Name id) args) program.

(** The program reads an attribute whose name begins and ends with a
    double underscore. *)
Definition contains_dunder_access (program : list Backend.stmt) : Prop :=
  ∃ value attr,
    Backend.is_dunder attr = true
    ∧ occurs_in (Backend.Attribute value attr) program.

(** Every entry of the registry sits under the name of its tool. *)
Definition keyed_by_name {H : Type} (m : JsMap.t (PydanticTool H)) : Prop :=
  Forall (λ kv, kv.1 = name kv.2) m.

(** The properties a destructuring parameter can bind from an argument
    that is neither [undefined] nor [null]. *)
Definition properties_of (argument : jsval) : list (string * jsval) :=
  match argument with
  | JObj props => props
  | _ => []
  end.

(** The worksheet of the first sheet of a workbook:
    [workbook.Sheets[workbook.SheetNames[0]]]; without any sheet the key
    is the text of [undefined]. *)
Definition first_sheet (workbook : WorkBook) : jsval :=
  match SheetNames workbook with
  | sheetName :: _ => prop (Sheets workbook) sheetName
  | [] => prop (Sheets workbook) "undefined"
  end.

(** The shape of every failure answer of the handlers. *)
Definition error_object (v : jsval) : Prop :=
  ∃ msg, v = JObj [("error", JStr msg)].

(** A workbook with one sheet of six rows, read from [data.xlsx]. *)
Definition six_rows : list (list (string * jsval)) :=
  (λ i : Z, [("id", JNum i); ("name", JStr "n")]) <$> [1; 2; 3; 4; 5; 6].

Definition six_rows_ext : Externals :=
  mkExternals
    (λ _, Returned (mkWorkBook ["Sheet1"] [("Sheet1", JObj [])]))
    (λ _, Returned six_rows)
    (λ _, JUndefined)
    (λ _, Returned ())
    (λ _ _, Returned [])
    (Returned ()).

(** The text of a whole stream: its chunks decoded one by one and joined
    in the order received. *)
Definition full_text (w : Chat.World) (received : list string) : string :=
  foldr (λ value rest, Chat.decode w value +:+ rest) "" received.

(** A turn whose stream delivers two chunks and then breaks, submitted
    from a conversation of two messages. *)
Definition broken_stream_world : Chat.World :=
  Chat.mkWorld 1000 2000
    (λ _ _, Returned (Chat.mkFetchResponse true
              (Some (mkUpstream ["12"; "0 rows"] (ReadFails (Error "network error"))))))
    (λ bytes, bytes).

(** The same turn with a stream that is read to its end, and an upload
    the component knows of. *)
Definition answering_world : Chat.World :=
  Chat.mkWorld 1000 2000
    (λ _ _, Returned (Chat.mkFetchResponse true
              (Some (mkUpstream ["12"; "0 rows"] Done))))
    (λ bytes, bytes).

Definition sales_upload : Chat.UploadedFile :=
  Chat.mkUploadedFile "/uploads/sales.xlsx" (Chat.mkJsNumber "120")
    (Chat.mkJsNumber "7").

Definition asking_state : Chat.State :=
  Chat.mkState [Chat.mkMessage "user" "hello" "1" None;
                Chat.mkMessage "assistant" "hi" "2" (Some false)]
    "how many rows?" false None "" "".

(** The tool list a fetch delivers: the fetch resolves, the answer is
    [ok] and its body parses. *)
Definition fetched_tools (w : ChatRoute.World) : option jsval :=
  match ChatRoute.fetch_tools w with
  | Returned r =>
      if ChatRoute.tools_ok r then
        match ChatRoute.tools_json r with
        | Returned v => Some v
        | Thrown _ => None
        end
      else None
  | Thrown _ => None
  end.

(** The state after one more recorded call. *)
Definition record_call (c : ChatRoute.Call) (s : ChatRoute.State) : ChatRoute.State :=
  ChatRoute.mkState (ChatRoute.cachedTools s) (ChatRoute.calls s ++ [c]).

(** A backend that serves the tool list, and one that is down. *)
Definition analyze_tool_list : jsval :=
  JArr [JObj [("type", JStr "function");
              ("function", JObj [("name", JStr "analyzeExcel")])]].

Definition quiet_world (tools : completion ChatRoute.ToolsResponse) : ChatRoute.World :=
  ChatRoute.mkWorld
    (Returned (ChatRoute.mkRequestBody [[("role", JStr "user");
                                         ("content", JStr "how many rows?")]]
                 (JStr "/uploads/data.xlsx")))
    JUndefined
    tools
    (λ _ _ _, Returned (ChatRoute.mkChatCompletion
                [ChatRoute.mkChoice
                   (Some (ChatRoute.mkAssistantMessage (JStr "120") None))]))
    (λ _ _, Returned (ChatRoute.mkBackendResponse None))
    (λ _ _, Returned (mkUpstream ["120"] Done)).

Definition tools_served : ChatRoute.World :=
  quiet_world (Returned (ChatRoute.mkToolsResponse true (Returned analyze_tool_list))).

Definition tools_down : ChatRoute.World :=
  quiet_world (Thrown (Error "fetch failed")).

(** The response [new Response(stream)] makes of a stream. *)
Definition stream_response (st : Stream) : Response :=
  mkResponse (BodyStream st) 200 [].

(** The response [new Response(text, { status })] makes of a text. *)
Definition text_response (text : string) (status : Z) : Response :=
  mkResponse (BodyText text) status
    [("content-type", "text/plain;charset=UTF-8")].

(** The statuses under which a [Response] may carry a body: 200 to 599
    without 204, 205 and 304. *)
Definition admits_body (status : Z) : bool :=
  (200 <=? status) && (status <=? 599)
  && negb ((status =? 204) || (status =? 205) || (status =? 304)).

(** The status [new Response] reads off the [status] of an API error:
    200 when it is undefined, the number as an unsigned short
    otherwise. *)
Definition response_status (status : option Z) : Z :=
  match status with
  | Some n => n mod 65536
  | None => 200
  end.

(** How the [catch] block of the chat route answers a failure of the
    [try] block: the fixed text under 500 for an error that is no API
    error; for an API error its own message under its own status, when
    that status admits a body, and no response otherwise: the call
    rejects. *)
Definition answer_of_failure (e : exn) (answer : completion Response) : Prop :=
  match e with
  | Error _ => answer = Returned (text_response "An error occurred" 500)
  | APIError _ st m =>
      if admits_body (response_status st)
      then answer = Returned (text_response m (response_status st))
      else ∃ e', answer = Thrown e'
  end.

(** The stream of a response, when its body is one. *)
Definition response_stream (r : Response) : option Stream :=
  match body r with
  | BodyStream s => Some s
  | _ => None
  end.

(** A turn for which the model asks for two tools at once, with a
    backend that streams two chunks. *)
Definition two_tool_calls : list ChatRoute.ToolCall :=
  [ChatRoute.mkToolCall "analyzeExcel" "{}";
   ChatRoute.mkToolCall "queryDatabase" "{}"].

Definition rows_request : ChatRoute.RequestBody :=
  ChatRoute.mkRequestBody
    [[("role", JStr "user"); ("content", JStr "how many rows?")]]
    (JStr "/uploads/data.xlsx").

Definition two_tools_world : ChatRoute.World :=
  ChatRoute.mkWorld
    (Returned rows_request)
    JUndefined
    (Returned (ChatRoute.mkToolsResponse true (Returned analyze_tool_list)))
    (λ _ _ _, Returned (ChatRoute.mkChatCompletion
                [ChatRoute.mkChoice
                   (Some (ChatRoute.mkAssistantMessage JNull (Some two_tool_calls)))]))
    (λ _ _, Returned (ChatRoute.mkBackendResponse
                        (Some (mkUpstream ["Rows: "; "120"] Done))))
    (λ _ _, Returned (mkUpstream ["unused"] Done)).

(** The status notices: the announcement of a direct answer, and the
    announcement of the tools of a turn, by name. *)
Definition direct_answer_notice : string :=
  "[系統] 直接回答您的問題..." +:+ LF +:+ LF.

Definition tools_notice (names : list string) : string :=
  "[系統] 使用工具: " +:+ String.concat ", " names
    +:+ " 來處理您的請求..." +:+ LF +:+ LF.

Definition is_notice (chunk : string) : Prop :=
  chunk = direct_answer_notice
  ∨ ∃ name names, chunk = tools_notice (name :: names).

(** [choice.message?.tool_calls?.length > 0] does not hold. *)
Definition no_tool_calls (choice : ChatRoute.Choice) : Prop :=
  match ChatRoute.choice_message choice with
  | Some message =>
      match ChatRoute.tool_calls message with
      | Some (_ :: _) => False
      | _ => True
      end
  | None => True
  end.

(** A turn the model answers directly, in three chunks. *)
Definition direct_world : ChatRoute.World :=
  ChatRoute.mkWorld
    (Returned rows_request)
    JUndefined
    (Returned (ChatRoute.mkToolsResponse true (Returned analyze_tool_list)))
    (λ _ _ _, Returned (ChatRoute.mkChatCompletion
                [ChatRoute.mkChoice
                   (Some (ChatRoute.mkAssistantMessage (JStr "hello") None))]))
    (λ _ _, Thrown (Error "unused"))
    (λ _ _, Returned (mkUpstream ["The"; " sheet has"; " 120 rows"] Done)).





Definition stream_down_world : ChatRoute.World :=
  ChatRoute.mkWorld
    (Returned rows_request)
    JUndefined
    (Returned (ChatRoute.mkToolsResponse true (Returned analyze_tool_list)))
    (λ _ _ _, Returned (ChatRoute.mkChatCompletion
                [ChatRoute.mkChoice
                   (Some (ChatRoute.mkAssistantMessage (JStr "hello") None))]))
    (λ _ _, Thrown (Error "unused"))
    (λ _ _, Thrown (APIError "APIConnectionError" None "Connection error.")).

(** A proxy whose backend streams two chunks. *)
Definition proxy_streaming : ProxyRoute.World :=
  ProxyRoute.mkWorld (Returned (JArr [], JStr "how many rows?"))
    (JStr "http://127.0.0.1:8000/api/chat")
    (λ _ _ _, Returned (ProxyRoute.mkApiResponse true 200
                          (Some (mkUpstream ["Rows: "; "120"] Done)))).

(** A proxy whose backend is down, and one that was deployed without
    [PYTHON_API_URL]. *)
Definition proxy_backend_down : ProxyRoute.World :=
  ProxyRoute.mkWorld (Returned (JArr [], JStr "how many rows?"))
    (JStr "http://127.0.0.1:8000/api/chat")
    (λ _ _ _, Thrown (Error "fetch failed")).

Definition proxy_unconfigured : ProxyRoute.World :=
  ProxyRoute.mkWorld (Returned (JArr [], JStr "how many rows?"))
    JUndefined
    (λ _ _ _, Returned (ProxyRoute.mkApiResponse true 200
                          (Some (mkUpstream ["120"] Done)))).

(** A chat route whose backend is down, and one that receives a request
    body that does not parse. *)
Definition backend_down_world : ChatRoute.World :=
  ChatRoute.mkWorld
    (Returned rows_request)
    JUndefined
    (Returned (ChatRoute.mkToolsResponse true (Returned analyze_tool_list)))
    (λ _ _ _, Returned (ChatRoute.mkChatCompletion
                [ChatRoute.mkChoice
                   (Some (ChatRoute.mkAssistantMessage JNull (Some two_tool_calls)))]))
    (λ _ _, Thrown (Error "fetch failed"))
    (λ _ _, Thrown (Error "unused")).

Definition malformed_request_world : ChatRoute.World :=
  ChatRoute.mkWorld
    (Thrown (Error "Unexpected token } in JSON at position 12"))
    JUndefined
    (Returned (ChatRoute.mkToolsResponse true (Returned analyze_tool_list)))
    (λ _ _ _, Thrown (Error "unused"))
    (λ _ _, Thrown (Error "unused"))
    (λ _ _, Thrown (Error "unused")).

(** The same world, with the argument text of every tool call the model
    returns rewritten by [f]. *)
Definition set_arguments (f : string → string) (tc : ChatRoute.ToolCall)
  : ChatRoute.ToolCall :=
  ChatRoute.mkToolCall (ChatRoute.function_name tc)
    (f (ChatRoute.function_arguments tc)).

Definition rewrite_choice (f : string → string) (c : ChatRoute.Choice)
  : ChatRoute.Choice :=
  ChatRoute.mkChoice
    match ChatRoute.choice_message c with
    | Some m =>
        Some (ChatRoute.mkAssistantMessage (ChatRoute.answer m)
                match ChatRoute.tool_calls m with
                | Some tcs => Some (set_arguments f <$> tcs)
                | None => None
                end)
    | None => None
    end.

Definition with_arguments (f : string → string) (w : ChatRoute.World)
  : ChatRoute.World :=
  ChatRoute.mkWorld
    (ChatRoute.req_json w) (ChatRoute.OPENAI_MODEL w) (ChatRoute.fetch_tools w)
    (λ model messages tools,
       c ← ChatRoute.create_completion w model messages tools;
       mret (ChatRoute.mkChatCompletion
               (rewrite_choice f <$> ChatRoute.choices c)))
    (ChatRoute.fetch_chat w) (ChatRoute.create_stream w).

(** Generated code that evaluates a dunder attribute of the dataframe,
    a generator that returns it for every request, and an allowlist. *)
Definition eval_dunder_text : string := "eval(df.__class__)".

Definition eval_dunder_program : list Backend.stmt :=
  [Backend.Expr
     (Backend.Call (Backend.Name "eval")
        [Backend.Attribute (Backend.Name "df") "__class__"])].

Definition compromised_pipeline : Backend.Pipeline :=
  Backend.mkPipeline
    (λ _ _, Some eval_dunder_text)
    (λ text, if String.eqb text eval_dunder_text then Some eval_dunder_program
             else None)
    (λ _, Backend.mkExecutionResult ["escaped"] None Backend.success "").

Definition pandas_allowlist : Backend.Allowlist :=
  Backend.mkAllowlist ["len"; "print"; "sum"; "max"; "min"] ["pandas"; "numpy"]
    "df" ["system"; "popen"].

(** Three registrations, the last under the name of the first. *)
Definition replaced_tools : list (PydanticTool nat) :=
  [mkTool "excelAnalyzer" "first" [] 1%nat;
   mkTool "databaseQuery" "second" [] 2%nat;
   mkTool "excelAnalyzer" "third" [] 3%nat].

(* ===================================================================== *)
(** * Further notions: registry order, call traces                        *)
(* ===================================================================== *)

(** The names of a sequence of registrations, each once, in the order in
    which they were first registered. *)
Definition first_registrations (names : list string) : list string :=
  rev (remove_dups (rev names)).

(** The calls one turn of the chat route may add to the trace: at most
    one fetch of the tool list, then at most one call of the model, then
    at most one of the backend chat and the model stream. *)
Definition turn_calls (l : list ChatRoute.Call) : Prop :=
  ∃ pre rest,
    l = pre ++ rest
    ∧ (pre = [] ∨ pre = [ChatRoute.CallFetchTools])
    ∧ (rest = []
       ∨ (∃ t, rest = [ChatRoute.CallCompletion t])
       ∨ (∃ t c f, rest = [ChatRoute.CallCompletion t; ChatRoute.CallBackendChat c f])
       ∨ (∃ t, rest = [ChatRoute.CallCompletion t; ChatRoute.CallStream])).

(** The generic answer of the [catch] block of the chat route. *)
Definition an_error_occurred : Response :=
  mkResponse (BodyText "An error occurred") 500
    [("content-type", "text/plain;charset=UTF-8")].

(** The argument of [sql.connect] in the [databaseQuery] handler. *)
Definition connection_config (ext : Externals) : jsval :=
  JObj [("server", process_env ext "DB_SERVER");
        ("database", process_env ext "DB_NAME");
        ("user", process_env ext "DB_USER");
        ("password", process_env ext "DB_PASSWORD");
        ("options", JObj [("encrypt", JBool true)])].

(** A database whose connection cannot be closed, and one that works. *)
Definition sql_world (close : completion unit) : Externals :=
  mkExternals
    (λ _, Thrown (Error "unused"))
    (λ _, Returned [])
    (λ _, JStr "db")
    (λ _, Returned ())
    (λ _ _, Returned [("recordset", JArr [JNum 1; JNum 2])])
    close.

(** A tool list service that answers with the JSON value [null]. *)
Definition tools_null : ChatRoute.World :=
  quiet_world (Returned (ChatRoute.mkToolsResponse true (Returned JNull))).

(** A model that returns no choice at all. *)
Definition no_choice_world : ChatRoute.World :=
  ChatRoute.mkWorld
    (Returned rows_request)
    JUndefined
    (Returned (ChatRoute.mkToolsResponse true (Returned analyze_tool_list)))
    (λ _ _ _, Returned (ChatRoute.mkChatCompletion []))
    (λ _ _, Returned (ChatRoute.mkBackendResponse None))
    (λ _ _, Returned (mkUpstream ["unused"] Done)).


(* ===================================================================== *)
(** * The [Chat] component: collapsing messages, the name of the file    *)
(* ===================================================================== *)

(** [toggleMessageCollapse(messageId)]:
    [setMessages(prev => prev.map(msg => msg.id === messageId
       ? { ...msg, isCollapsed: !msg.isCollapsed } : msg))];
    [!undefined] is [true]. *)
Definition toggle (msg : Chat.Message) : Chat.Message :=
  Chat.mkMessage (Chat.role msg) (Chat.content msg) (Chat.id msg)
    (Some (negb (default false (Chat.isCollapsed msg)))).

Definition toggleMessageCollapse (messageId : string) (s : Chat.State)
  : Chat.State :=
  Chat.setMessages
    (λ prev, (λ msg, if String.eqb (Chat.id msg) messageId then toggle msg
                     else msg) <$> prev) s.

(** [s.split('/')]: the segments between the slashes; never empty. *)
Fixpoint split_slash (s : string) : list string :=
  match s with
  | "" => [""]
  | String c s' =>
      if Ascii.eqb c "/" then "" :: split_slash s'
      else
        match split_slash s' with
        | segment :: rest => String c segment :: rest
        | [] => [String c ""]
        end
  end.

(** [uploadedFile.path.split('/').pop()], the name shown in the banner
    and in the list of uploaded files. *)
Definition file_name (path : string) : string :=
  default "" (last (split_slash path)).

(** Whether a string contains the character [c]. *)
Fixpoint contains_char (c : ascii) (s : string) : bool :=
  match s with
  | "" => false
  | String a s' => Ascii.eqb a c || contains_char c s'
  end.

(* ===================================================================== *)
(** * components/chat/chat-message.tsx: the code renderer                 *)
(* ===================================================================== *)

Module ChatMessage.

(** The class [\w] of a regular expression: [A-Za-z0-9_]. *)
Definition word_char (c : ascii) : bool :=
  let n := N_of_ascii c in
  ((48 <=? n) && (n <=? 57) || (65 <=? n) && (n <=? 90)
   || (97 <=? n) && (n <=? 122) || (n =? 95))%N.

(** The longest prefix of word characters: what [\w+] consumes. *)
Fixpoint word_prefix (s : string) : string :=
  match s with
  | "" => ""
  | String c s' => if word_char c then String c (word_prefix s') else ""
  end.

(** The rest of [s] after the prefix [p], when [s] starts with [p]. *)
Fixpoint strip_prefix (p s : string) : option string :=
  match p with
  | "" => Some s
  | String a p' =>
      match s with
      | "" => None
      | String b s' => if Ascii.eqb a b then strip_prefix p' s' else None
      end
  end.

(** [/language-(\w+)/.exec(s)], the first group of the match: the match
    is tried at each position from the left. *)
Fixpoint exec_language (s : string) : option string :=
  match strip_prefix "language-" s with
  | Some rest =>
      match word_prefix rest with
      | "" => match s with
              | "" => None
              | String _ s' => exec_language s'
              end
      | language => Some language
      end
  | None =>
      match s with
      | "" => None
      | String _ s' => exec_language s'
      end
  end.

(** [const match = /language-(\w+)/.exec(className || '')]; the
    highlighter is used with [match[1]] when there is a match. *)
Definition code_language (className : option string) : option string :=
  exec_language
    match className with
    | Some c => if String.eqb c "" then "" else c
    | None => ""
    end.

(** [text.replace(/\n$/, '')]: one line feed at the very end is removed. *)
Fixpoint strip_final_newline (text : string) : string :=
  match text with
  | "" => ""
  | String c rest =>
      if Ascii.eqb c "010" && String.eqb rest "" then ""
      else String c (strip_final_newline rest)
  end.

End ChatMessage.

(** Every character of [s] is a word character. *)
Fixpoint all_word (s : string) : bool :=
  match s with
  | "" => true
  | String c s' => ChatMessage.word_char c && all_word s'
  end.

(** [s] is empty or starts with a character that is no word character. *)
Definition word_ends (s : string) : bool :=
  match s with
  | "" => true
  | String c _ => negb (ChatMessage.word_char c)
  end.

(** A conversation with a user message, which has no collapse flag, and
    two answers. *)
Definition three_messages : Chat.State :=
  Chat.mkState
    [Chat.mkMessage "user" "hello" "1" None;
     Chat.mkMessage "assistant" "hi" "2" (Some false);
     Chat.mkMessage "assistant" "again" "3" (Some true)]
    "" false None "" "".

(* ===================================================================== *)
(** * Values of parsed JSON in the upload components                      *)
(* ===================================================================== *)

(** [v.k] for a key [k] that is no built-in member of strings, arrays or
    numbers (the components read [error], [path], [rows], [columns]): a
    [TypeError] on [undefined] and [null], the property of an object,
    [undefined] otherwise. *)
Definition member (v : jsval) (k : string) : completion jsval :=
  match v with
  | JUndefined =>
      Thrown (Error ("Cannot read properties of undefined (reading '"
                     +:+ k +:+ "')"))
  | JNull =>
      Thrown (Error ("Cannot read properties of null (reading '" +:+ k +:+ "')"))
  | JObj props => Returned (prop props k)
  | JBool _ | JNum _ | JStr _ | JArr _ => Returned JUndefined
  end.

(** [String(v)], as [new Error(v)] applies it to its argument; values of
    parsed JSON have no [toString] of their own. *)
Fixpoint to_string (v : jsval) : string :=
  match v with
  | JUndefined => "undefined"
  | JNull => "null"
  | JBool true => "true"
  | JBool false => "false"
  | JNum n => pretty n
  | JStr s => s
  | JArr items =>
      String.concat ","
        ((fix each (l : list jsval) : list string :=
            match l with
            | [] => []
            | JUndefined :: l' | JNull :: l' => "" :: each l'
            | item :: l' => to_string item :: each l'
            end) items)
  | JObj _ => "[object Object]"
  end.

(** [message || fallback] on strings. *)
Definition or_else (text fallback : string) : string :=
  if String.eqb text "" then fallback else text.

(* ===================================================================== *)
(** * The [ToolPanel] component: [handleFileUpload] (in
      src/lib/tools/registry.ts after the chat component)                 *)
(* ===================================================================== *)

Module ToolPanel.

Inductive UploadStatus : Type := idle | uploading | success | error.

(** A [File] of the file input, known by its name. *)
Record File : Type := mkFile { File_name : string }.

Record State : Type := mkState {
  file : option File;
  uploadStatus : UploadStatus;
  error_text : option string
}.

(** The answer of [fetch('http://127.0.0.1:8000/api/upload', ...)]. *)
Record UploadResponse : Type := mkUploadResponse {
  ok : bool;
  json : completion jsval
}.

(** The argument of [onFileUpload]: [{ path, rows, columns }]. *)
Record FileInfo : Type := mkFileInfo {
  path : jsval;
  rows : jsval;
  columns : jsval
}.

(** The [try] block after the three state updates: the body is parsed
    before the status is tested. *)
Definition upload (fetch : File → completion UploadResponse) (f : File)
  : completion FileInfo :=
  response ← fetch f;
  data ← json response;
  if negb (ok response) then
    reason ← member data "error";
    Thrown (Error (if truthy reason then to_string reason else "Upload failed"))
  else
    p ← member data "path";
    r ← member data "rows";
    c ← member data "columns";
    mret (mkFileInfo p r c).

(** [handleFileUpload(e)] with [e.target.files]: the state it leaves and
    the argument [onFileUpload] was called with, if it was called. *)
Definition handleFileUpload (fetch : File → completion UploadResponse)
    (files : list File) (s : State) : State * option FileInfo :=
  match files with
  | [] => (s, None)
  | f :: _ =>
      match upload fetch f with
      | Returned info => (mkState (Some f) success None, Some info)
      | Thrown e =>
          (mkState (Some f) error
             (Some (or_else (message e) "上傳失敗，請稍後再試")), None)
      end
  end.

End ToolPanel.

(* ===================================================================== *)
(** * components/file-upload.tsx: [fetchUploadedFiles], [handleUpload]    *)
(* ===================================================================== *)

Module FileUpload.

Record Toast : Type := mkToast {
  title : string;
  description : string;
  destructive : bool
}.

(** The state of the component, with the [filePath] of the context it
    sets through [setFilePath]. *)
Record State : Type := mkState {
  file : option string;
  uploading : bool;
  progress : Z;
  uploadedFiles : list jsval;
  filePath : jsval
}.

Definition setUploadedFiles (f : list jsval → list jsval) (s : State) : State :=
  mkState (file s) (uploading s) (progress s) (f (uploadedFiles s)) (filePath s).
Definition setFilePath (v : jsval) (s : State) : State :=
  mkState (file s) (uploading s) (progress s) (uploadedFiles s) v.
Definition setProgress (v : Z) (s : State) : State :=
  mkState (file s) (uploading s) v (uploadedFiles s) (filePath s).
Definition setUploading (v : bool) (s : State) : State :=
  mkState (file s) v (progress s) (uploadedFiles s) (filePath s).
Definition setFile (v : option string) (s : State) : State :=
  mkState v (uploading s) (progress s) (uploadedFiles s) (filePath s).

(** The answer of [fetch('http://127.0.0.1:8000/api/files')]; the body
    is an array. *)
Record FilesResponse : Type := mkFilesResponse {
  ok : bool;
  json : completion (list jsval)
}.

Definition files_toast : Toast :=
  mkToast "無法獲取文件列表" "請檢查後端服務是否正常運行" true.

(** The [try] block of [fetchUploadedFiles], with the state at the point
    where it ends or throws. *)
Definition fetch_try (fetch : completion FilesResponse) (s : State)
  : completion unit * State :=
  match fetch with
  | Thrown e => (Thrown e, s)
  | Returned response =>
      if ok response then
        match json response with
        | Thrown e => (Thrown e, s)
        | Returned files =>
            let s := setUploadedFiles (λ _, files) s in
            match last files with
            | None => (Returned (), s)
            | Some lastFile =>
                match member lastFile "path" with
                | Thrown e => (Thrown e, s)
                | Returned p => (Returned (), setFilePath p s)
                end
            end
        end
      else (Returned (), s)
  end.

Definition fetchUploadedFiles (fetch : completion FilesResponse) (s : State)
  : State * list Toast :=
  match fetch_try fetch s with
  | (Returned _, s') => (s', [])
  | (Thrown _, s') => (s', [files_toast])
  end.

(** How the request of [handleUpload] ends: [onload] with a status, or
    [onerror]. *)
Inductive XhrOutcome : Type :=
| Load (status : Z) (statusText responseText : string)
| NetworkError.

Record ProgressEvent : Type := mkProgressEvent {
  lengthComputable : bool;
  loaded : Z;
  total : Z
}.

(** The surroundings of one upload: the progress events and the end of
    the request, [Math.round((loaded / total) * 100)], and [JSON.parse]. *)
Record World : Type := mkWorld {
  progress_events : list ProgressEvent;
  xhr : XhrOutcome;
  round_percentage : Z → Z → Z;
  JSON_parse : string → completion jsval
}.

(** [xhr.upload.onprogress] *)
Definition onprogress (w : World) (event : ProgressEvent) (s : State) : State :=
  if lengthComputable event
  then setProgress (round_percentage w (loaded event) (total event)) s
  else s.

(** [xhr.onload] and [xhr.onerror]: the promise is resolved, or rejected
    with an error; the state updates made before a rejection stay. *)
Definition settle (w : World) (name : string) (s : State)
  : completion unit * State * list Toast :=
  match xhr w with
  | Load status statusText responseText =>
      if status =? 200 then
        match JSON_parse w responseText with
        | Thrown _ => (Thrown (Error "無法解析伺服器回應"), s, [])
        | Returned data =>
            let s := setUploadedFiles (λ prev, prev ++ [data]) s in
            match member data "path" with
            | Thrown _ => (Thrown (Error "無法解析伺服器回應"), s, [])
            | Returned p =>
                (Returned (), setFilePath p s,
                 [mkToast "上傳成功" ("文件 " +:+ name +:+ " 已成功上傳") false])
            end
        end
      else (Thrown (Error ("上傳失敗: " +:+ statusText)), s, [])
  | NetworkError =>
      (Thrown (Error "網絡錯誤，請檢查後端服務是否正常運行"), s, [])
  end.

(** [handleUpload()]: the promise with its [catch] and [finally]. *)
Definition handleUpload (w : World) (s : State) : State * list Toast :=
  match file s with
  | None => (s, [])
  | Some name =>
      let s := setProgress 0 (setUploading true s) in
      let s := foldl (λ s event, onprogress w event s) s (progress_events w) in
      let '(outcome, s, toasts) := settle w name s in
      let toasts :=
        match outcome with
        | Returned _ => toasts
        | Thrown e => toasts ++ [mkToast "上傳失敗" (message e) true]
        end in
      (setProgress 0 (setFile None (setUploading false s)), toasts)
  end.

End FileUpload.

(** An upload service that answers 500 with a page that is no JSON, and
    one that accepts the file. *)
Definition upload_rejected : ToolPanel.File → completion ToolPanel.UploadResponse :=
  λ _, Returned (ToolPanel.mkUploadResponse false
                   (Thrown (Error "Unexpected token < in JSON at position 0"))).

Definition upload_accepted : ToolPanel.File → completion ToolPanel.UploadResponse :=
  λ _, Returned (ToolPanel.mkUploadResponse true
                   (Returned (JObj [("path", JStr "/uploads/data.xlsx");
                                    ("rows", JNum 120); ("columns", JNum 5)]))).

(** An upload whose answer is the JSON value [null] under status 200. *)
Definition null_upload : FileUpload.World :=
  FileUpload.mkWorld
    [FileUpload.mkProgressEvent true 50 100; FileUpload.mkProgressEvent false 0 0]
    (FileUpload.Load 200 "OK" "null")
    (λ loaded total, 100 * loaded / total)
    (λ _, Returned JNull).

Definition selected_file : FileUpload.State :=
  FileUpload.mkState (Some "data.xlsx") false 0 [JObj [("path", JStr "/a.xlsx")]]
    (JStr "/a.xlsx").

(* ===================================================================== *)
(** * Properties                                                          *)
(* ===================================================================== *)

Section map_facts.
Context {V : Type}.
Implicit Types (m : JsMap.t V) (k : string) (v : V).

Lemma get_set_eq m k v : JsMap.get k (JsMap.set k v m) = Some v.
Proof.
  induction m as [|[k' v'] m IH]; unfold JsMap.get in *; simpl.
  - by rewrite String.eqb_refl.
  - destruct (String.eqb k k') eqn:E; simpl.
    + by rewrite String.eqb_refl.
    + by rewrite E.
Qed.

Lemma get_set_ne m k k' v :
  k ≠ k' → JsMap.get k' (JsMap.set k v m) = JsMap.get k' m.
Proof.
  intros Hne. unfold JsMap.get.
  assert (Hf : String.eqb k' k = false) by (apply String.eqb_neq; congruence).
  induction m as [|[k0 v0] m IH]; simpl.
  - by rewrite Hf.
  - destruct (String.eqb k k0) eqn:E; simpl.
    + apply String.eqb_eq in E. subst k0. by rewrite Hf.
    + by rewrite IH.
Qed.

Lemma keys_set_in m k v : k ∈ JsMap.keys m → JsMap.keys (JsMap.set k v m) = JsMap.keys m.
Proof.
  unfold JsMap.keys.
  induction m as [|[k0 v0] m IH]; simpl; intros Hin.
  - by apply elem_of_nil in Hin.
  - destruct (String.eqb k k0) eqn:E; simpl.
    + apply String.eqb_eq in E. by subst.
    + f_equal. apply IH. apply elem_of_cons in Hin as [->|Hin]; [|done].
      by rewrite String.eqb_refl in E.
Qed.

Lemma keys_set_notin m k v :
  k ∉ JsMap.keys m → JsMap.keys (JsMap.set k v m) = JsMap.keys m ++ [k].
Proof.
  unfold JsMap.keys.
  induction m as [|[k0 v0] m IH]; simpl; intros Hin; [done|].
  apply not_elem_of_cons in Hin as [Hne Hin].
  destruct (String.eqb k k0) eqn:E; simpl.
  - apply String.eqb_eq in E. by subst.
  - f_equal. by apply IH.
Qed.

Lemma get_None_keys m k : JsMap.get k m = None ↔ k ∉ JsMap.keys m.
Proof.
  unfold JsMap.get, JsMap.keys.
  induction m as [|[k0 v0] m IH]; simpl.
  - split; [intros _; apply not_elem_of_nil | done].
  - destruct (String.eqb k k0) eqn:E.
    + apply String.eqb_eq in E. subst. split; [done|].
      intros Hn. exfalso. apply Hn. left.
    + rewrite IH. apply String.eqb_neq in E.
      rewrite not_elem_of_cons. split; [done|by intros [_ ?]].
Qed.
End map_facts.

Section registry_facts.
Context {H : Type}.
Implicit Types (r : ToolRegistry.t H) (tool : PydanticTool H)
               (ts : list (PydanticTool H)) (n : string).

Lemma keyed_by_name_set (m : JsMap.t (PydanticTool H)) tool :
  keyed_by_name m → keyed_by_name (JsMap.set (name tool) tool m).
Proof.
  unfold keyed_by_name. induction 1 as [|[k v] m Hkv Hm IH]; simpl.
  - by repeat constructor.
  - destruct (String.eqb (name tool) k); by constructor.
Qed.

Lemma register_all_snoc ts tool :
  ToolRegistry.register_all (ts ++ [tool])
  = ToolRegistry.register (ToolRegistry.register_all ts) tool.
Proof. unfold ToolRegistry.register_all. by rewrite foldl_app. Qed.

Lemma register_all_keyed ts :
  keyed_by_name (ToolRegistry.tools (ToolRegistry.register_all ts)).
Proof.
  induction ts as [|tool ts IH] using rev_ind.
  - constructor.
  - rewrite register_all_snoc. by apply keyed_by_name_set.
Qed.

Lemma keyed_names (m : JsMap.t (PydanticTool H)) :
  keyed_by_name m → name <$> JsMap.values m = JsMap.keys m.
Proof.
  unfold JsMap.values, JsMap.keys.
  induction 1 as [|[k v] m Hkv Hm IH]; [done|].
  rewrite !fmap_cons. simpl in Hkv. by f_equal.
Qed.

Lemma list_names ts :
  name <$> ToolRegistry.list (ToolRegistry.register_all ts)
  = JsMap.keys (ToolRegistry.tools (ToolRegistry.register_all ts)).
Proof. apply keyed_names, register_all_keyed. Qed.

Lemma last_registered_snoc n ts tool :
  last_registered n (ts ++ [tool])
  = if String.eqb n (name tool) then Some tool else last_registered n ts.
Proof. unfold last_registered. by rewrite rev_unit. Qed.

Lemma get_register_all ts n :
  ToolRegistry.get (ToolRegistry.register_all ts) n = last_registered n ts.
Proof.
  induction ts as [|tool ts IH] using rev_ind; [done|].
  rewrite register_all_snoc, last_registered_snoc.
  unfold ToolRegistry.get, ToolRegistry.register in *; simpl.
  destruct (String.eqb n (name tool)) eqn:E.
  - apply String.eqb_eq in E. subst n. apply get_set_eq.
  - apply String.eqb_neq in E. rewrite get_set_ne by congruence. apply IH.
Qed.

Lemma last_registered_None n ts :
  last_registered n ts = None ↔ ∀ tool, tool ∈ ts → name tool ≠ n.
Proof.
  induction ts as [|t ts IH] using rev_ind.
  - split; [|done]. intros _ tool Hin. by apply elem_of_nil in Hin.
  - rewrite last_registered_snoc.
    destruct (String.eqb n (name t)) eqn:E.
    + apply String.eqb_eq in E. split; [done|].
      intros Hall. exfalso. apply (Hall t); [|done].
      apply elem_of_app. right. apply list_elem_of_singleton. done.
    + apply String.eqb_neq in E. rewrite IH. split.
      * intros Hall tool Hin. apply elem_of_app in Hin as [Hin|Hin].
        -- by apply Hall.
        -- apply list_elem_of_singleton in Hin. subst. congruence.
      * intros Hall tool Hin. apply Hall, elem_of_app. by left.
Qed.

Lemma keys_register_all_NoDup ts :
  NoDup (JsMap.keys (ToolRegistry.tools (ToolRegistry.register_all ts))).
Proof.
  induction ts as [|tool ts IH] using rev_ind; [constructor|].
  rewrite register_all_snoc. unfold ToolRegistry.register; simpl.
  destruct (decide (name tool ∈
    JsMap.keys (ToolRegistry.tools (ToolRegistry.register_all ts)))) as [Hin|Hin].
  - by rewrite keys_set_in.
  - rewrite keys_set_notin by done. apply NoDup_app. split_and!; [done| |].
    + intros x Hx Hx'. apply list_elem_of_singleton in Hx'. by subst.
    + apply NoDup_singleton.
Qed.

Lemma keys_register_all_elem ts n :
  n ∈ JsMap.keys (ToolRegistry.tools (ToolRegistry.register_all ts))
  ↔ n ∈ name <$> ts.
Proof.
  induction ts as [|tool ts IH] using rev_ind; [done|].
  rewrite register_all_snoc, fmap_app, elem_of_app, <- IH.
  unfold ToolRegistry.register; simpl.
  rewrite list_elem_of_singleton.
  destruct (decide (name tool ∈
    JsMap.keys (ToolRegistry.tools (ToolRegistry.register_all ts)))) as [Hin|Hin].
  - rewrite keys_set_in by done. split; [by left|]. intros [?| ->]; done.
  - rewrite keys_set_notin, elem_of_app, list_elem_of_singleton by done. done.
Qed.
End registry_facts.

Example registry_holds_the_three_tools :
  name <$> ToolRegistry.list registry
  = ["excelAnalyzer"; "databaseQuery"; "dataVisualizer"]
  ∧ ToolRegistry.get registry "excelAnalyzer" = Some Definitions.excelAnalyzer
  ∧ ToolRegistry.get registry "analyzeExcel" = None.
Proof. by vm_compute. Qed.

(** C10.  For every sequence [ts] of [register] calls on a fresh registry:
    [get(n)] is the tool registered last under the name [n]; it is
    [undefined] exactly when no tool of that name was registered;
    registering a tool under a name already present replaces the earlier
    tool without adding an entry; and [list()] holds exactly one entry per
    distinct registered name. *)
Theorem registry_get_last_and_list_distinct
    {H : Type} (ts : list (PydanticTool H)) :
  let r := ToolRegistry.register_all ts in
  (∀ n, ToolRegistry.get r n = last_registered n ts) ∧
  (∀ n, ToolRegistry.get r n = None ↔ ∀ tool, tool ∈ ts → name tool ≠ n) ∧
  (∀ tool, ToolRegistry.get (ToolRegistry.register r tool) (name tool) = Some tool) ∧
  (∀ tool old, ToolRegistry.get r (name tool) = Some old →
     length (ToolRegistry.list (ToolRegistry.register r tool))
     = length (ToolRegistry.list r)) ∧
  NoDup (name <$> ToolRegistry.list r) ∧
  (∀ n, n ∈ name <$> ToolRegistry.list r ↔ n ∈ name <$> ts) ∧
  length (ToolRegistry.list r) = length (remove_dups (name <$> ts)).
Proof.
  intros r. subst r. split_and!.
  - intros n. apply get_register_all.
  - intros n. rewrite get_register_all. apply last_registered_None.
  - intros tool. rewrite <- register_all_snoc, get_register_all,
      last_registered_snoc. by rewrite String.eqb_refl.
  - intros tool old Hget.
    rewrite <- (length_fmap name), <- (length_fmap name (ToolRegistry.list _)).
    rewrite <- register_all_snoc, !list_names, register_all_snoc.
    unfold ToolRegistry.register; simpl. rewrite keys_set_in; [done|].
    destruct (decide (name tool ∈
      JsMap.keys (ToolRegistry.tools (ToolRegistry.register_all ts)))) as [|Hn];
      [done|].
    apply get_None_keys in Hn. unfold ToolRegistry.get in Hget. congruence.
  - rewrite list_names. apply keys_register_all_NoDup.
  - intros n. rewrite list_names. apply keys_register_all_elem.
  - rewrite <- (length_fmap name), list_names.
    apply Permutation_length, NoDup_Permutation.
    + apply keys_register_all_NoDup.
    + apply NoDup_remove_dups.
    + intros n. rewrite keys_register_all_elem, elem_of_remove_dups. done.
Qed.

Lemma registry_get_last_and_list_distinct_witness :
  ToolRegistry.get (ToolRegistry.register_all replaced_tools) "excelAnalyzer"
  = Some (mkTool "excelAnalyzer" "third" [] 3%nat)
  ∧ (ToolRegistry.get (ToolRegistry.register_all replaced_tools) "dataVisualizer"
     = None
     ↔ ∀ tool, tool ∈ replaced_tools → name tool ≠ "dataVisualizer")
  ∧ length (ToolRegistry.list (ToolRegistry.register_all replaced_tools)) = 2%nat.
Proof.
  destruct (registry_get_last_and_list_distinct replaced_tools)
    as (Hget & Hnone & _ & _ & _ & _ & Hlen).
  split_and!.
  - exact (Hget "excelAnalyzer").
  - exact (Hnone "dataVisualizer").
  - exact Hlen.
Defined.

(* --------------------------------------------------------------------- *)
(** ** The [excelAnalyzer] handler                                        *)
(* --------------------------------------------------------------------- *)

Example summary_of_sheet_without_rows :
  Definitions.excelAnalyzer_handler
    (mkExternals
       (λ _, Returned (mkWorkBook ["Sheet1"] [("Sheet1", JObj [])]))
       (λ _, Returned []) (λ _, JUndefined) (λ _, Returned ())
       (λ _ _, Returned []) (Returned ()))
    (JObj [("filePath", JStr "empty.xlsx"); ("operation", JStr "summary")])
  = Returned (JObj [("error",
                     JStr "Cannot convert undefined or null to object")]).
Proof. reflexivity. Qed.

Example unreadable_file_is_an_error_object :
  Definitions.excelAnalyzer_handler
    (mkExternals
       (λ _, Thrown (Error "ENOENT: no such file or directory"))
       (λ _, Returned []) (λ _, JUndefined) (λ _, Returned ())
       (λ _ _, Returned []) (Returned ()))
    (JObj [("operation", JStr "analyze")])
  = Returned (JObj [("error", JStr "ENOENT: no such file or directory")]).
Proof. reflexivity. Qed.

Lemma destructure_properties argument first :
  argument ≠ JUndefined → argument ≠ JNull →
  destructure argument first = Returned (properties_of argument).
Proof. by destruct argument. Qed.

Lemma read_rows_first_sheet ext filePath workbook :
  XLSX_readFile ext filePath = Returned workbook →
  Definitions.read_rows ext filePath
  = XLSX_sheet_to_json ext (first_sheet workbook).
Proof.
  intros Hread. unfold Definitions.read_rows, first_sheet. rewrite Hread. simpl.
  by destruct (SheetNames workbook).
Qed.

(** C9, as stated, fails: the handler does not return for every input.
    Its parameter is a destructuring pattern, bound before the [try]
    block is entered, so a call with [undefined] or with [null] throws
    a [TypeError] that nothing catches. *)
Lemma excelAnalyzer_throws_without_argument :
  Definitions.excelAnalyzer_handler six_rows_ext JUndefined
  = Thrown (Error
      "Cannot destructure property 'filePath' of 'undefined' as it is undefined.")
  ∧ Definitions.excelAnalyzer_handler six_rows_ext JNull
    = Thrown (Error
        "Cannot destructure property 'filePath' of 'null' as it is null.").
Proof. split; vm_compute; reflexivity. Qed.

(** C9, amended.  For every argument other than [undefined] and [null]
    the [excelAnalyzer] handler returns an object and never throws.  A
    workbook that cannot be read, or a sheet that cannot be converted,
    gives [{ error: message }].  When the first sheet of the workbook at
    [filePath] has at least one data row, ['summary'] returns the number
    of rows, the property names of the first row and the first rows, at
    most five of them; when it has no data row, ['summary'] returns an
    error object, not a count of 0; an operation other than ['summary']
    and ['analyze'] returns an error object. *)
Theorem excelAnalyzer_handler_total (ext : Externals) (argument : jsval) :
  argument ≠ JUndefined → argument ≠ JNull →
  let result := Definitions.excelAnalyzer_handler ext argument in
  let filePath := prop (properties_of argument) "filePath" in
  let operation := prop (properties_of argument) "operation" in
  (∃ props, result = Returned (JObj props)) ∧
  (∀ e, XLSX_readFile ext filePath = Thrown e →
        result = Returned (JObj [("error", JStr (message e))])) ∧
  (∀ workbook e,
     XLSX_readFile ext filePath = Returned workbook →
     XLSX_sheet_to_json ext (first_sheet workbook) = Thrown e →
     result = Returned (JObj [("error", JStr (message e))])) ∧
  (∀ workbook row data,
     XLSX_readFile ext filePath = Returned workbook →
     XLSX_sheet_to_json ext (first_sheet workbook) = Returned (row :: data) →
     is_str operation "summary" = true →
     result = Returned (JObj
       [("rowCount", JNum (Z.of_nat (length (row :: data))));
        ("columns", JArr (JStr <$> row.*1));
        ("sample", JArr (JObj <$> take 5 (row :: data)))])
     ∧ (length (take 5 (row :: data)) ≤ 5)%nat) ∧
  (∀ workbook,
     XLSX_readFile ext filePath = Returned workbook →
     XLSX_sheet_to_json ext (first_sheet workbook) = Returned [] →
     is_str operation "summary" = true →
     result = Returned (JObj
       [("error", JStr "Cannot convert undefined or null to object")])) ∧
  (is_str operation "summary" = false →
   is_str operation "analyze" = false →
   ∃ v, result = Returned v ∧ error_object v) ∧
  (∀ workbook data,
     XLSX_readFile ext filePath = Returned workbook →
     XLSX_sheet_to_json ext (first_sheet workbook) = Returned data →
     is_str operation "summary" = false →
     is_str operation "analyze" = false →
     result = Returned (JObj [("error", JStr "不支持的操作")])).
Proof.
  intros Hundefined Hnull result filePath operation.
  subst result filePath operation.
  unfold Definitions.excelAnalyzer_handler.
  rewrite (destructure_properties argument "filePath") by done. simpl.
  set (args := properties_of argument).
  split_and!.
  - destruct (Definitions.read_rows ext (prop args "filePath")) as [data|e];
      simpl; [|by eexists].
    destruct (is_str (prop args "operation") "summary").
    + destruct data as [|row data]; simpl; by eexists.
    + destruct (is_str (prop args "operation") "analyze"); by eexists.
  - intros e Hread. unfold Definitions.read_rows. by rewrite Hread.
  - intros workbook e Hread Hrows.
    by rewrite (read_rows_first_sheet _ _ _ Hread), Hrows.
  - intros workbook row data Hread Hrows ->.
    rewrite (read_rows_first_sheet _ _ _ Hread), Hrows. split.
    + simpl. unfold slice0. by rewrite fmap_take.
    + rewrite length_take. lia.
  - intros workbook Hread Hrows ->.
    by rewrite (read_rows_first_sheet _ _ _ Hread), Hrows.
  - intros -> ->.
    destruct (Definitions.read_rows ext (prop args "filePath")) as [data|e];
      simpl; (eexists; split; [done|]; by eexists).
  - intros workbook data Hread Hrows -> ->.
    by rewrite (read_rows_first_sheet _ _ _ Hread), Hrows.
Qed.

Lemma excelAnalyzer_handler_total_witness :
  Definitions.excelAnalyzer_handler six_rows_ext
    (JObj [("filePath", JStr "data.xlsx"); ("operation", JStr "summary")])
  = Returned (JObj
      [("rowCount", JNum 6);
       ("columns", JArr [JStr "id"; JStr "name"]);
       ("sample", JArr (JObj <$> take 5 six_rows))]).
Proof.
  pose proof (excelAnalyzer_handler_total six_rows_ext
    (JObj [("filePath", JStr "data.xlsx"); ("operation", JStr "summary")])
    ltac:(discriminate) ltac:(discriminate)) as Htot.
  destruct Htot as (_ & _ & _ & Hsummary & _).
  destruct (Hsummary _ _ _ eq_refl eq_refl eq_refl) as [Hres _].
  exact Hres.
Defined.

(* --------------------------------------------------------------------- *)
(** ** The chat component: what a submission does to the messages         *)
(* --------------------------------------------------------------------- *)

Lemma append_cons (a : ascii) (s t : string) :
  String a s +:+ t = String a (s +:+ t).
Proof. reflexivity. Qed.

Lemma append_nil_r (s : string) : s +:+ "" = s.
Proof. induction s as [|a s IH]; [done|]. by rewrite append_cons, IH. Qed.

Lemma append_assoc (s1 s2 s3 : string) : (s1 +:+ s2) +:+ s3 = s1 +:+ (s2 +:+ s3).
Proof. induction s1 as [|a s1 IH]; [done|]. by rewrite !append_cons, IH. Qed.

Section chat_facts.
Context (w : Chat.World).

Lemma read_loop_messages cs fin full s :
  Chat.messages (Chat.read_loop w cs fin full s).2 = Chat.messages s.
Proof.
  revert full s. induction cs as [|c cs IH]; intros full s; simpl.
  - by destruct fin.
  - by rewrite IH.
Qed.

Lemma read_loop_result cs fin full s :
  (Chat.read_loop w cs fin full s).1
  = match fin with
    | Done => Returned (full +:+ full_text w cs)
    | ReadFails e => Thrown e
    end.
Proof.
  revert full s. induction cs as [|c cs IH]; intros full s; simpl.
  - destruct fin; [|done]. unfold full_text; simpl. by rewrite append_nil_r.
  - rewrite IH. destruct fin; [|done]. unfold full_text; simpl.
    by rewrite append_assoc.
Qed.

Lemma begin_turn_messages s :
  Chat.messages (Chat.begin_turn w s) = Chat.messages s ++ [Chat.userMessage w s].
Proof. done. Qed.
End chat_facts.

Example blank_inputs :
  Chat.blank "" = true ∧ Chat.blank "   " = true
  ∧ Chat.blank (" " +:+ LF) = true ∧ Chat.blank "　" = true
  ∧ Chat.blank " a " = false ∧ Chat.blank "行" = false.
Proof. by vm_compute. Qed.

Example blank_input_changes_nothing w :
  Chat.handleSubmit None w (Chat.mkState [] "  " false None "" "")
  = Chat.mkState [] "  " false None "" "".
Proof. reflexivity. Qed.

Example completed_turn w :
  Chat.fetch w = (λ _ _, Returned (Chat.mkFetchResponse true
                    (Some (mkUpstream ["12"; "0 rows"] Done)))) →
  Chat.decode w = (λ bytes, bytes) →
  Chat.messages (Chat.handleSubmit None w asking_state)
  = Chat.messages asking_state
    ++ [Chat.userMessage w asking_state; Chat.assistantMessage w "120 rows"].
Proof.
  intros Hfetch Hdecode.
  unfold Chat.handleSubmit, Chat.run_request, Chat.submit_try; simpl.
  rewrite Hfetch; simpl. rewrite !Hdecode. done.
Qed.

(** C6, as stated, fails: a turn that fails while its stream is read
    does not leave the message sequence as it was.  The user message was
    appended before the request was sent and stays. *)
Lemma failed_turn_keeps_user_message :
  Chat.messages (Chat.handleSubmit None broken_stream_world asking_state)
  = [Chat.mkMessage "user" "hello" "1" None;
     Chat.mkMessage "assistant" "hi" "2" (Some false);
     Chat.mkMessage "user" "how many rows?" "1000" None]
  ∧ Chat.messages (Chat.handleSubmit None broken_stream_world asking_state)
    ≠ Chat.messages asking_state.
Proof. split; [vm_compute; reflexivity|]. vm_compute. discriminate. Qed.

(** C6, amended.  A submission with a non-blank input appends the user
    message [{ role: 'user', content: input, id: Date.now().toString() }]
    and sends the request: the file information when there is an upload,
    the earlier messages and the user message.  When the request fails,
    the answer is not [ok], or a read of the stream fails, the messages
    afterwards are the earlier messages and the user message: no
    assistant message is added.  When the stream is read to its end,
    exactly one message is added after the user message,
    [{ role: 'assistant', content, id, isCollapsed: false }], whose
    content is the text of all chunks, decoded and joined in the order
    received (the empty text when the answer has no body). *)
Theorem handleSubmit_appends_answer_once
    (uploadedFile : option Chat.UploadedFile) (w : Chat.World) (s : Chat.State) :
  Chat.blank (Chat.input s) = false →
  let user :=
    Chat.mkMessage "user" (Chat.input s) (pretty (Chat.now_user w)) None in
  let assistant text :=
    Chat.mkMessage "assistant" text (pretty (Chat.now_assistant w)) (Some false) in
  let sent :=
    match uploadedFile with
    | Some f =>
        [Chat.mkMessage "system"
           ("已上傳的 Excel 文件信息：" +:+ LF
            +:+ "路徑：" +:+ Chat.path f +:+ LF
            +:+ "行數：" +:+ Chat.printed (Chat.rows f) +:+ LF
            +:+ "列數：" +:+ Chat.printed (Chat.columns f))
           "file-info" None]
    | None => []
    end ++ Chat.messages s ++ [user] in
  let finished := Chat.messages (Chat.handleSubmit uploadedFile w s) in
  (∀ e,
     Chat.fetch w sent (Chat.input s) = Thrown e →
     finished = Chat.messages s ++ [user]) ∧
  (∀ response,
     Chat.fetch w sent (Chat.input s) = Returned response →
     if Chat.ok response then
       match Chat.response_body response with
       | None => finished = Chat.messages s ++ [user; assistant ""]
       | Some up =>
           match ending up with
           | Done =>
               finished
               = Chat.messages s
                 ++ [user;
                     assistant
                       (foldr (λ value rest, Chat.decode w value +:+ rest) ""
                          (chunks up))]
           | ReadFails _ => finished = Chat.messages s ++ [user]
           end
       end
     else finished = Chat.messages s ++ [user]).
Proof.
  intros Hinput user assistant sent finished.
  subst user assistant sent finished.
  unfold Chat.handleSubmit. rewrite Hinput.
  unfold Chat.run_request, Chat.submit_try.
  change (match uploadedFile with
          | Some f => [Chat.file_info f]
          | None => []
          end ++ Chat.messages s ++ [Chat.userMessage w s])
    with (match uploadedFile with
          | Some f =>
              [Chat.mkMessage "system"
                 ("已上傳的 Excel 文件信息：" +:+ LF
                  +:+ "路徑：" +:+ Chat.path f +:+ LF
                  +:+ "行數：" +:+ Chat.printed (Chat.rows f) +:+ LF
                  +:+ "列數：" +:+ Chat.printed (Chat.columns f))
                 "file-info" None]
          | None => []
          end ++ Chat.messages s
              ++ [Chat.mkMessage "user" (Chat.input s)
                    (pretty (Chat.now_user w)) None]).
  split.
  - by intros e ->.
  - intros response ->.
    destruct (Chat.ok response); simpl; [|done].
    destruct (Chat.response_body response) as [up|].
    2:{ simpl. by rewrite <- app_assoc. }
    pose proof (read_loop_result w (chunks up) (ending up) ""
                  (Chat.begin_turn w s)) as Hres.
    pose proof (read_loop_messages w (chunks up) (ending up) ""
                  (Chat.begin_turn w s)) as Hmsg.
    destruct (Chat.read_loop w (chunks up) (ending up) "" (Chat.begin_turn w s))
      as [read s1]; simpl in Hres, Hmsg. subst read.
    destruct (ending up); simpl; rewrite Hmsg; [|done].
    by rewrite <- app_assoc.
Qed.

Lemma handleSubmit_appends_answer_once_witness :
  Chat.messages (Chat.handleSubmit (Some sales_upload) answering_world asking_state)
  = Chat.messages asking_state
    ++ [Chat.mkMessage "user" "how many rows?" "1000" None;
        Chat.mkMessage "assistant" "120 rows" "2000" (Some false)]
  ∧ Chat.messages (Chat.handleSubmit None broken_stream_world asking_state)
    = Chat.messages asking_state
      ++ [Chat.mkMessage "user" "how many rows?" "1000" None].
Proof.
  split.
  - pose proof (handleSubmit_appends_answer_once (Some sales_upload)
                  answering_world asking_state eq_refl) as [_ Hanswered].
    exact (Hanswered _ eq_refl).
  - pose proof (handleSubmit_appends_answer_once None broken_stream_world
                  asking_state eq_refl) as [_ Hbroken].
    exact (Hbroken _ eq_refl).
Defined.

(* --------------------------------------------------------------------- *)
(** ** The orchestrating chat route: the tool list cache                  *)
(* --------------------------------------------------------------------- *)

Lemma getTools_cases (w : ChatRoute.World) (s : ChatRoute.State) :
  ChatRoute.getTools w s =
  if truthy (ChatRoute.cachedTools s) then (Returned (ChatRoute.cachedTools s), s)
  else
    match fetched_tools w with
    | Some v =>
        (Returned v,
         ChatRoute.mkState v (ChatRoute.calls s ++ [ChatRoute.CallFetchTools]))
    | None => (Returned JNull, record_call ChatRoute.CallFetchTools s)
    end.
Proof.
  unfold ChatRoute.getTools, ChatRoute.and_then, ChatRoute.get_cachedTools,
    fetched_tools, record_call.
  destruct (truthy (ChatRoute.cachedTools s)); [done|].
  unfold ChatRoute.catch, ChatRoute.await, ChatRoute.and_then.
  destruct (ChatRoute.fetch_tools w) as [r|e]; [|done].
  destruct (ChatRoute.tools_ok r); simpl; [|done].
  unfold ChatRoute.lift. by destruct (ChatRoute.tools_json r).
Qed.

Lemma getTools_returns (w : ChatRoute.World) (s : ChatRoute.State) :
  ∃ tools s', ChatRoute.getTools w s = (Returned tools, s').
Proof.
  rewrite getTools_cases.
  destruct (truthy _); [by eauto|]. destruct (fetched_tools w); by eauto.
Qed.

(** C5, as stated, fails: the tool list is no value fixed when the module
    is loaded.  It starts as [null]; a failed fetch leaves it [null], the
    next call fetches again, and a successful fetch overwrites it. *)
Lemma cachedTools_is_mutable_lazy_cache :
  ¬ (∀ w s, ChatRoute.cachedTools (ChatRoute.getTools w s).2
            = ChatRoute.cachedTools s)
  ∧ ChatRoute.cachedTools ChatRoute.initial = JNull
  ∧ ChatRoute.getTools tools_down ChatRoute.initial
    = (Returned JNull, ChatRoute.mkState JNull [ChatRoute.CallFetchTools])
  ∧ ChatRoute.getTools tools_served
      (ChatRoute.mkState JNull [ChatRoute.CallFetchTools])
    = (Returned analyze_tool_list,
       ChatRoute.mkState analyze_tool_list
         [ChatRoute.CallFetchTools; ChatRoute.CallFetchTools]).
Proof.
  split_and!; [|done..].
  intros Hfixed. specialize (Hfixed tools_served ChatRoute.initial).
  discriminate Hfixed.
Qed.

(** C5, amended.  [cachedTools] is a module-level cache filled on demand:
    while it holds a truthy value [getTools] returns it without fetching
    and leaves the state alone; otherwise [getTools] fetches, and either
    stores and returns the fetched list, or, when the fetch fails, returns
    [null] and leaves the cache as it was, so that the next call fetches
    again. *)
Theorem getTools_lazy_cache (w : ChatRoute.World) (s : ChatRoute.State) :
  (truthy (ChatRoute.cachedTools s) = true →
   ChatRoute.getTools w s = (Returned (ChatRoute.cachedTools s), s)) ∧
  (truthy (ChatRoute.cachedTools s) = false →
   ∀ v, fetched_tools w = Some v →
   ChatRoute.getTools w s
   = (Returned v,
      ChatRoute.mkState v (ChatRoute.calls s ++ [ChatRoute.CallFetchTools]))) ∧
  (truthy (ChatRoute.cachedTools s) = false →
   fetched_tools w = None →
   ChatRoute.getTools w s
   = (Returned JNull, record_call ChatRoute.CallFetchTools s)
   ∧ truthy (ChatRoute.cachedTools (ChatRoute.getTools w s).2) = false).
Proof.
  rewrite getTools_cases. split_and!.
  - by intros ->.
  - by intros -> v ->.
  - by intros Hc ->; rewrite Hc.
Qed.

Lemma getTools_lazy_cache_witness :
  ChatRoute.getTools tools_served
    (ChatRoute.mkState analyze_tool_list [ChatRoute.CallFetchTools])
  = (Returned analyze_tool_list,
     ChatRoute.mkState analyze_tool_list [ChatRoute.CallFetchTools])
  ∧ ChatRoute.getTools tools_served ChatRoute.initial
    = (Returned analyze_tool_list,
       ChatRoute.mkState analyze_tool_list [ChatRoute.CallFetchTools])
  ∧ ChatRoute.getTools tools_down ChatRoute.initial
    = (Returned JNull, ChatRoute.mkState JNull [ChatRoute.CallFetchTools]).
Proof.
  split_and!.
  - exact (proj1 (getTools_lazy_cache tools_served
             (ChatRoute.mkState analyze_tool_list [ChatRoute.CallFetchTools]))
             eq_refl).
  - exact (proj1 (proj2 (getTools_lazy_cache tools_served ChatRoute.initial))
             eq_refl analyze_tool_list eq_refl).
  - exact (proj1 (proj2 (proj2 (getTools_lazy_cache tools_down ChatRoute.initial))
             eq_refl eq_refl)).
Defined.

(* --------------------------------------------------------------------- *)
(** ** Responses and the read loop                                        *)
(* --------------------------------------------------------------------- *)

Lemma new_Response_stream st :
  new_Response (BodyStream st) None = Returned (stream_response st).
Proof. done. Qed.

(** [new Response(text, { status })] returns exactly under the statuses
    that admit a body. *)
Lemma new_Response_text text st :
  if admits_body (response_status st)
  then new_Response (BodyText text) st
       = Returned (text_response text (response_status st))
  else ∃ e, new_Response (BodyText text) st = Thrown e.
Proof.
  unfold new_Response, admits_body, null_body_status, text_response.
  fold (response_status st). generalize (response_status st) as n. intros n.
  destruct (Z.leb_spec 200 n), (Z.leb_spec n 599); simpl.
  - replace (n <? 200) with false by (symmetry; apply Z.ltb_ge; lia).
    replace (599 <? n) with false by (symmetry; apply Z.ltb_ge; lia).
    replace (n =? 101) with false by (symmetry; apply Z.eqb_neq; lia).
    replace (n =? 103) with false by (symmetry; apply Z.eqb_neq; lia).
    simpl. destruct ((n =? 204) || (n =? 205) || (n =? 304)); simpl; by eauto.
  - replace (599 <? n) with true by (symmetry; apply Z.ltb_lt; lia).
    rewrite orb_true_r. by eauto.
  - replace (n <? 200) with true by (symmetry; apply Z.ltb_lt; lia). by eauto.
  - replace (n <? 200) with true by (symmetry; apply Z.ltb_lt; lia). by eauto.
Qed.

Lemma POST_catch_answer e : answer_of_failure e (ChatRoute.POST_catch e).
Proof.
  destruct e as [m|n st m]; simpl.
  - done.
  - apply new_Response_text.
Qed.

(** The answers of the [catch] block, case by case. *)
Lemma answer_of_failure_cases e answer :
  answer_of_failure e answer →
  match e with
  | Error _ =>
      answer
      = Returned
          (mkResponse (BodyText "An error occurred") 500
             [("content-type", "text/plain;charset=UTF-8")])
  | APIError _ st m =>
      let status :=
        match st with
        | Some n => n mod 65536
        | None => 200
        end in
      (200 ≤ status ≤ 599 → status ≠ 204 → status ≠ 205 → status ≠ 304 →
       answer
       = Returned
           (mkResponse (BodyText m) status
              [("content-type", "text/plain;charset=UTF-8")])) ∧
      (¬ (200 ≤ status ≤ 599) ∨ status = 204 ∨ status = 205 ∨ status = 304 →
       ∃ e', answer = Thrown e')
  end.
Proof.
  intros Hanswer. destruct e as [m|n st m]; [exact Hanswer|].
  unfold answer_of_failure in Hanswer. simpl. fold (response_status st).
  generalize dependent (response_status st). intros status Hanswer.
  unfold admits_body in Hanswer. split.
  - intros [Hlo Hhi] H204 H205 H304.
    apply Z.leb_le in Hlo, Hhi. apply Z.eqb_neq in H204, H205, H304.
    by rewrite Hlo, Hhi, H204, H205, H304 in Hanswer.
  - intros Hout.
    destruct (200 <=? status) eqn:Hlo; [|exact Hanswer].
    destruct (status <=? 599) eqn:Hhi; [|exact Hanswer].
    apply Z.leb_le in Hlo, Hhi.
    destruct Hout as [Hrange | [-> | [-> | ->]]]; [lia|exact Hanswer..].
Qed.

Lemma POST_catch_no_stream e answer :
  ChatRoute.POST_catch e = Returned answer → response_stream answer = None.
Proof.
  intros Hcatch. pose proof (POST_catch_answer e) as Hanswer.
  rewrite Hcatch in Hanswer. destruct e as [m|n st m]; simpl in Hanswer.
  - by injection Hanswer as ->.
  - destruct (admits_body (response_status st)).
    + by injection Hanswer as ->.
    + by destruct Hanswer.
Qed.

(** The read loop enqueues what the reader yields, chunk by chunk in
    the order of the reads, after what was enqueued before; how the
    reader ends decides how the stream is left. *)
Lemma read_loop_enqueued cs fin c :
  enqueued (read_loop cs fin c) = enqueued c ++ cs.
Proof.
  revert c. induction cs as [|value cs IH]; intros c; simpl.
  - rewrite app_nil_r. by destruct fin.
  - rewrite IH. simpl. by rewrite <- app_assoc.
Qed.

Lemma read_loop_closing cs fin c :
  closing (read_loop cs fin c)
  = match fin with
    | Done => Closed
    | ReadFails e => Errored e
    end.
Proof.
  revert c. induction cs as [|value cs IH]; intros c; simpl.
  - by destruct fin.
  - apply IH.
Qed.

Lemma tool_stream_enqueued notice up :
  enqueued (ChatRoute.tool_stream notice (ChatRoute.mkBackendResponse (Some up)))
  = notice :: chunks up.
Proof. unfold ChatRoute.tool_stream, forward. simpl. by rewrite read_loop_enqueued. Qed.

Lemma tool_stream_first notice r :
  ∃ rest, enqueued (ChatRoute.tool_stream notice r) = notice :: rest.
Proof.
  destruct r as [[up|]].
  - rewrite tool_stream_enqueued. by eexists.
  - by eexists.
Qed.

Lemma direct_stream_enqueued notice up :
  enqueued (ChatRoute.direct_stream notice up) = notice :: chunks up.
Proof. unfold ChatRoute.direct_stream, forward. by rewrite read_loop_enqueued. Qed.

Lemma pump_enqueued r up :
  ProxyRoute.api_body r = Some up → enqueued (ProxyRoute.pump r) = chunks up.
Proof.
  intros Hbody. unfold ProxyRoute.pump, forward. rewrite Hbody.
  by rewrite read_loop_enqueued.
Qed.

Lemma tool_notice_literal tcs :
  ChatRoute.tool_notice tcs = tools_notice (ChatRoute.function_name <$> tcs).
Proof. done. Qed.

Lemma requested_tools_cons choice message tc tcs :
  ChatRoute.choice_message choice = Some message →
  ChatRoute.tool_calls message = Some (tc :: tcs) →
  ChatRoute.requested_tools choice = tc :: tcs.
Proof. unfold ChatRoute.requested_tools. by intros -> ->. Qed.

Lemma requested_tools_nil choice :
  no_tool_calls choice ↔ ChatRoute.requested_tools choice = [].
Proof.
  unfold no_tool_calls, ChatRoute.requested_tools.
  destruct (ChatRoute.choice_message choice) as [message|]; [|done].
  by destruct (ChatRoute.tool_calls message) as [[|tc tcs]|].
Qed.

Lemma POST_state (w : ChatRoute.World) (s : ChatRoute.State) :
  (ChatRoute.POST w s).2 = (ChatRoute.POST_try w s).2.
Proof. unfold ChatRoute.POST. by destruct (ChatRoute.POST_try w s) as [[r|e] s']. Qed.

Lemma POST_of_failure (w : ChatRoute.World) (s s' : ChatRoute.State) e :
  ChatRoute.POST_try w s = (Thrown e, s') →
  ChatRoute.POST w s = (ChatRoute.POST_catch e, s').
Proof. intros Htry. unfold ChatRoute.POST. by rewrite Htry. Qed.

(* --------------------------------------------------------------------- *)
(** ** The orchestrating chat route: the two branches                     *)
(* --------------------------------------------------------------------- *)

Section classified_turn.
Context (w : ChatRoute.World) (s s1 : ChatRoute.State).
Context (request : ChatRoute.RequestBody) (tools : jsval).
Context (response : ChatRoute.ChatCompletion) (choice : ChatRoute.Choice).
Hypothesis Hrequest : ChatRoute.req_json w = Returned request.
Hypothesis Htools : ChatRoute.getTools w s = (Returned tools, s1).
Hypothesis Hresponse :
  ChatRoute.create_completion w (ChatRoute.model w)
    (ChatRoute.content_and_role <$> ChatRoute.messages request) tools
  = Returned response.
Hypothesis Hchoice : ChatRoute.choices response !! 0%nat = Some choice.

(** The turn up to the test on the tool calls of the first choice. *)
Lemma POST_try_classified :
  ChatRoute.POST_try w s =
  let s2 := record_call (ChatRoute.CallCompletion tools) s1 in
  match ChatRoute.requested_tools choice with
  | (_ :: _) as tcs =>
      match last (ChatRoute.messages request) with
      | None =>
          (Thrown (Error "Cannot read properties of undefined (reading 'content')"),
           s2)
      | Some lastMessage =>
          let content := prop lastMessage "content" in
          let s3 := record_call
                      (ChatRoute.CallBackendChat content (ChatRoute.filePath request))
                      s2 in
          match ChatRoute.fetch_chat w content (ChatRoute.filePath request) with
          | Returned backendResponse =>
              (new_Response
                 (BodyStream (ChatRoute.tool_stream (ChatRoute.tool_notice tcs)
                                backendResponse)) None, s3)
          | Thrown e => (Thrown e, s3)
          end
      end
  | [] =>
      let s3 := record_call ChatRoute.CallStream s2 in
      match ChatRoute.create_stream w (ChatRoute.model w)
              (ChatRoute.content_and_role <$> ChatRoute.messages request) with
      | Returned up =>
          (new_Response
             (BodyStream (ChatRoute.direct_stream ChatRoute.direct_notice up))
             None, s3)
      | Thrown e => (Thrown e, s3)
      end
  end.
Proof.
  unfold ChatRoute.POST_try, ChatRoute.and_then at 1, ChatRoute.lift.
  rewrite Hrequest. unfold ChatRoute.and_then at 1. rewrite Htools.
  unfold ChatRoute.and_then at 1, ChatRoute.await at 1. rewrite Hresponse, Hchoice.
  destruct (ChatRoute.requested_tools choice) as [|tc tcs].
  - unfold ChatRoute.and_then, ChatRoute.await, ChatRoute.ret, record_call; simpl.
    by destruct (ChatRoute.create_stream _ _ _).
  - destruct (last (ChatRoute.messages request)) as [lastMessage|]; [|done].
    unfold ChatRoute.and_then, ChatRoute.await, ChatRoute.ret, record_call; simpl.
    by destruct (ChatRoute.fetch_chat _ _ _).
Qed.

(** The tool branch with a backend that answers. *)
Lemma POST_tool_branch tc tcs lastMessage backendResponse :
  ChatRoute.requested_tools choice = tc :: tcs →
  last (ChatRoute.messages request) = Some lastMessage →
  ChatRoute.fetch_chat w (prop lastMessage "content") (ChatRoute.filePath request)
  = Returned backendResponse →
  ChatRoute.POST w s =
  (new_Response
     (BodyStream (ChatRoute.tool_stream (ChatRoute.tool_notice (tc :: tcs))
                    backendResponse)) None,
   record_call
     (ChatRoute.CallBackendChat (prop lastMessage "content")
        (ChatRoute.filePath request))
     (record_call (ChatRoute.CallCompletion tools) s1)).
Proof.
  intros Htcs Hlast Hfetch. unfold ChatRoute.POST.
  rewrite POST_try_classified, Htcs, Hlast. simpl. by rewrite Hfetch.
Qed.

(** The direct-answer branch with a model that starts streaming. *)
Lemma POST_direct_branch up :
  ChatRoute.requested_tools choice = [] →
  ChatRoute.create_stream w (ChatRoute.model w)
    (ChatRoute.content_and_role <$> ChatRoute.messages request)
  = Returned up →
  ChatRoute.POST w s =
  (new_Response
     (BodyStream (ChatRoute.direct_stream ChatRoute.direct_notice up)) None,
   record_call ChatRoute.CallStream
     (record_call (ChatRoute.CallCompletion tools) s1)).
Proof.
  intros Htcs Hstream. unfold ChatRoute.POST.
  rewrite POST_try_classified, Htcs. simpl. by rewrite Hstream.
Qed.

End classified_turn.

(** C2, as stated, fails: a turn with two tool calls is not rejected.  The
    route answers 200 with a stream, names both tools in one notice and
    calls the backend once, as it does for a single tool call. *)
Lemma two_tool_calls_not_rejected :
  ChatRoute.POST two_tools_world ChatRoute.initial
  = (Returned
       (mkResponse
          (BodyStream
             (mkStream
                ["[系統] 使用工具: analyzeExcel, queryDatabase 來處理您的請求..."
                   +:+ LF +:+ LF;
                 "Rows: "; "120"]
                Closed))
          200 []),
     ChatRoute.mkState analyze_tool_list
       [ChatRoute.CallFetchTools;
        ChatRoute.CallCompletion analyze_tool_list;
        ChatRoute.CallBackendChat (JStr "how many rows?")
          (JStr "/uploads/data.xlsx")]).
Proof. vm_compute. reflexivity. Qed.

(** C2, amended.  For every turn in which the model returns one or more
    tool calls (and the backend answers), the route responds 200 with a
    stream that starts with one notice naming all requested tools, joined
    by [", "], and it calls the backend chat endpoint exactly once, with
    the content of the last message and the file path; the number of tool
    calls changes nothing else. *)
Theorem tool_turn_forwarded_once
    (w : ChatRoute.World) (s s1 : ChatRoute.State)
    (request : ChatRoute.RequestBody) (tools : jsval)
    (response : ChatRoute.ChatCompletion) (choice : ChatRoute.Choice)
    (tc : ChatRoute.ToolCall) (tcs : list ChatRoute.ToolCall)
    (lastMessage : list (string * jsval))
    (backendResponse : ChatRoute.BackendResponse) :
  ChatRoute.req_json w = Returned request →
  ChatRoute.getTools w s = (Returned tools, s1) →
  ChatRoute.create_completion w (ChatRoute.model w)
    (ChatRoute.content_and_role <$> ChatRoute.messages request) tools
  = Returned response →
  ChatRoute.choices response !! 0%nat = Some choice →
  ChatRoute.requested_tools choice = tc :: tcs →
  last (ChatRoute.messages request) = Some lastMessage →
  ChatRoute.fetch_chat w (prop lastMessage "content") (ChatRoute.filePath request)
  = Returned backendResponse →
  let notice :=
    "[系統] 使用工具: "
      +:+ String.concat ", " (ChatRoute.function_name <$> tc :: tcs)
      +:+ " 來處理您的請求..." +:+ LF +:+ LF in
  ∃ answer,
    (ChatRoute.POST w s).1 = Returned answer ∧
    status answer = 200 ∧
    response_stream answer = Some (ChatRoute.tool_stream notice backendResponse) ∧
    (∃ rest,
       enqueued (ChatRoute.tool_stream notice backendResponse) = notice :: rest) ∧
    ChatRoute.calls (ChatRoute.POST w s).2
    = ChatRoute.calls s1
      ++ [ChatRoute.CallCompletion tools;
          ChatRoute.CallBackendChat (prop lastMessage "content")
            (ChatRoute.filePath request)].
Proof.
  intros Hrequest Htools Hresponse Hchoice Htcs Hlast Hfetch notice.
  subst notice.
  rewrite (POST_tool_branch w s s1 request tools response choice
             Hrequest Htools Hresponse Hchoice tc tcs lastMessage backendResponse
             Htcs Hlast Hfetch).
  eexists. split_and!; [done|done|done|apply tool_stream_first|].
  simpl. by rewrite <- app_assoc.
Qed.

Lemma tool_turn_forwarded_once_witness :
  (∃ answer,
     (ChatRoute.POST two_tools_world ChatRoute.initial).1 = Returned answer
     ∧ status answer = 200)
  ∧ ChatRoute.calls (ChatRoute.POST two_tools_world ChatRoute.initial).2
    = [ChatRoute.CallFetchTools;
       ChatRoute.CallCompletion analyze_tool_list;
       ChatRoute.CallBackendChat (JStr "how many rows?")
         (JStr "/uploads/data.xlsx")].
Proof.
  pose proof (tool_turn_forwarded_once two_tools_world ChatRoute.initial
    (ChatRoute.mkState analyze_tool_list [ChatRoute.CallFetchTools])
    rows_request analyze_tool_list _ _ _ _ _ _
    eq_refl eq_refl eq_refl eq_refl eq_refl eq_refl eq_refl)
    as (answer & Hanswer & Hst & _ & _ & Hcalls).
  split; [by exists answer|exact Hcalls].
Defined.

(* --------------------------------------------------------------------- *)
(** ** Order of the chunks on the response stream                         *)
(* --------------------------------------------------------------------- *)

(** Whatever the collaborators do, a streamed answer of the
    orchestrating route starts with a notice. *)
Lemma POST_stream_starts_with_notice
    (w : ChatRoute.World) (s : ChatRoute.State) answer st :
  (ChatRoute.POST w s).1 = Returned answer →
  response_stream answer = Some st →
  ∃ notice rest, enqueued st = notice :: rest ∧ is_notice notice.
Proof.
  assert (Hcaught : ∀ e s',
            ChatRoute.POST_try w s = (Thrown e, s') →
            (ChatRoute.POST w s).1 = Returned answer →
            response_stream answer = Some st → False).
  { intros e s' Htry. rewrite (POST_of_failure w s s' e Htry). simpl.
    intros Hcatch. by rewrite (POST_catch_no_stream e answer Hcatch). }
  destruct (ChatRoute.req_json w) as [request|e] eqn:Hrequest.
  2:{ intros Hanswer Hst. exfalso. eapply Hcaught; [|done..].
      unfold ChatRoute.POST_try, ChatRoute.and_then, ChatRoute.lift.
      by rewrite Hrequest. }
  destruct (getTools_returns w s) as (tools & s1 & Htools).
  destruct (ChatRoute.create_completion w (ChatRoute.model w)
              (ChatRoute.content_and_role <$> ChatRoute.messages request) tools)
    as [response|e] eqn:Hresponse.
  2:{ intros Hanswer Hst. exfalso. eapply Hcaught; [|done..].
      unfold ChatRoute.POST_try, ChatRoute.and_then, ChatRoute.lift,
        ChatRoute.await.
      by rewrite Hrequest, Htools, Hresponse. }
  destruct (ChatRoute.choices response !! 0%nat) as [choice|] eqn:Hchoice.
  2:{ intros Hanswer Hst. exfalso. eapply Hcaught; [|done..].
      unfold ChatRoute.POST_try, ChatRoute.and_then, ChatRoute.lift,
        ChatRoute.await.
      by rewrite Hrequest, Htools, Hresponse, Hchoice. }
  pose proof (POST_try_classified w s s1 request tools response choice
                Hrequest Htools Hresponse Hchoice) as Htry.
  destruct (ChatRoute.requested_tools choice) as [|tc tcs] eqn:Htcs; simpl in Htry.
  - destruct (ChatRoute.create_stream w (ChatRoute.model w)
                (ChatRoute.content_and_role <$> ChatRoute.messages request))
      as [up|e] eqn:Hstream.
    + unfold ChatRoute.POST. rewrite Htry, new_Response_stream. simpl.
      intros [= <-] [= <-]. rewrite direct_stream_enqueued.
      eexists _, _. split; [done|by left].
    + intros Hanswer Hst. exfalso. by eapply Hcaught.
  - destruct (last (ChatRoute.messages request)) as [lastMessage|].
    2:{ intros Hanswer Hst. exfalso. by eapply Hcaught. }
    destruct (ChatRoute.fetch_chat w (prop lastMessage "content")
                (ChatRoute.filePath request)) as [r|e] eqn:Hfetch.
    + unfold ChatRoute.POST. rewrite Htry, new_Response_stream. simpl.
      intros [= <-] [= <-].
      destruct (tool_stream_first (ChatRoute.tool_notice (tc :: tcs)) r)
        as [rest Hrest].
      eexists _, _. split; [exact Hrest|]. right.
      by exists (ChatRoute.function_name tc), (ChatRoute.function_name <$> tcs).
    + intros Hanswer Hst. exfalso. by eapply Hcaught.
Qed.

(** What the proxy route does with a backend that answers [ok]. *)
Lemma proxy_POST_ok (pw : ProxyRoute.World) messages content r :
  ProxyRoute.req_json pw = Returned (messages, content) →
  truthy (ProxyRoute.PYTHON_API_URL pw) = true →
  ProxyRoute.fetch_api pw (ProxyRoute.PYTHON_API_URL pw) messages content
  = Returned r →
  ProxyRoute.api_ok r = true →
  ProxyRoute.POST pw
  = mkResponse (BodyStream (ProxyRoute.pump r)) 200
      [("Content-Type", "text/plain; charset=utf-8")].
Proof.
  intros Hreq Hurl Hfetch Hok. unfold ProxyRoute.POST, ProxyRoute.POST_try.
  rewrite Hreq. simpl. rewrite Hurl. simpl. rewrite Hfetch. simpl.
  by rewrite Hok.
Qed.

Lemma not_a_notice : ¬ is_notice "Rows: ".
Proof.
  intros [Hdirect|(name & names & Htools)].
  - vm_compute in Hdirect. discriminate Hdirect.
  - unfold tools_notice in Htools. discriminate Htools.
Qed.

(** C4, as stated, fails for the proxy route, which is one of the two
    routes the claim is about: it enqueues no notice.  The first chunk on
    its response stream is the first chunk of the backend answer. *)
Lemma proxy_stream_starts_without_notice :
  ProxyRoute.POST proxy_streaming
  = mkResponse (BodyStream (mkStream ["Rows: "; "120"] Closed)) 200
      [("Content-Type", "text/plain; charset=utf-8")]
  ∧ ¬ is_notice "Rows: ".
Proof. split; [vm_compute; reflexivity|exact not_a_notice]. Qed.

(** C4, amended.  On the response stream of the orchestrating route a
    status notice is the first chunk enqueued: whenever the route
    answers with a stream, the stream starts with the notice of a direct
    answer or with the notice that names the tools of the turn.  In the
    tool branch the chunks are the notice
    ["[系統] 使用工具: <names joined by ', '> 來處理您的請求...\n\n"] and
    then the chunks of the backend body in the order its reader yields
    them; in the direct-answer branch they are the notice
    ["[系統] 直接回答您的問題...\n\n"] and then the chunks of the model
    stream in the order its reader yields them; this holds as well when
    a read fails after some chunks.  The proxy route enqueues no notice:
    the chunks on its stream are exactly the chunks of its upstream, in
    order. *)
Theorem notice_first_then_upstream_order
    (w : ChatRoute.World) (s : ChatRoute.State) :
  (∀ answer st,
     (ChatRoute.POST w s).1 = Returned answer →
     response_stream answer = Some st →
     ∃ notice rest, enqueued st = notice :: rest ∧ is_notice notice) ∧
  (∀ s1 request tools response choice,
     ChatRoute.req_json w = Returned request →
     ChatRoute.getTools w s = (Returned tools, s1) →
     ChatRoute.create_completion w (ChatRoute.model w)
       (ChatRoute.content_and_role <$> ChatRoute.messages request) tools
     = Returned response →
     ChatRoute.choices response !! 0%nat = Some choice →
     (∀ message tc tcs lastMessage up,
        ChatRoute.choice_message choice = Some message →
        ChatRoute.tool_calls message = Some (tc :: tcs) →
        last (ChatRoute.messages request) = Some lastMessage →
        ChatRoute.fetch_chat w (prop lastMessage "content")
          (ChatRoute.filePath request)
        = Returned (ChatRoute.mkBackendResponse (Some up)) →
        ∃ answer st,
          (ChatRoute.POST w s).1 = Returned answer
          ∧ response_stream answer = Some st
          ∧ enqueued st
            = ("[系統] 使用工具: "
                 +:+ String.concat ", " (ChatRoute.function_name <$> tc :: tcs)
                 +:+ " 來處理您的請求..." +:+ LF +:+ LF)
              :: chunks up) ∧
     (∀ up,
        no_tool_calls choice →
        ChatRoute.create_stream w (ChatRoute.model w)
          (ChatRoute.content_and_role <$> ChatRoute.messages request)
        = Returned up →
        ∃ answer st,
          (ChatRoute.POST w s).1 = Returned answer
          ∧ response_stream answer = Some st
          ∧ enqueued st
            = ("[系統] 直接回答您的問題..." +:+ LF +:+ LF) :: chunks up)) ∧
  (∀ (pw : ProxyRoute.World) messages content r up,
     ProxyRoute.req_json pw = Returned (messages, content) →
     truthy (ProxyRoute.PYTHON_API_URL pw) = true →
     ProxyRoute.fetch_api pw (ProxyRoute.PYTHON_API_URL pw) messages content
     = Returned r →
     ProxyRoute.api_ok r = true →
     ProxyRoute.api_body r = Some up →
     ∃ st, response_stream (ProxyRoute.POST pw) = Some st
           ∧ enqueued st = chunks up).
Proof.
  split_and!.
  - intros answer st. apply POST_stream_starts_with_notice.
  - intros s1 request tools response choice Hrequest Htools Hresponse Hchoice.
    split.
    + intros message tc tcs lastMessage up Hmessage Hcalls Hlast Hfetch.
      rewrite (POST_tool_branch w s s1 request tools response choice
                 Hrequest Htools Hresponse Hchoice tc tcs lastMessage _
                 (requested_tools_cons choice message tc tcs Hmessage Hcalls)
                 Hlast Hfetch).
      rewrite new_Response_stream. eexists _, _. split_and!; [done|done|].
      by rewrite tool_stream_enqueued.
    + intros up Hnone Hstream.
      rewrite (POST_direct_branch w s s1 request tools response choice
                 Hrequest Htools Hresponse Hchoice up
                 (proj1 (requested_tools_nil choice) Hnone) Hstream).
      rewrite new_Response_stream. eexists _, _. split_and!; [done|done|].
      by rewrite direct_stream_enqueued.
  - intros pw messages content r up Hreq Hurl Hfetch Hok Hbody.
    rewrite (proxy_POST_ok pw messages content r Hreq Hurl Hfetch Hok).
    eexists. split; [done|]. by apply pump_enqueued.
Qed.

Lemma notice_first_then_upstream_order_witness :
  (∃ answer st,
     (ChatRoute.POST two_tools_world ChatRoute.initial).1 = Returned answer
     ∧ response_stream answer = Some st
     ∧ enqueued st
       = ("[系統] 使用工具: analyzeExcel, queryDatabase 來處理您的請求..."
            +:+ LF +:+ LF)
         :: ["Rows: "; "120"])
  ∧ (∃ answer st,
       (ChatRoute.POST direct_world ChatRoute.initial).1 = Returned answer
       ∧ response_stream answer = Some st
       ∧ enqueued st
         = ("[系統] 直接回答您的問題..." +:+ LF +:+ LF)
           :: ["The"; " sheet has"; " 120 rows"])
  ∧ (∃ st, response_stream (ProxyRoute.POST proxy_streaming) = Some st
           ∧ enqueued st = ["Rows: "; "120"]).
Proof.
  split_and!.
  - destruct (notice_first_then_upstream_order two_tools_world ChatRoute.initial)
      as (_ & Hbranches & _).
    destruct (Hbranches
      (ChatRoute.mkState analyze_tool_list [ChatRoute.CallFetchTools])
      rows_request analyze_tool_list _ _ eq_refl eq_refl eq_refl eq_refl)
      as [Htool _].
    exact (Htool _ _ _ _ _ eq_refl eq_refl eq_refl eq_refl).
  - destruct (notice_first_then_upstream_order direct_world ChatRoute.initial)
      as (_ & Hbranches & _).
    destruct (Hbranches
      (ChatRoute.mkState analyze_tool_list [ChatRoute.CallFetchTools])
      rows_request analyze_tool_list _ _ eq_refl eq_refl eq_refl eq_refl)
      as [_ Hdirect].
    exact (Hdirect _ I eq_refl).
  - destruct (notice_first_then_upstream_order direct_world ChatRoute.initial)
      as (_ & _ & Hproxy).
    exact (Hproxy proxy_streaming _ _ _ _ eq_refl eq_refl eq_refl eq_refl eq_refl).
Defined.

(* --------------------------------------------------------------------- *)
(** ** Failures of the routes                                             *)
(* --------------------------------------------------------------------- *)


(** The calls of a turn once the tool list is there: the model is
    called with it, whatever comes after. *)
Lemma POST_try_calls_model (w : ChatRoute.World) (s s1 : ChatRoute.State)
    request tools :
  ChatRoute.req_json w = Returned request →
  ChatRoute.getTools w s = (Returned tools, s1) →
  ∃ rest,
    ChatRoute.calls (ChatRoute.POST_try w s).2
    = ChatRoute.calls s1 ++ [ChatRoute.CallCompletion tools] ++ rest.
Proof.
  intros Hrequest Htools.
  destruct (ChatRoute.create_completion w (ChatRoute.model w)
              (ChatRoute.content_and_role <$> ChatRoute.messages request) tools)
    as [response|e] eqn:Hresponse.
  2:{ exists []. unfold ChatRoute.POST_try, ChatRoute.and_then, ChatRoute.lift,
        ChatRoute.await.
      by rewrite Hrequest, Htools, Hresponse. }
  destruct (ChatRoute.choices response !! 0%nat) as [choice|] eqn:Hchoice.
  2:{ exists []. unfold ChatRoute.POST_try, ChatRoute.and_then, ChatRoute.lift,
        ChatRoute.await.
      by rewrite Hrequest, Htools, Hresponse, Hchoice. }
  rewrite (POST_try_classified w s s1 request tools response choice) by done.
  destruct (ChatRoute.requested_tools choice) as [|tc tcs]; simpl.
  - exists [ChatRoute.CallStream].
    destruct (ChatRoute.create_stream _ _ _); simpl; by rewrite <- app_assoc.
  - destruct (last (ChatRoute.messages request)) as [lastMessage|]; simpl;
      [|by exists []].
    exists [ChatRoute.CallBackendChat (prop lastMessage "content")
              (ChatRoute.filePath request)].
    destruct (ChatRoute.fetch_chat _ _ _); simpl; by rewrite <- app_assoc.
Qed.




(** C8, as stated, fails: a collaborator that does not respond is
    answered like any other failure.  The proxy route gives the same
    answer for a backend that is down and for a missing configuration
    variable; the chat route gives the same answer for a backend that is
    down and for a request body that does not parse; and a tool list
    that cannot be fetched is not reported at all, the turn goes on. *)
Lemma unavailable_upstream_not_distinguished :
  ProxyRoute.POST proxy_backend_down = ProxyRoute.POST proxy_unconfigured
  ∧ (ChatRoute.POST backend_down_world ChatRoute.initial).1
    = (ChatRoute.POST malformed_request_world ChatRoute.initial).1
  ∧ (ChatRoute.POST backend_down_world ChatRoute.initial).1
    = Returned
        (mkResponse (BodyText "An error occurred") 500
           [("content-type", "text/plain;charset=UTF-8")])
  ∧ ChatRoute.POST tools_down ChatRoute.initial
    = (Returned
         (mkResponse
            (BodyStream
               (mkStream ["[系統] 直接回答您的問題..." +:+ LF +:+ LF; "120"]
                  Closed))
            200 []),
       ChatRoute.mkState JNull
         [ChatRoute.CallFetchTools; ChatRoute.CallCompletion JNull;
          ChatRoute.CallStream]).
Proof. split_and!; vm_compute; reflexivity. Qed.

(** C8, amended.  A collaborator that fails to respond gets no class of
    its own.  The proxy route answers a backend that rejects the request
    or answers not-[ok] with the generic 500 answer it gives to every
    failure.  The chat route answers a failed model call, a failed
    backend call and a model stream that cannot be started through its
    [catch] block, as it answers every failure: ['An error occurred']
    under 500 for an error that is no API error; for an API error its
    message under its status, or no response at all when the status
    admits no body.  A tool list that cannot be fetched raises nothing:
    [getTools] returns [null] and the turn goes on, the model being
    called with [null] for its tools. *)
Theorem unresponsive_collaborator_generic_answer
    (w : ChatRoute.World) (s : ChatRoute.State) :
  (∀ (pw : ProxyRoute.World) messages content,
     ProxyRoute.req_json pw = Returned (messages, content) →
     truthy (ProxyRoute.PYTHON_API_URL pw) = true →
     ((∃ e, ProxyRoute.fetch_api pw (ProxyRoute.PYTHON_API_URL pw) messages content
            = Thrown e)
      ∨ (∃ r, ProxyRoute.fetch_api pw (ProxyRoute.PYTHON_API_URL pw) messages content
              = Returned r ∧ ProxyRoute.api_ok r = false)) →
     ProxyRoute.POST pw
     = mkResponse (BodyJson (JObj [("error", JStr "Internal Server Error")])) 500
         [("content-type", "application/json")]) ∧
  (∀ request tools s1,
     ChatRoute.req_json w = Returned request →
     ChatRoute.getTools w s = (Returned tools, s1) →
     (∀ e,
        ChatRoute.create_completion w (ChatRoute.model w)
          (ChatRoute.content_and_role <$> ChatRoute.messages request) tools
        = Thrown e →
        answer_of_failure e (ChatRoute.POST w s).1) ∧
     (∀ response choice tc tcs lastMessage e,
        ChatRoute.create_completion w (ChatRoute.model w)
          (ChatRoute.content_and_role <$> ChatRoute.messages request) tools
        = Returned response →
        ChatRoute.choices response !! 0%nat = Some choice →
        ChatRoute.requested_tools choice = tc :: tcs →
        last (ChatRoute.messages request) = Some lastMessage →
        ChatRoute.fetch_chat w (prop lastMessage "content")
          (ChatRoute.filePath request) = Thrown e →
        answer_of_failure e (ChatRoute.POST w s).1) ∧
     (∀ response choice e,
        ChatRoute.create_completion w (ChatRoute.model w)
          (ChatRoute.content_and_role <$> ChatRoute.messages request) tools
        = Returned response →
        ChatRoute.choices response !! 0%nat = Some choice →
        ChatRoute.requested_tools choice = [] →
        ChatRoute.create_stream w (ChatRoute.model w)
          (ChatRoute.content_and_role <$> ChatRoute.messages request)
        = Thrown e →
        answer_of_failure e (ChatRoute.POST w s).1)) ∧
  (∀ e answer,
     answer_of_failure e answer →
     match e with
     | Error _ =>
         answer
         = Returned
             (mkResponse (BodyText "An error occurred") 500
                [("content-type", "text/plain;charset=UTF-8")])
     | APIError _ st m =>
         let status :=
           match st with
           | Some n => n mod 65536
           | None => 200
           end in
         (200 ≤ status ≤ 599 → status ≠ 204 → status ≠ 205 → status ≠ 304 →
          answer
          = Returned
              (mkResponse (BodyText m) status
                 [("content-type", "text/plain;charset=UTF-8")])) ∧
         (¬ (200 ≤ status ≤ 599) ∨ status = 204 ∨ status = 205 ∨ status = 304 →
          ∃ e', answer = Thrown e')
     end) ∧
  (truthy (ChatRoute.cachedTools s) = false →
   fetched_tools w = None →
   ChatRoute.getTools w s
   = (Returned JNull, record_call ChatRoute.CallFetchTools s)
   ∧ ∀ request,
       ChatRoute.req_json w = Returned request →
       ∃ rest,
         ChatRoute.calls (ChatRoute.POST w s).2
         = ChatRoute.calls s
           ++ [ChatRoute.CallFetchTools; ChatRoute.CallCompletion JNull]
           ++ rest).
Proof.
  split_and!.
  - intros pw messages content Hreq Hurl Hfail.
    unfold ProxyRoute.POST, ProxyRoute.POST_try. rewrite Hreq. simpl.
    rewrite Hurl. simpl.
    destruct Hfail as [[e ->]|(r & -> & Hok)]; [done|]. simpl. by rewrite Hok.
  - intros request tools s1 Hrequest Htools. split_and!.
    + intros e Hfail.
      rewrite (POST_of_failure w s
                 (record_call (ChatRoute.CallCompletion tools) s1) e).
      * apply POST_catch_answer.
      * unfold ChatRoute.POST_try, ChatRoute.and_then, ChatRoute.lift,
          ChatRoute.await.
        by rewrite Hrequest, Htools, Hfail.
    + intros response choice tc tcs lastMessage e Hresponse Hchoice Htcs Hlast Hfail.
      pose proof (POST_try_classified w s s1 request tools response choice
                    Hrequest Htools Hresponse Hchoice) as Htry.
      rewrite Htcs, Hlast in Htry. simpl in Htry. rewrite Hfail in Htry.
      rewrite (POST_of_failure w s _ e Htry). apply POST_catch_answer.
    + intros response choice e Hresponse Hchoice Htcs Hfail.
      pose proof (POST_try_classified w s s1 request tools response choice
                    Hrequest Htools Hresponse Hchoice) as Htry.
      rewrite Htcs in Htry. simpl in Htry. rewrite Hfail in Htry.
      rewrite (POST_of_failure w s _ e Htry). apply POST_catch_answer.
  - apply answer_of_failure_cases.
  - intros Hcache Hfetch.
    assert (Htools : ChatRoute.getTools w s
                     = (Returned JNull, record_call ChatRoute.CallFetchTools s)).
    { rewrite getTools_cases. by rewrite Hcache, Hfetch. }
    split; [exact Htools|]. intros request Hrequest.
    destruct (POST_try_calls_model w s _ request JNull Hrequest Htools)
      as [rest Hcalls].
    exists rest. rewrite POST_state, Hcalls. simpl. by rewrite <- app_assoc.
Qed.

Lemma unresponsive_collaborator_generic_answer_witness :
  ProxyRoute.POST proxy_backend_down
  = mkResponse (BodyJson (JObj [("error", JStr "Internal Server Error")])) 500
      [("content-type", "application/json")]
  ∧ (ChatRoute.POST backend_down_world ChatRoute.initial).1
    = Returned
        (mkResponse (BodyText "An error occurred") 500
           [("content-type", "text/plain;charset=UTF-8")])
  ∧ (ChatRoute.POST stream_down_world ChatRoute.initial).1
    = Returned
        (mkResponse (BodyText "Connection error.") 200
           [("content-type", "text/plain;charset=UTF-8")])
  ∧ (∃ rest,
       ChatRoute.calls (ChatRoute.POST tools_down ChatRoute.initial).2
       = [ChatRoute.CallFetchTools; ChatRoute.CallCompletion JNull] ++ rest).
Proof.
  split_and!.
  - destruct (unresponsive_collaborator_generic_answer tools_down ChatRoute.initial)
      as (Hproxy & _).
    apply (Hproxy proxy_backend_down (JArr []) (JStr "how many rows?")
             eq_refl eq_refl).
    left. by eexists.
  - destruct (unresponsive_collaborator_generic_answer backend_down_world
                ChatRoute.initial) as (_ & Hchat & _).
    destruct (Hchat rows_request analyze_tool_list
                (ChatRoute.mkState analyze_tool_list [ChatRoute.CallFetchTools])
                eq_refl eq_refl) as (_ & Hbackend & _).
    exact (Hbackend _ _ _ _ _ _ eq_refl eq_refl eq_refl eq_refl eq_refl).
  - destruct (unresponsive_collaborator_generic_answer stream_down_world
                ChatRoute.initial) as (_ & Hchat & _).
    destruct (Hchat rows_request analyze_tool_list
                (ChatRoute.mkState analyze_tool_list [ChatRoute.CallFetchTools])
                eq_refl eq_refl) as (_ & _ & Hstream).
    exact (Hstream _ _ _ eq_refl eq_refl eq_refl eq_refl).
  - destruct (unresponsive_collaborator_generic_answer tools_down ChatRoute.initial)
      as (_ & _ & _ & Htools).
    destruct (Htools eq_refl eq_refl) as [_ Hgoes].
    exact (Hgoes _ eq_refl).
Defined.

(* --------------------------------------------------------------------- *)
(** ** Tool calls and declared schemas                                    *)
(* --------------------------------------------------------------------- *)

Lemma requested_tools_rewrite f c :
  ChatRoute.requested_tools (rewrite_choice f c)
  = set_arguments f <$> ChatRoute.requested_tools c.
Proof.
  unfold ChatRoute.requested_tools, rewrite_choice; simpl.
  destruct (ChatRoute.choice_message c) as [m|]; simpl; [|done].
  by destruct (ChatRoute.tool_calls m).
Qed.

Lemma tool_notice_rewrite f tcs :
  ChatRoute.tool_notice (set_arguments f <$> tcs) = ChatRoute.tool_notice tcs.
Proof.
  unfold ChatRoute.tool_notice. by rewrite <- list_fmap_compose.
Qed.

Lemma POST_ignores_arguments f (w : ChatRoute.World) (s : ChatRoute.State) :
  ChatRoute.POST (with_arguments f w) s = ChatRoute.POST w s.
Proof.
  unfold ChatRoute.POST.
  destruct (ChatRoute.req_json w) as [request|e] eqn:Hrequest.
  2:{ unfold ChatRoute.POST_try, ChatRoute.and_then, ChatRoute.lift; simpl.
      by rewrite Hrequest. }
  destruct (getTools_returns w s) as (tools & s1 & Htools).
  assert (Htools' : ChatRoute.getTools (with_arguments f w) s = (Returned tools, s1))
    by exact Htools.
  destruct (ChatRoute.create_completion w (ChatRoute.model w)
              (ChatRoute.content_and_role <$> ChatRoute.messages request) tools)
    as [response|e] eqn:Hresponse.
  2:{ unfold ChatRoute.POST_try, ChatRoute.and_then, ChatRoute.lift,
        ChatRoute.await.
      rewrite Htools', Htools. simpl. rewrite Hrequest.
      change (ChatRoute.model (with_arguments f w)) with (ChatRoute.model w).
      by rewrite Hresponse. }
  destruct (ChatRoute.choices response !! 0%nat) as [choice|] eqn:Hchoice.
  2:{ unfold ChatRoute.POST_try, ChatRoute.and_then, ChatRoute.lift,
        ChatRoute.await.
      rewrite Htools', Htools. simpl. rewrite Hrequest.
      change (ChatRoute.model (with_arguments f w)) with (ChatRoute.model w).
      rewrite Hresponse. simpl. rewrite list_lookup_fmap, Hchoice. done. }
  rewrite (POST_try_classified w s s1 request tools response choice) by done.
  rewrite (POST_try_classified (with_arguments f w) s s1 request tools
             (ChatRoute.mkChatCompletion
                (rewrite_choice f <$> ChatRoute.choices response))
             (rewrite_choice f choice)); [..|done| |].
  - rewrite requested_tools_rewrite.
    destruct (ChatRoute.requested_tools choice) as [|tc tcs]; [done|].
    rewrite fmap_cons.
    by rewrite <- (tool_notice_rewrite f (tc :: tcs)).
  - done.
  - simpl. change (ChatRoute.model (with_arguments f w)) with (ChatRoute.model w).
    by rewrite Hresponse.
  - simpl. by rewrite list_lookup_fmap, Hchoice.
Qed.

Lemma last_registered_Some {H : Type} n (ts : list (PydanticTool H)) tool :
  last_registered n ts = Some tool → tool ∈ ts ∧ name tool = n.
Proof.
  unfold last_registered. intros Hfind.
  apply List.find_some in Hfind as [Hin Heq].
  apply String.eqb_eq in Heq. split; [|done].
  apply list_elem_of_In. by apply in_rev.
Qed.

(** C3, as stated, fails: nothing stands between a tool call and the
    handler.  The registry hands back the registered tool as it is, and
    its handler runs on an empty argument object although the schema
    declares three fields; the chat route forwards a turn whose tool
    calls carry the argument text [{}] to the backend, although the
    declared schemas require fields. *)
Lemma handler_reached_without_required_fields :
  ToolRegistry.get registry "dataVisualizer" = Some Definitions.dataVisualizer
  ∧ missing_fields (inputSchema Definitions.dataVisualizer).*1 []
    = ["data"; "chartType"; "options"]
  ∧ handler Definitions.dataVisualizer six_rows_ext (JObj [])
    = Returned (JObj [("chartConfig",
                       JObj [("type", JUndefined); ("data", JUndefined);
                             ("options", JUndefined)])])
  ∧ ProxyRoute.required <$> ProxyRoute.tools = [["filePath"; "query"]; ["query"]]
  ∧ ChatRoute.function_arguments <$> two_tool_calls = ["{}"; "{}"]
  ∧ (∃ answer,
       (ChatRoute.POST two_tools_world ChatRoute.initial).1 = Returned answer
       ∧ status answer = 200)
  ∧ last (ChatRoute.calls (ChatRoute.POST two_tools_world ChatRoute.initial).2)
    = Some (ChatRoute.CallBackendChat (JStr "how many rows?")
              (JStr "/uploads/data.xlsx")).
Proof. split_and!; [..|eexists; split|]; vm_compute; reflexivity. Qed.

(** C3, amended.  The registry stores tools and looks them up by name and
    does nothing else: [get] returns a tool that was registered, as it
    was registered, handler included.  The handler of a registered tool
    runs on whatever argument object it is given, a field that is not
    there being [undefined].  The chat route answers a turn in the same
    way whatever the arguments of the tool calls are: it never reads
    them, and compares them with no schema. *)
Theorem tool_arguments_never_checked :
  (∀ (H : Type) (r : ToolRegistry.t H) (tool : PydanticTool H),
     ToolRegistry.get (ToolRegistry.register r tool) (name tool) = Some tool) ∧
  (∀ (H : Type) (ts : list (PydanticTool H)) n tool,
     ToolRegistry.get (ToolRegistry.register_all ts) n = Some tool →
     tool ∈ ts ∧ name tool = n) ∧
  (∀ ext args,
     handler Definitions.dataVisualizer ext (JObj args)
     = Returned (JObj [("chartConfig",
                        JObj [("type", prop args "chartType");
                              ("data", prop args "data");
                              ("options", prop args "options")])])) ∧
  (∀ f (w : ChatRoute.World) (s : ChatRoute.State),
     ChatRoute.POST (with_arguments f w) s = ChatRoute.POST w s).
Proof.
  split_and!.
  - intros H r tool. apply get_set_eq.
  - intros H ts n tool. rewrite get_register_all. apply last_registered_Some.
  - done.
  - apply POST_ignores_arguments.
Qed.

Lemma tool_arguments_never_checked_witness :
  Definitions.dataVisualizer ∈ Definitions.tools
  ∧ ChatRoute.POST
      (with_arguments (λ _, "[1, 2]") two_tools_world) ChatRoute.initial
    = ChatRoute.POST two_tools_world ChatRoute.initial.
Proof.
  destruct tool_arguments_never_checked as (_ & Hget & _ & Hroute).
  split.
  - exact (proj1 (Hget Handler Definitions.tools "dataVisualizer"
                    Definitions.dataVisualizer eq_refl)).
  - apply Hroute.
Defined.

(* --------------------------------------------------------------------- *)
(** ** The Code Validator and the Sandbox Executor                        *)
(* --------------------------------------------------------------------- *)

Section validator_facts.
Context (al : Backend.Allowlist).

Lemma first_violation_elem {A : Type} (check : A → option string) (l : list A) a :
  a ∈ l → is_Some (check a) → is_Some (Backend.first_violation check l).
Proof.
  intros Hin Ha. induction l as [|b l IH]; [by apply elem_of_nil in Hin|].
  simpl. destruct (check b) eqn:Hb; [done|].
  apply elem_of_cons in Hin as [->|Hin]; [|by apply IH].
  rewrite Hb in Ha. by destruct Ha.
Qed.

(** A violation inside an expression is a violation of the expression. *)
Lemma expr_violation_subexpr e e' :
  subexpr e e' →
  is_Some (Backend.expr_violation al e) → is_Some (Backend.expr_violation al e').
Proof.
  intros Hsub He. induction Hsub as
    [ | value attr _ IH | func args _ IH | func args a Hin _ IH
      | lhs rhs _ IH | lhs rhs _ IH | value index _ IH | value index _ IH ];
    simpl.
  - done.
  - by destruct (Backend.is_dunder attr).
  - destruct (Backend.denied_callee al func); [done|].
    by destruct IH as [r ->].
  - destruct (Backend.denied_callee al func); [done|].
    destruct (Backend.expr_violation al func); [done|].
    by apply (first_violation_elem _ _ a).
  - by destruct IH as [r ->].
  - by destruct (Backend.expr_violation al lhs).
  - by destruct IH as [r ->].
  - by destruct (Backend.expr_violation al value).
Qed.

Lemma stmt_violation_occurs e st :
  occurs e st →
  is_Some (Backend.expr_violation al e) → is_Some (Backend.stmt_violation al st).
Proof.
  intros Hocc He. induction Hocc as
    [ target value Hsub | value Hsub | test body orelse Hsub
      | test body orelse st Hin _ IH | test body orelse st Hin _ IH
      | test body Hsub | test body st Hin _ IH ]; simpl.
  - destruct (Backend.name_allowed al target); [|done].
    by apply (expr_violation_subexpr e).
  - by apply (expr_violation_subexpr e).
  - by destruct (expr_violation_subexpr e test Hsub He) as [r ->].
  - destruct (Backend.expr_violation al test); [done|].
    by destruct (first_violation_elem (Backend.stmt_violation al) body st Hin IH)
      as [r ->].
  - destruct (Backend.expr_violation al test); [done|].
    destruct (Backend.first_violation (Backend.stmt_violation al) body); [done|].
    by apply (first_violation_elem _ _ st).
  - by destruct (expr_violation_subexpr e test Hsub He) as [r ->].
  - destruct (Backend.expr_violation al test); [done|].
    by apply (first_violation_elem _ _ st).
Qed.

Lemma program_violation_occurs e program :
  occurs_in e program →
  is_Some (Backend.expr_violation al e) →
  is_Some (Backend.first_violation (Backend.stmt_violation al) program).
Proof.
  intros (st & Hin & Hocc) He.
  apply (first_violation_elem _ _ st); [done|].
  by apply (stmt_violation_occurs e).
Qed.

Lemma denied_call_violation id args :
  id ∈ ["exec"; "eval"; "open"; "__import__"] →
  is_Some (Backend.expr_violation al (Backend.Call (Backend.Name id) args)).
Proof.
  intros Hid. simpl.
  rewrite bool_decide_eq_true_2; [done|].
  unfold Backend.deny_list. apply elem_of_app. left.
  rewrite !elem_of_cons in Hid. rewrite !elem_of_cons. tauto.
Qed.

Lemma dunder_violation value attr :
  Backend.is_dunder attr = true →
  is_Some (Backend.expr_violation al (Backend.Attribute value attr)).
Proof. intros Hd. simpl. by rewrite Hd. Qed.

Lemma forbidden_program_violation program :
  contains_denied_call program ∨ contains_dunder_access program →
  is_Some (Backend.first_violation (Backend.stmt_violation al) program).
Proof.
  intros [(id & args & Hid & Hocc)|(value & attr & Hd & Hocc)].
  - apply (program_violation_occurs _ _ Hocc). by apply denied_call_violation.
  - apply (program_violation_occurs _ _ Hocc). by apply dunder_violation.
Qed.

End validator_facts.

(** C1.  Code that calls [exec], [eval], [open] or [__import__], or that
    reads an attribute whose name begins and ends with a double
    underscore, is rejected by the Code Validator under every allowlist,
    and the dataset-analysis handler that generated it answers
    [validation_rejected] without handing any program to the Sandbox
    Executor. *)
Theorem forbidden_code_rejected_never_run
    (p : Backend.Pipeline) (al : Backend.Allowlist)
    (code_text : string) (program : list Backend.stmt) :
  Backend.parse p code_text = Some program →
  contains_denied_call program ∨ contains_dunder_access program →
  (∃ reason, Backend.validate (Backend.parse p) code_text al
             = Backend.rejected reason) ∧
  (∀ user_request schema,
     Backend.generate p user_request schema = Some code_text →
     Backend.outcome (Backend.analyze_dataset p al user_request schema).1
     ≠ Backend.success
     ∧ (Backend.analyze_dataset p al user_request schema).2 = []
     ∧ (code_text ≠ "" →
        Backend.outcome (Backend.analyze_dataset p al user_request schema).1
        = Backend.validation_rejected)).
Proof.
  intros Hparse Hforbidden.
  destruct (forbidden_program_violation al program Hforbidden) as [reason Hv].
  assert (Hrej : Backend.validate (Backend.parse p) code_text al
                 = Backend.rejected reason).
  { unfold Backend.validate. by rewrite Hparse, Hv. }
  split; [by eexists|].
  intros user_request schema Hgen. unfold Backend.analyze_dataset.
  rewrite Hgen. destruct (String.eqb code_text "") eqn:Hempty.
  - split_and!; [done|done|]. intros Hne. by apply String.eqb_eq in Hempty.
  - by rewrite Hrej.
Qed.

Lemma forbidden_code_rejected_never_run_witness :
  (∃ reason, Backend.validate (Backend.parse compromised_pipeline)
               eval_dunder_text pandas_allowlist = Backend.rejected reason)
  ∧ (Backend.analyze_dataset compromised_pipeline pandas_allowlist
       "how many rows?" [("id", "int")]).2 = []
  ∧ Backend.outcome
      (Backend.analyze_dataset compromised_pipeline pandas_allowlist
         "how many rows?" [("id", "int")]).1
    = Backend.validation_rejected.
Proof.
  assert (Hcall : contains_denied_call eval_dunder_program).
  { exists "eval", [Backend.Attribute (Backend.Name "df") "__class__"].
    split.
    - apply elem_of_cons. right. apply elem_of_cons. by left.
    - eexists. split; [by apply list_elem_of_singleton|].
      apply occurs_expr, subexpr_here. }
  destruct (forbidden_code_rejected_never_run compromised_pipeline
              pandas_allowlist eval_dunder_text eval_dunder_program
              eq_refl (or_introl Hcall)) as [Hrej Hrun].
  destruct (Hrun "how many rows?" [("id", "int")] eq_refl) as (_ & Hnone & Htag).
  split_and!; [exact Hrej|exact Hnone|].
  apply Htag. discriminate.
Defined.

(* ===================================================================== *)
(** * Further properties of the sources                                   *)
(* ===================================================================== *)

(* --------------------------------------------------------------------- *)
(** ** The registry: order of [list()], frame of [register]               *)
(* --------------------------------------------------------------------- *)

Lemma first_registrations_snoc (l : list string) (x : string) :
  first_registrations (l ++ [x])
  = if decide (x ∈ l) then first_registrations l else first_registrations l ++ [x].
Proof.
  unfold first_registrations. rewrite rev_unit. simpl.
  destruct (decide_rel elem_of x (rev l)) as [Hin|Hin];
    destruct (decide (x ∈ l)) as [Hin'|Hin']; try done.
  - exfalso. apply Hin'. apply list_elem_of_In, in_rev, list_elem_of_In, Hin.
  - exfalso. apply Hin. apply list_elem_of_In. rewrite <- in_rev.
    by apply list_elem_of_In.
Qed.

Lemma keys_register_all_order {H : Type} (ts : list (PydanticTool H)) :
  JsMap.keys (ToolRegistry.tools (ToolRegistry.register_all ts))
  = first_registrations (name <$> ts).
Proof.
  induction ts as [|tool ts IH] using rev_ind; [done|].
  rewrite register_all_snoc, fmap_app. simpl.
  rewrite first_registrations_snoc, <- IH.
  destruct (decide (name tool ∈ name <$> ts)) as [Hin|Hin].
  - apply keys_set_in. by apply keys_register_all_elem.
  - apply keys_set_notin. by rewrite keys_register_all_elem.
Qed.

Lemma get_of_entry {V : Type} (m : JsMap.t V) k v :
  NoDup (JsMap.keys m) → (k, v) ∈ m → JsMap.get k m = Some v.
Proof.
  unfold JsMap.keys, JsMap.get.
  induction m as [|[k0 v0] m IH]; simpl; intros Hnd Hin.
  - by apply elem_of_nil in Hin.
  - apply NoDup_cons in Hnd as [Hk0 Hnd].
    apply elem_of_cons in Hin as [[= -> ->]|Hin].
    + by rewrite String.eqb_refl.
    + destruct (String.eqb k k0) eqn:E; [|by apply IH].
      apply String.eqb_eq in E. subst k0. exfalso. apply Hk0.
      apply list_elem_of_fmap. by exists (k, v).
Qed.

Lemma set_set_same {V : Type} (m : JsMap.t V) k v :
  JsMap.set k v (JsMap.set k v m) = JsMap.set k v m.
Proof.
  induction m as [|[k0 v0] m IH]; simpl.
  - by rewrite String.eqb_refl.
  - destruct (String.eqb k k0) eqn:E; simpl.
    + by rewrite String.eqb_refl.
    + by rewrite E, IH.
Qed.

(** X1.  [list()] enumerates the registered names in the order in which
    each was first registered, and the entry of a name is the tool that
    was registered under it last: a replacement keeps the position of the
    tool it replaces. *)
Theorem registry_list_order {H : Type} (ts : list (PydanticTool H)) :
  let r := ToolRegistry.register_all ts in
  name <$> ToolRegistry.list r = first_registrations (name <$> ts)
  ∧ Forall (λ tool, last_registered (name tool) ts = Some tool)
      (ToolRegistry.list r).
Proof.
  simpl. split.
  - rewrite list_names. apply keys_register_all_order.
  - apply Forall_forall. intros tool Hin.
    rewrite <- get_register_all. unfold ToolRegistry.get.
    unfold ToolRegistry.list, JsMap.values in Hin.
    apply list_elem_of_fmap in Hin as ([k v] & -> & Hin). simpl.
    pose proof (register_all_keyed ts) as Hkeyed.
    unfold keyed_by_name in Hkeyed. rewrite Forall_forall in Hkeyed.
    pose proof (Hkeyed _ Hin) as Hk. simpl in Hk. subst k.
    apply get_of_entry; [apply keys_register_all_NoDup|done].
Qed.

Example replaced_tool_keeps_its_place :
  ToolRegistry.list (ToolRegistry.register_all replaced_tools)
  = [mkTool "excelAnalyzer" "third" [] 3%nat;
     mkTool "databaseQuery" "second" [] 2%nat].
Proof. reflexivity. Qed.

(** X2.  [register] touches one name only: [get] of every other name is
    as before, registering the same tool a second time changes nothing,
    and [list()] grows by exactly one entry when the name is new. *)
Theorem register_frame {H : Type} (r : ToolRegistry.t H) (tool : PydanticTool H) :
  (∀ n, n ≠ name tool →
        ToolRegistry.get (ToolRegistry.register r tool) n = ToolRegistry.get r n)
  ∧ ToolRegistry.register (ToolRegistry.register r tool) tool
    = ToolRegistry.register r tool
  ∧ (ToolRegistry.get r (name tool) = None →
     length (ToolRegistry.list (ToolRegistry.register r tool))
     = S (length (ToolRegistry.list r))).
Proof.
  split_and!.
  - intros n Hn. unfold ToolRegistry.get, ToolRegistry.register; simpl.
    apply get_set_ne. congruence.
  - unfold ToolRegistry.register; simpl. by rewrite set_set_same.
  - intros Hnone. unfold ToolRegistry.get in Hnone.
    apply get_None_keys in Hnone.
    unfold ToolRegistry.list, ToolRegistry.register, JsMap.values; simpl.
    rewrite !length_fmap.
    rewrite <- (length_fmap fst (JsMap.set _ _ _)), <- (length_fmap fst (ToolRegistry.tools r)).
    change (fst <$> ?m) with (JsMap.keys m).
    rewrite keys_set_notin by done. rewrite length_app. simpl. lia.
Qed.

Lemma register_frame_witness :
  ToolRegistry.get (ToolRegistry.register registry Definitions.dataVisualizer)
    "excelAnalyzer"
  = ToolRegistry.get registry "excelAnalyzer"
  ∧ length (ToolRegistry.list
              (ToolRegistry.register (ToolRegistry.register_all [])
                 Definitions.excelAnalyzer)) = 1%nat.
Proof.
  split.
  - destruct (register_frame registry Definitions.dataVisualizer) as (Hframe & _).
    apply Hframe. discriminate.
  - destruct (register_frame (ToolRegistry.register_all [])
                Definitions.excelAnalyzer) as (_ & _ & Hgrow).
    exact (Hgrow eq_refl).
Defined.

(* --------------------------------------------------------------------- *)
(** ** The tool handlers                                                  *)
(* --------------------------------------------------------------------- *)

(** X3.  Called with [undefined] or [null], the [databaseQuery] handler
    throws the [TypeError] of its destructuring parameter.  For every
    other argument its own failures never escape: with a [close()] that
    succeeds it returns [{ error: message }] with the message of the
    exception when connecting throws and when querying throws, and
    [{ data: recordset }] after a successful query.  An exception of
    [close()] in the [finally] block escapes, and it replaces whatever
    the handler was about to return. *)
Theorem databaseQuery_handler_outcomes (ext : Externals) (argument : jsval) :
  let result := Definitions.databaseQuery_handler ext argument in
  let args := properties_of argument in
  (argument = JUndefined →
   result
   = Thrown (Error
       "Cannot destructure property 'query' of 'undefined' as it is undefined.")) ∧
  (argument = JNull →
   result
   = Thrown (Error
       "Cannot destructure property 'query' of 'null' as it is null.")) ∧
  (argument ≠ JUndefined → argument ≠ JNull →
   (∀ e, sql_close ext = Thrown e → result = Thrown e) ∧
   (sql_close ext = Returned () →
    (∀ e, sql_connect ext (connection_config ext) = Thrown e →
          result = Returned (JObj [("error", JStr (message e))])) ∧
    (∀ e, sql_connect ext (connection_config ext) = Returned () →
          sql_query ext (prop args "query") (prop args "parameters") = Thrown e →
          result = Returned (JObj [("error", JStr (message e))])) ∧
    (∀ rows,
       sql_connect ext (connection_config ext) = Returned () →
       sql_query ext (prop args "query") (prop args "parameters") = Returned rows →
       result = Returned (JObj [("data", prop rows "recordset")])))).
Proof.
  simpl. unfold Definitions.databaseQuery_handler. split_and!.
  - by intros ->.
  - by intros ->.
  - intros Hundefined Hnull.
    rewrite (destructure_properties argument "query") by done. simpl.
    unfold try_finally, connection_config. split.
    + by intros e ->.
    + intros ->. split_and!.
      * by intros e ->.
      * intros e -> Hquery. simpl. by rewrite Hquery.
      * intros rows -> Hquery. simpl. by rewrite Hquery.
Qed.

Lemma databaseQuery_handler_outcomes_witness :
  Definitions.databaseQuery_handler (sql_world (Thrown (Error "close failed")))
    (JObj [("query", JStr "select 1")])
  = Thrown (Error "close failed")
  ∧ Definitions.databaseQuery_handler (sql_world (Returned ()))
      (JObj [("query", JStr "select 1")])
    = Returned (JObj [("data", JArr [JNum 1; JNum 2])])
  ∧ Definitions.databaseQuery_handler (sql_world (Returned ())) JNull
    = Thrown (Error
        "Cannot destructure property 'query' of 'null' as it is null.").
Proof.
  split_and!.
  - exact (proj1 (proj2 (proj2 (databaseQuery_handler_outcomes
             (sql_world (Thrown (Error "close failed")))
             (JObj [("query", JStr "select 1")])))
             ltac:(discriminate) ltac:(discriminate)) _ eq_refl).
  - exact (proj2 (proj2 (proj2 (proj2 (proj2 (databaseQuery_handler_outcomes
             (sql_world (Returned ())) (JObj [("query", JStr "select 1")])))
             ltac:(discriminate) ltac:(discriminate)) eq_refl))
             _ eq_refl eq_refl).
  - exact (proj1 (proj2 (databaseQuery_handler_outcomes
             (sql_world (Returned ())) JNull)) eq_refl).
Defined.

(** X4.  The [excelAnalyzer] handler reads two of its arguments only: two
    argument objects with the same [filePath] and [operation] get the
    same answer, so [query] is ignored.  ['analyze'] answers the same
    fixed object for every workbook that can be read, and the sample of
    ['summary'] is the whole sheet when the sheet has at most five
    rows. *)
Theorem excelAnalyzer_reads_filePath_and_operation
    (ext : Externals) (args : list (string * jsval)) :
  (∀ args',
     prop args' "filePath" = prop args "filePath" →
     prop args' "operation" = prop args "operation" →
     Definitions.excelAnalyzer_handler ext (JObj args')
     = Definitions.excelAnalyzer_handler ext (JObj args)) ∧
  (∀ data,
     Definitions.read_rows ext (prop args "filePath") = Returned data →
     is_str (prop args "operation") "analyze" = true →
     Definitions.excelAnalyzer_handler ext (JObj args)
     = Returned (JObj [("result", JStr "分析結果")])) ∧
  (∀ row data,
     Definitions.read_rows ext (prop args "filePath") = Returned (row :: data) →
     is_str (prop args "operation") "summary" = true →
     (length (row :: data) ≤ 5)%nat →
     Definitions.excelAnalyzer_handler ext (JObj args)
     = Returned (JObj
         [("rowCount", JNum (Z.of_nat (length (row :: data))));
          ("columns", JArr (JStr <$> row.*1));
          ("sample", JArr (JObj <$> row :: data))])).
Proof.
  split_and!.
  - intros args' Hpath Hop. unfold Definitions.excelAnalyzer_handler. simpl.
    by rewrite Hpath, Hop.
  - intros data Hread Hop. unfold Definitions.excelAnalyzer_handler. simpl.
    rewrite Hread. simpl.
    destruct (is_str (prop args "operation") "summary") eqn:Hsum.
    + exfalso. unfold is_str in *.
      destruct (prop args "operation"); try done.
      apply String.eqb_eq in Hsum, Hop. congruence.
    + by rewrite Hop.
  - intros row data Hread Hop Hlen. unfold Definitions.excelAnalyzer_handler.
    simpl. rewrite Hread, Hop.
    destruct data as [|r1 [|r2 [|r3 [|r4 [|r5 data]]]]]; simpl in Hlen; try lia;
      reflexivity.
Qed.

Lemma excelAnalyzer_reads_filePath_and_operation_witness :
  Definitions.excelAnalyzer_handler six_rows_ext
    (JObj [("query", JStr "anything"); ("operation", JStr "analyze")])
  = Returned (JObj [("result", JStr "分析結果")])
  ∧ Definitions.excelAnalyzer_handler six_rows_ext
      (JObj [("operation", JStr "analyze"); ("query", JStr "other")])
    = Definitions.excelAnalyzer_handler six_rows_ext
        (JObj [("query", JStr "anything"); ("operation", JStr "analyze")]).
Proof.
  destruct (excelAnalyzer_reads_filePath_and_operation six_rows_ext
              [("query", JStr "anything"); ("operation", JStr "analyze")])
    as (Hsame & Hanalyze & _).
  split.
  - exact (Hanalyze _ eq_refl eq_refl).
  - exact (Hsame _ eq_refl eq_refl).
Defined.

(* --------------------------------------------------------------------- *)
(** ** The chat route: the cache over several calls, the calls of a turn  *)
(* --------------------------------------------------------------------- *)

(** X5.  Once a fetch has delivered a truthy tool list, every later call
    of [getTools] returns that list without fetching, whatever the
    service would answer by then.  A fetched value that is falsy (the
    JSON value [null], for one) is stored but never served from the
    cache: the next call fetches again. *)
Theorem getTools_second_call
    (w1 w2 : ChatRoute.World) (s : ChatRoute.State) (v : jsval) :
  truthy (ChatRoute.cachedTools s) = false →
  fetched_tools w1 = Some v →
  let s1 := (ChatRoute.getTools w1 s).2 in
  (truthy v = true → ChatRoute.getTools w2 s1 = (Returned v, s1)) ∧
  (truthy v = false →
   ChatRoute.calls (ChatRoute.getTools w2 s1).2
   = ChatRoute.calls s
     ++ [ChatRoute.CallFetchTools; ChatRoute.CallFetchTools]).
Proof.
  intros Hcache Hfetched. simpl.
  rewrite (getTools_cases w1 s), Hcache, Hfetched. simpl. split.
  - intros Hv. rewrite getTools_cases. simpl. by rewrite Hv.
  - intros Hv. rewrite getTools_cases. simpl. rewrite Hv.
    destruct (fetched_tools w2); simpl; by rewrite <- app_assoc.
Qed.

Lemma getTools_second_call_witness :
  ChatRoute.getTools tools_down
    (ChatRoute.getTools tools_served ChatRoute.initial).2
  = (Returned analyze_tool_list,
     ChatRoute.mkState analyze_tool_list [ChatRoute.CallFetchTools])
  ∧ ChatRoute.calls
      (ChatRoute.getTools tools_null
         (ChatRoute.getTools tools_null ChatRoute.initial).2).2
    = [ChatRoute.CallFetchTools; ChatRoute.CallFetchTools].
Proof.
  split.
  - exact (proj1 (getTools_second_call tools_served tools_down ChatRoute.initial
                    analyze_tool_list eq_refl eq_refl) eq_refl).
  - exact (proj2 (getTools_second_call tools_null tools_null ChatRoute.initial
                    JNull eq_refl eq_refl) eq_refl).
Defined.

Lemma getTools_calls (w : ChatRoute.World) (s : ChatRoute.State) :
  ∃ pre, ChatRoute.calls (ChatRoute.getTools w s).2 = ChatRoute.calls s ++ pre
         ∧ (pre = [] ∨ pre = [ChatRoute.CallFetchTools]).
Proof.
  rewrite getTools_cases. destruct (truthy _).
  - exists []. split; [by rewrite app_nil_r|by left].
  - destruct (fetched_tools w); eexists; (split; [done|by right]).
Qed.

(** X6.  One call of [POST] adds to the trace at most one fetch of the
    tool list, then at most one call of the model, then at most one of
    the backend chat and the model stream, in this order: the backend
    and the model stream are never both called, and neither is called
    before the model has classified the turn. *)
Theorem POST_calls_of_a_turn (w : ChatRoute.World) (s : ChatRoute.State) :
  ∃ l, ChatRoute.calls (ChatRoute.POST w s).2 = ChatRoute.calls s ++ l
       ∧ turn_calls l.
Proof.
  assert (Hstate : (ChatRoute.POST w s).2 = (ChatRoute.POST_try w s).2).
  { unfold ChatRoute.POST. by destruct (ChatRoute.POST_try w s) as [[?|?] ?]. }
  rewrite Hstate. clear Hstate.
  destruct (ChatRoute.req_json w) as [request|e] eqn:Hrequest.
  2:{ unfold ChatRoute.POST_try, ChatRoute.and_then, ChatRoute.lift.
      rewrite Hrequest. exists []. split; [by rewrite app_nil_r|].
      exists [], []. split_and!; [done|by left|by left]. }
  destruct (getTools_returns w s) as (tools & s1 & Htools).
  destruct (getTools_calls w s) as (pre & Hpre & Hshape).
  rewrite Htools in Hpre. simpl in Hpre.
  destruct (ChatRoute.create_completion w (ChatRoute.model w)
              (ChatRoute.content_and_role <$> ChatRoute.messages request) tools)
    as [response|e] eqn:Hresponse.
  2:{ unfold ChatRoute.POST_try, ChatRoute.and_then, ChatRoute.lift,
        ChatRoute.await.
      rewrite Hrequest, Htools, Hresponse. simpl. rewrite Hpre.
      exists (pre ++ [ChatRoute.CallCompletion tools]).
      split; [by rewrite app_assoc|].
      exists pre, [ChatRoute.CallCompletion tools].
      split_and!; [done|done|]. right. left. by eexists. }
  destruct (ChatRoute.choices response !! 0%nat) as [choice|] eqn:Hchoice.
  2:{ unfold ChatRoute.POST_try, ChatRoute.and_then, ChatRoute.lift,
        ChatRoute.await.
      rewrite Hrequest, Htools, Hresponse, Hchoice. simpl. rewrite Hpre.
      exists (pre ++ [ChatRoute.CallCompletion tools]).
      split; [by rewrite app_assoc|].
      exists pre, [ChatRoute.CallCompletion tools].
      split_and!; [done|done|]. right. left. by eexists. }
  rewrite (POST_try_classified w s s1 request tools response choice) by done.
  destruct (ChatRoute.requested_tools choice) as [|tc tcs]; simpl.
  - exists (pre ++ [ChatRoute.CallCompletion tools; ChatRoute.CallStream]).
    split.
    + destruct (ChatRoute.create_stream _ _ _); simpl;
        by rewrite Hpre, <- !app_assoc.
    + exists pre, [ChatRoute.CallCompletion tools; ChatRoute.CallStream].
      split_and!; [done|done|]. right. right. right. by eexists.
  - destruct (last (ChatRoute.messages request)) as [lastMessage|]; simpl.
    + eexists (pre ++ [ChatRoute.CallCompletion tools;
                       ChatRoute.CallBackendChat _ _]).
      split.
      * destruct (ChatRoute.fetch_chat _ _ _); simpl;
          by rewrite Hpre, <- !app_assoc.
      * eexists pre, _. split_and!; [done|done|].
        right. right. left. by eexists _, _, _.
    + exists (pre ++ [ChatRoute.CallCompletion tools]).
      split; [by rewrite Hpre, app_assoc|].
      exists pre, [ChatRoute.CallCompletion tools].
      split_and!; [done|done|]. right. left. by eexists.
Qed.

(** X7.  A turn the model answers with no choice at all, and a turn with
    tool calls whose request carries no message, end in the generic
    answer ['An error occurred'] under status 500, and the backend is
    not called: the trace ends with the call of the model. *)
Theorem degenerate_turn_generic_answer
    (w : ChatRoute.World) (s s1 : ChatRoute.State)
    (request : ChatRoute.RequestBody) (tools : jsval)
    (response : ChatRoute.ChatCompletion) :
  ChatRoute.req_json w = Returned request →
  ChatRoute.getTools w s = (Returned tools, s1) →
  ChatRoute.create_completion w (ChatRoute.model w)
    (ChatRoute.content_and_role <$> ChatRoute.messages request) tools
  = Returned response →
  (ChatRoute.choices response = [] →
   ChatRoute.POST w s
   = (Returned an_error_occurred, record_call (ChatRoute.CallCompletion tools) s1)) ∧
  (∀ choice tc tcs,
     ChatRoute.choices response !! 0%nat = Some choice →
     ChatRoute.requested_tools choice = tc :: tcs →
     ChatRoute.messages request = [] →
     ChatRoute.POST w s
     = (Returned an_error_occurred, record_call (ChatRoute.CallCompletion tools) s1)).
Proof.
  intros Hrequest Htools Hresponse. split.
  - intros Hnone.
    unfold ChatRoute.POST, ChatRoute.POST_try, ChatRoute.and_then,
      ChatRoute.lift, ChatRoute.await.
    by rewrite Hrequest, Htools, Hresponse, Hnone.
  - intros choice tc tcs Hchoice Htcs Hempty. unfold ChatRoute.POST.
    rewrite (POST_try_classified w s s1 request tools response choice) by done.
    by rewrite Htcs, Hempty.
Qed.

Lemma degenerate_turn_generic_answer_witness :
  ChatRoute.POST no_choice_world ChatRoute.initial
  = (Returned an_error_occurred,
     ChatRoute.mkState analyze_tool_list
       [ChatRoute.CallFetchTools; ChatRoute.CallCompletion analyze_tool_list]).
Proof.
  exact (proj1 (degenerate_turn_generic_answer no_choice_world ChatRoute.initial
                  (ChatRoute.mkState analyze_tool_list [ChatRoute.CallFetchTools])
                  rows_request analyze_tool_list _ eq_refl eq_refl eq_refl)
               eq_refl).
Defined.

(* --------------------------------------------------------------------- *)
(** ** The proxy route                                                    *)
(* --------------------------------------------------------------------- *)



(* --------------------------------------------------------------------- *)
(** ** The chat component: the notices after a submission                 *)
(* --------------------------------------------------------------------- *)

Lemma read_loop_currentResponse (w : Chat.World) cs fin full s :
  Chat.currentResponse (Chat.read_loop w cs fin full s).2
  = Chat.currentResponse s +:+ full_text w cs.
Proof.
  revert full s. induction cs as [|c cs IH]; intros full s; simpl.
  - unfold full_text; simpl. rewrite append_nil_r. by destruct fin.
  - rewrite IH. unfold full_text; simpl. by rewrite append_assoc.
Qed.

Lemma read_loop_frame (w : Chat.World) cs fin full s :
  let s' := (Chat.read_loop w cs fin full s).2 in
  Chat.input s' = Chat.input s ∧ Chat.error s' = Chat.error s
  ∧ Chat.isLoading s' = Chat.isLoading s ∧ Chat.status s' = Chat.status s.
Proof.
  revert full s. induction cs as [|c cs IH]; intros full s; simpl.
  - by destruct fin.
  - destruct (IH (full +:+ Chat.decode w c)
                (Chat.setCurrentResponse (λ prev, prev +:+ Chat.decode w c) s))
      as (-> & -> & -> & ->). done.
Qed.

(** X9.  A submission with a blank input changes nothing.  Any other
    submission ends with the loading flag cleared and the status notice
    empty.  When the answer is read to its end the input and the partial
    answer are cleared and no error is shown.  When the stream breaks
    the input is kept, the error shown is the message of the failure (a
    fixed apology when that message is empty), and the text received
    before the failure stays in the partial answer. *)
Theorem handleSubmit_notices
    (uploadedFile : option Chat.UploadedFile) (w : Chat.World) (s : Chat.State) :
  let s' := Chat.handleSubmit uploadedFile w s in
  (Chat.blank (Chat.input s) = true → s' = s) ∧
  (Chat.blank (Chat.input s) = false →
   Chat.isLoading s' = false ∧ Chat.status s' = "" ∧
   (∀ received, Chat.outcome uploadedFile w s = Chat.Completed received →
      Chat.input s' = "" ∧ Chat.currentResponse s' = "" ∧ Chat.error s' = None) ∧
   (Chat.outcome uploadedFile w s = Chat.Failed →
      Chat.input s' = Chat.input s
      ∧ ∃ msg, Chat.error s' = Some msg ∧ msg ≠ "") ∧
   (∀ response up e,
      Chat.fetch w
        (match uploadedFile with
         | Some f => [Chat.file_info f]
         | None => []
         end ++ Chat.messages s ++ [Chat.userMessage w s]) (Chat.input s)
      = Returned response →
      Chat.ok response = true →
      Chat.response_body response = Some up →
      ending up = ReadFails e →
      Chat.currentResponse s' = full_text w (chunks up)
      ∧ Chat.error s'
        = Some (if String.eqb (message e) ""
                then "抱歉，發生了錯誤。請稍後再試。" else message e))).
Proof.
  simpl. split.
  - intros Hblank. unfold Chat.handleSubmit. by rewrite Hblank.
  - intros Hblank. unfold Chat.handleSubmit. rewrite Hblank.
    unfold Chat.outcome, Chat.run_request, Chat.submit_try.
    destruct (Chat.fetch w _ (Chat.input s)) as [response|e0] eqn:Hfetch.
    2:{ split_and!; [done|done|done| |done].
        intros _. split; [done|]. simpl. eexists. split; [done|].
        by destruct (String.eqb (message e0) "") eqn:E;
          [|apply String.eqb_neq in E]. }
    destruct (Chat.ok response) eqn:Hok; simpl.
    2:{ split_and!; [done|done|done| |].
        - intros _. split; [done|]. by eexists.
        - intros r' up' e' ? ? ? ?. simplify_eq. congruence. }
    destruct (Chat.response_body response) as [up|] eqn:Hbody.
    2:{ split_and!; try done; intros r' up' e' ? ? ? ?; simplify_eq; congruence. }
    pose proof (read_loop_result w (chunks up) (ending up) ""
                  (Chat.begin_turn w s)) as Hres.
    pose proof (read_loop_frame w (chunks up) (ending up) ""
                  (Chat.begin_turn w s)) as (Hin & Herr & Hload & Hst).
    pose proof (read_loop_currentResponse w (chunks up) (ending up) ""
                  (Chat.begin_turn w s)) as Hcur.
    destruct (Chat.read_loop w (chunks up) (ending up) "" (Chat.begin_turn w s))
      as [read s1]; simpl in *. subst read.
    destruct (ending up) as [|e0] eqn:Hend; simpl.
    + split_and!; try done; intros r' up' e' ? ? ? ?; simplify_eq; congruence.
    + split_and!; try done.
      * intros _. split; [done|]. eexists. split; [done|].
        by destruct (String.eqb (message e0) "") eqn:E;
          [|apply String.eqb_neq in E].
      * intros r' up' e' Hr Hok' Hb He. simplify_eq.
        assert (e' = e0) as -> by congruence.
        split; [exact Hcur|done].
Qed.

Lemma handleSubmit_notices_witness :
  Chat.currentResponse (Chat.handleSubmit None broken_stream_world asking_state)
  = "120 rows"
  ∧ Chat.error (Chat.handleSubmit None broken_stream_world asking_state)
    = Some "network error"
  ∧ Chat.isLoading (Chat.handleSubmit None broken_stream_world asking_state)
    = false.
Proof.
  destruct (handleSubmit_notices None broken_stream_world asking_state)
    as [_ Hrun].
  destruct (Hrun eq_refl) as (Hload & _ & _ & _ & Hbroken).
  destruct (Hbroken _ _ _ eq_refl eq_refl eq_refl eq_refl) as [Hcur Herr].
  split_and!; [exact Hcur|exact Herr|exact Hload].
Defined.

(* --------------------------------------------------------------------- *)
(** ** Collapsing messages                                                *)
(* --------------------------------------------------------------------- *)

Lemma toggle_toggle_toggle msg : toggle (toggle (toggle msg)) = toggle msg.
Proof. unfold toggle; simpl. by destruct (default false (Chat.isCollapsed msg)). Qed.

Lemma toggle_toggle msg :
  Chat.isCollapsed msg ≠ None → toggle (toggle msg) = msg.
Proof.
  destruct msg as [r c i [b|]]; [|done]. intros _. unfold toggle; simpl.
  by rewrite negb_involutive.
Qed.

Lemma state_eq_messages (s : Chat.State) (l : list Chat.Message) :
  l = Chat.messages s → Chat.setMessages (λ _, l) s = s.
Proof. intros ->. by destruct s. Qed.

(** X10.  [toggleMessageCollapse] flips the collapse flag of the messages
    that carry the given id and changes nothing else: each such message
    gets the negation of its flag ([true] when it had none), every other
    message and every other part of the state stay as they are; roles,
    contents, ids and their order stay, and an id that no message
    carries leaves the state as it is.  Toggling twice restores the state when the
    messages concerned had a flag; a message without a flag (a user
    message) ends with the flag [false] instead, and from then on
    toggling twice is the identity: three toggles are one. *)
Theorem toggleMessageCollapse_flips_flag (messageId : string) (s : Chat.State) :
  let s1 := toggleMessageCollapse messageId s in
  Chat.id <$> Chat.messages s1 = Chat.id <$> Chat.messages s
  ∧ Chat.content <$> Chat.messages s1 = Chat.content <$> Chat.messages s
  ∧ Chat.role <$> Chat.messages s1 = Chat.role <$> Chat.messages s
  ∧ ((∀ msg, msg ∈ Chat.messages s → Chat.id msg ≠ messageId) → s1 = s)
  ∧ ((∀ msg, msg ∈ Chat.messages s → Chat.id msg = messageId →
             Chat.isCollapsed msg ≠ None) →
     toggleMessageCollapse messageId s1 = s)
  ∧ toggleMessageCollapse messageId
      (toggleMessageCollapse messageId s1) = s1
  ∧ (∀ i msg,
       Chat.messages s !! i = Some msg →
       Chat.messages s1 !! i
       = Some (if String.eqb (Chat.id msg) messageId
               then Chat.mkMessage (Chat.role msg) (Chat.content msg)
                      (Chat.id msg)
                      (Some match Chat.isCollapsed msg with
                            | Some collapsed => negb collapsed
                            | None => true
                            end)
               else msg))
  ∧ Chat.setMessages (λ _, Chat.messages s) s1 = s.
Proof.
  destruct s as [msgs inp load err st cur].
  unfold toggleMessageCollapse, Chat.setMessages; simpl.
  split_and!; [..|
    intros i msg Hi; rewrite list_lookup_fmap, Hi; simpl;
    destruct (String.eqb (Chat.id msg) messageId); [|done];
    unfold toggle; by destruct (Chat.isCollapsed msg)
  | done].
  - rewrite <- list_fmap_compose. apply list_fmap_ext. intros i msg _; simpl.
    by destruct (String.eqb (Chat.id msg) messageId).
  - rewrite <- list_fmap_compose. apply list_fmap_ext. intros i msg _; simpl.
    by destruct (String.eqb (Chat.id msg) messageId).
  - rewrite <- list_fmap_compose. apply list_fmap_ext. intros i msg _; simpl.
    by destruct (String.eqb (Chat.id msg) messageId).
  - intros Hother. f_equal. rewrite <- (list_fmap_id msgs) at 2.
    apply list_fmap_ext. intros i msg Hi; simpl.
    destruct (String.eqb (Chat.id msg) messageId) eqn:E; [|done].
    apply String.eqb_eq in E. exfalso.
    apply (Hother msg); [|done]. by apply list_elem_of_lookup_2 in Hi.
  - intros Hflag. f_equal. rewrite <- list_fmap_compose.
    rewrite <- (list_fmap_id msgs) at 2.
    apply list_fmap_ext. intros i msg Hi; simpl.
    destruct (String.eqb (Chat.id msg) messageId) eqn:E; simpl; [|by rewrite E].
    rewrite E. apply toggle_toggle. apply Hflag.
    + by apply list_elem_of_lookup_2 in Hi.
    + by apply String.eqb_eq.
  - f_equal. rewrite <- !list_fmap_compose.
    apply list_fmap_ext. intros i msg _; simpl.
    destruct (String.eqb (Chat.id msg) messageId) eqn:E; simpl; rewrite ?E; simpl;
      rewrite ?E; [|done].
    apply toggle_toggle_toggle.
Qed.

Lemma toggleMessageCollapse_flips_flag_witness :
  toggleMessageCollapse "2" (toggleMessageCollapse "2" three_messages)
  = three_messages
  ∧ toggleMessageCollapse "9" three_messages = three_messages
  ∧ toggleMessageCollapse "1" (toggleMessageCollapse "1" three_messages)
    ≠ three_messages
  ∧ Chat.messages (toggleMessageCollapse "2" three_messages) !! 1%nat
    = Some (Chat.mkMessage "assistant" "hi" "2" (Some true)).
Proof.
  destruct (toggleMessageCollapse_flips_flag "2" three_messages)
    as (_ & _ & _ & _ & Htwice & _ & Hflag & _).
  destruct (toggleMessageCollapse_flips_flag "9" three_messages)
    as (_ & _ & _ & Hnone & _).
  split_and!.
  - apply Htwice. intros msg Hin Hid.
    repeat (apply elem_of_cons in Hin as [->|Hin]); try done.
    by apply elem_of_nil in Hin.
  - apply Hnone. intros msg Hin.
    repeat (apply elem_of_cons in Hin as [->|Hin]); try done.
    by apply elem_of_nil in Hin.
  - discriminate.
  - exact (Hflag 1%nat _ eq_refl).
Defined.

(* --------------------------------------------------------------------- *)
(** ** The name of the uploaded file                                      *)
(* --------------------------------------------------------------------- *)

Lemma split_slash_nonempty s : split_slash s ≠ [].
Proof.
  destruct s as [|c s]; simpl; [done|].
  destruct (Ascii.eqb c "/"); [done|]. by destruct (split_slash s).
Qed.

Lemma split_slash_app a b :
  split_slash (a +:+ "/" +:+ b) = split_slash a ++ split_slash b.
Proof.
  induction a as [|c a IH]; [done|].
  rewrite append_cons. simpl. rewrite IH.
  destruct (Ascii.eqb c "/"); [done|].
  pose proof (split_slash_nonempty a).
  by destruct (split_slash a).
Qed.

Lemma split_slash_plain s :
  contains_char "/" s = false → split_slash s = [s].
Proof.
  induction s as [|c s IH]; simpl; [done|].
  intros Hc. apply orb_false_iff in Hc as [Hc Hs].
  rewrite Hc, IH; done.
Qed.

Lemma split_slash_segments s :
  Forall (λ segment, contains_char "/" segment = false) (split_slash s).
Proof.
  induction s as [|c s IH]; simpl; [by repeat constructor|].
  destruct (Ascii.eqb c "/") eqn:Hc; [by constructor|].
  pose proof (split_slash_nonempty s) as Hne.
  destruct (split_slash s) as [|segment rest]; [done|].
  apply Forall_cons in IH as [Hseg Hrest].
  constructor; [|done]. simpl. by rewrite Hc.
Qed.

Lemma concat_split_slash s : String.concat "/" (split_slash s) = s.
Proof.
  induction s as [|c s IH]; [done|]. simpl.
  pose proof (split_slash_nonempty s) as Hne.
  destruct (Ascii.eqb c "/") eqn:Hc.
  - apply Ascii.eqb_eq in Hc. subst c.
    destruct (split_slash s) as [|segment rest]; [done|].
    simpl in *. by rewrite IH.
  - destruct (split_slash s) as [|segment rest]; [done|].
    destruct rest as [|segment' rest]; simpl in *.
    + by rewrite IH.
    + rewrite append_cons. by rewrite IH.
Qed.

(** X11.  [path.split('/')] loses nothing: joining the segments with
    slashes gives the path back.  The name shown for a file, the last
    segment, contains no slash; it is the part after the last slash of
    the path, the whole path when there is no slash, and empty when the
    path ends with a slash. *)
Theorem file_name_last_segment (path : string) :
  String.concat "/" (split_slash path) = path
  ∧ contains_char "/" (file_name path) = false
  ∧ (contains_char "/" path = false → file_name path = path)
  ∧ (∀ dir name, path = dir +:+ "/" +:+ name →
       contains_char "/" name = false → file_name path = name)
  ∧ (∀ dir, path = dir +:+ "/" → file_name path = "").
Proof.
  split_and!.
  - apply concat_split_slash.
  - unfold file_name. pose proof (split_slash_segments path) as Hall.
    destruct (last (split_slash path)) as [segment|] eqn:Hlast; [|done].
    rewrite Forall_forall in Hall. apply Hall.
    apply last_Some in Hlast as [l' ->]. apply elem_of_app. right.
    by apply list_elem_of_singleton.
  - intros Hplain. unfold file_name. by rewrite split_slash_plain.
  - intros dir name -> Hplain. unfold file_name.
    rewrite split_slash_app, (split_slash_plain name) by done.
    by rewrite last_snoc.
  - intros dir ->. unfold file_name.
    change (dir +:+ "/") with (dir +:+ "/" +:+ "").
    rewrite split_slash_app. simpl. by rewrite last_snoc.
Qed.

Lemma file_name_last_segment_witness :
  file_name "/uploads/2024/data.xlsx" = "data.xlsx"
  ∧ file_name "data.xlsx" = "data.xlsx"
  ∧ file_name "/uploads/" = "".
Proof.
  split_and!.
  - destruct (file_name_last_segment "/uploads/2024/data.xlsx")
      as (_ & _ & _ & Hlast & _).
    exact (Hlast "/uploads/2024" "data.xlsx" eq_refl eq_refl).
  - destruct (file_name_last_segment "data.xlsx") as (_ & _ & Hplain & _).
    exact (Hplain eq_refl).
  - destruct (file_name_last_segment "/uploads/") as (_ & _ & _ & _ & Hdir).
    exact (Hdir "/uploads" eq_refl).
Defined.

(* --------------------------------------------------------------------- *)
(** ** The code renderer of a chat message                                *)
(* --------------------------------------------------------------------- *)

Lemma strip_prefix_app p s : ChatMessage.strip_prefix p (p +:+ s) = Some s.
Proof.
  induction p as [|a p IH]; [done|].
  rewrite append_cons. simpl. by rewrite Ascii.eqb_refl.
Qed.

Lemma strip_prefix_Some p s r :
  ChatMessage.strip_prefix p s = Some r → s = p +:+ r.
Proof.
  revert s. induction p as [|a p IH]; intros s; simpl.
  - by intros [= ->].
  - destruct s as [|b s]; [done|].
    destruct (Ascii.eqb a b) eqn:E; [|done].
    apply Ascii.eqb_eq in E. subst b. intros Hs.
    rewrite append_cons. f_equal. by apply IH.
Qed.

Lemma word_prefix_app lang post :
  all_word lang = true → word_ends post = true →
  ChatMessage.word_prefix (lang +:+ post) = lang.
Proof.
  intros Hlang Hpost. induction lang as [|c lang IH].
  - destruct post as [|c post]; [done|]. simpl in *.
    by apply negb_true_iff in Hpost as ->.
  - simpl in Hlang. apply andb_true_iff in Hlang as [Hc Hlang].
    rewrite append_cons. simpl. rewrite Hc. f_equal. by apply IH.
Qed.

Lemma word_prefix_split s :
  ∃ post, s = ChatMessage.word_prefix s +:+ post
          ∧ all_word (ChatMessage.word_prefix s) = true
          ∧ word_ends post = true.
Proof.
  induction s as [|c s (post & Hs & Hall & Hend)].
  - by exists "".
  - simpl. destruct (ChatMessage.word_char c) eqn:Hc.
    + exists post. rewrite append_cons. split_and!.
      * by f_equal.
      * simpl. by rewrite Hc.
      * done.
    + exists (String c s). split_and!; [done|done|]. simpl. by rewrite Hc.
Qed.

Lemma exec_language_unfold s :
  ChatMessage.exec_language s =
  let next := match s with
              | "" => None
              | String _ s' => ChatMessage.exec_language s'
              end in
  match ChatMessage.strip_prefix "language-" s with
  | Some rest =>
      match ChatMessage.word_prefix rest with
      | "" => next
      | language => Some language
      end
  | None => next
  end.
Proof. by destruct s. Qed.

Lemma exec_language_sound s l :
  ChatMessage.exec_language s = Some l →
  l ≠ "" ∧ all_word l = true
  ∧ ∃ pre post, s = pre +:+ "language-" +:+ l +:+ post ∧ word_ends post = true.
Proof.
  induction s as [|c s IH]; rewrite exec_language_unfold.
  - done.
  - cbv zeta.
    assert (Hnext : ChatMessage.exec_language s = Some l →
              l ≠ "" ∧ all_word l = true
              ∧ ∃ pre post, String c s = pre +:+ "language-" +:+ l +:+ post
                            ∧ word_ends post = true).
    { intros Hs. destruct (IH Hs) as (Hne & Hall & pre & post & -> & Hend).
      split_and!; [done|done|]. by exists (String c pre), post. }
    destruct (ChatMessage.strip_prefix "language-" (String c s)) as [rest|] eqn:Hp;
      [|done].
    destruct (word_prefix_split rest) as (post & Hrest & Hall & Hend).
    destruct (ChatMessage.word_prefix rest) as [|a w] eqn:Hw; [done|].
    intros [= <-]. split_and!; [done|done|].
    exists "", post. split; [|done].
    apply strip_prefix_Some in Hp. rewrite Hp. by rewrite Hrest.
Qed.

(** X12.  The language of a code block is read off its class name with
    [/language-(\w+)/]: a class name [language-] followed by a non-empty
    run of word characters yields exactly that run, up to the first
    character that is no word character.  Whenever a language is found
    it is a non-empty run of word characters that follows [language-] in
    the class name and is not continued by a word character.  Without a
    class name, or with an empty one, there is no language. *)
Theorem code_language_of_class_name :
  (∀ lang post,
     lang ≠ "" → all_word lang = true → word_ends post = true →
     ChatMessage.code_language (Some ("language-" +:+ lang +:+ post)) = Some lang) ∧
  (∀ className l,
     ChatMessage.code_language className = Some l →
     l ≠ "" ∧ all_word l = true
     ∧ ∃ pre post, className = Some (pre +:+ "language-" +:+ l +:+ post)
                   ∧ word_ends post = true) ∧
  ChatMessage.code_language None = None ∧
  ChatMessage.code_language (Some "") = None.
Proof.
  assert (Hclass : ∀ c, (if String.eqb c "" then "" else c) = c).
  { intros c. destruct (String.eqb c "") eqn:E; [|done].
    by apply String.eqb_eq in E. }
  split_and!; [| |done|done].
  - intros lang post Hne Hall Hend. unfold ChatMessage.code_language.
    rewrite Hclass, exec_language_unfold, strip_prefix_app, word_prefix_app by done.
    by destruct lang.
  - intros [c|] l; unfold ChatMessage.code_language; [|done].
    rewrite Hclass. intros Hl.
    destruct (exec_language_sound c l Hl) as (Hne & Hall & pre & post & -> & Hend).
    split_and!; [done|done|]. by exists pre, post.
Qed.

Example code_language_examples :
  ChatMessage.code_language (Some "language-python") = Some "python"
  ∧ ChatMessage.code_language (Some "hljs language-c++") = Some "c"
  ∧ ChatMessage.code_language (Some "language- language-js_1 x") = Some "js_1"
  ∧ ChatMessage.code_language (Some "language-") = None
  ∧ ChatMessage.code_language (Some "lang-python") = None.
Proof. by vm_compute. Qed.

Lemma code_language_of_class_name_witness :
  ChatMessage.code_language (Some ("language-" +:+ "python" +:+ " wrap"))
  = Some "python".
Proof.
  exact (proj1 code_language_of_class_name "python" " wrap"
           ltac:(discriminate) eq_refl eq_refl).
Defined.

(** X13.  [text.replace(/\n$/, '')] removes exactly one line feed at the
    very end of the text and nothing else: a text that ends with a line
    feed loses that one character, even when another line feed precedes
    it, and every other text is returned as it is. *)
Theorem strip_final_newline_once :
  (∀ text, ChatMessage.strip_final_newline (text +:+ LF) = text) ∧
  (∀ text, (∀ t, text ≠ t +:+ LF) →
           ChatMessage.strip_final_newline text = text).
Proof.
  split.
  - induction text as [|c text IH]; [done|].
    rewrite append_cons. simpl. rewrite IH.
    destruct (String.eqb (text +:+ LF) "") eqn:E.
    + apply String.eqb_eq in E. by destruct text.
    + by rewrite andb_false_r.
  - induction text as [|c text IH]; [done|]. intros Hno. simpl.
    destruct (Ascii.eqb c "010" && String.eqb text "") eqn:E.
    + apply andb_true_iff in E as [Hc Ht].
      apply Ascii.eqb_eq in Hc. apply String.eqb_eq in Ht. subst.
      by destruct (Hno "").
    + f_equal. apply IH. intros t ->. by apply (Hno (String c t)).
Qed.

Lemma strip_final_newline_once_witness :
  ChatMessage.strip_final_newline ("print(1)" +:+ LF +:+ LF) = "print(1)" +:+ LF
  ∧ ChatMessage.strip_final_newline "" = "".
Proof.
  split.
  - exact (proj1 strip_final_newline_once ("print(1)" +:+ LF)).
  - apply (proj2 strip_final_newline_once).
    intros [|a t] Ht; [vm_compute in Ht|rewrite append_cons in Ht]; discriminate.
Defined.

(* --------------------------------------------------------------------- *)
(** ** Uploading a file from the tool panel                               *)
(* --------------------------------------------------------------------- *)

(** Case analyses over the ways a request can end: the hypotheses of a
    branch are unpacked and equations on the same term are merged. *)
Ltac merge_equations :=
  repeat match goal with
  | H1 : ?x = ?a, H2 : ?x = ?b |- _ => rewrite H1 in H2; simplify_eq
  end.

Ltac unpack :=
  intros;
  repeat match goal with
  | H : _ ∨ _ |- _ => destruct H
  | H : _ ∧ _ |- _ => destruct H
  | H : ∃ _, _ |- _ => destruct H
  end;
  simplify_eq; merge_equations.

Ltac settle_goal :=
  first [ done | by left | by right | by eexists | unpack; congruence
        | unpack; done | unpack; by eexists ].

Ltac settle_branch :=
  split_and!; try settle_goal;
  try (unpack; split_and!; try settle_goal; unpack; split_and!; settle_goal).

Lemma or_else_nonempty text fallback : fallback ≠ "" → or_else text fallback ≠ "".
Proof.
  intros Hf. unfold or_else. destruct (String.eqb text "") eqn:E; [done|].
  by apply String.eqb_neq in E.
Qed.

(** X14.  Without a selected file [handleFileUpload] does nothing.  With
    one, it always ends in the status [success] or [error], never in
    [uploading]: [onFileUpload] is called exactly when the status is
    [success], and then no error is shown; with the status [error] a
    non-empty message is shown.  The body of the answer is parsed before
    its status is looked at, so an answer whose body is no JSON is
    reported with the message of the parse error, whatever its status. *)
Theorem ToolPanel_handleFileUpload_outcome
    (fetch : ToolPanel.File → completion ToolPanel.UploadResponse)
    (files : list ToolPanel.File) (s : ToolPanel.State) :
  let s' := (ToolPanel.handleFileUpload fetch files s).1 in
  let reported := (ToolPanel.handleFileUpload fetch files s).2 in
  (files = [] → s' = s ∧ reported = None) ∧
  (∀ f rest, files = f :: rest →
     ToolPanel.file s' = Some f
     ∧ (ToolPanel.uploadStatus s' = ToolPanel.success
        ∧ is_Some reported ∧ ToolPanel.error_text s' = None
        ∨ ToolPanel.uploadStatus s' = ToolPanel.error
          ∧ reported = None
          ∧ ∃ msg, ToolPanel.error_text s' = Some msg ∧ msg ≠ "")) ∧
  (∀ f rest response e,
     files = f :: rest →
     fetch f = Returned response →
     ToolPanel.json response = Thrown e →
     ToolPanel.error_text s' = Some (or_else (message e) "上傳失敗，請稍後再試")).
Proof.
  simpl. split_and!.
  - by intros ->.
  - intros f rest ->. simpl.
    destruct (ToolPanel.upload fetch f) as [info|e]; simpl.
    + split; [done|]. left. by split_and!.
    + split; [done|]. right. split_and!; [done|done|].
      eexists. split; [done|]. by apply or_else_nonempty.
  - intros f rest response e -> Hfetch Hjson. simpl.
    unfold ToolPanel.upload. rewrite Hfetch. simpl. by rewrite Hjson.
Qed.

Example accepted_upload_is_reported :
  ToolPanel.handleFileUpload upload_accepted [ToolPanel.mkFile "data.xlsx"]
    (ToolPanel.mkState None ToolPanel.idle None)
  = (ToolPanel.mkState (Some (ToolPanel.mkFile "data.xlsx")) ToolPanel.success None,
     Some (ToolPanel.mkFileInfo (JStr "/uploads/data.xlsx") (JNum 120) (JNum 5))).
Proof. reflexivity. Qed.

Lemma ToolPanel_handleFileUpload_outcome_witness :
  ToolPanel.error_text
    (ToolPanel.handleFileUpload upload_rejected [ToolPanel.mkFile "data.xlsx"]
       (ToolPanel.mkState None ToolPanel.idle None)).1
  = Some "Unexpected token < in JSON at position 0"
  ∧ ToolPanel.file
      (ToolPanel.handleFileUpload upload_accepted [ToolPanel.mkFile "data.xlsx"]
         (ToolPanel.mkState None ToolPanel.idle None)).1
    = Some (ToolPanel.mkFile "data.xlsx").
Proof.
  split.
  - exact (proj2 (proj2 (ToolPanel_handleFileUpload_outcome upload_rejected
                  [ToolPanel.mkFile "data.xlsx"]
                  (ToolPanel.mkState None ToolPanel.idle None)))
                  _ _ _ _ eq_refl eq_refl eq_refl).
  - exact (proj1 (proj1 (proj2 (ToolPanel_handleFileUpload_outcome upload_accepted
                  [ToolPanel.mkFile "data.xlsx"]
                  (ToolPanel.mkState None ToolPanel.idle None)))
                  _ _ eq_refl)).
Defined.

(* --------------------------------------------------------------------- *)
(** ** The file upload component                                          *)
(* --------------------------------------------------------------------- *)

(** X15.  [fetchUploadedFiles] replaces the list of uploaded files by the
    list the backend answers with and selects the path of its last file;
    with an empty list the selected path stays.  An answer that is not
    [ok] changes nothing and raises no toast; a failed request or a body
    that does not parse changes nothing and raises the one toast of this
    function.  The function never raises more than that toast and never
    touches the file being uploaded, the upload flag or the progress. *)
Theorem fetchUploadedFiles_outcome
    (fetch : completion FileUpload.FilesResponse) (s : FileUpload.State) :
  let s' := (FileUpload.fetchUploadedFiles fetch s).1 in
  let toasts := (FileUpload.fetchUploadedFiles fetch s).2 in
  (toasts = [] ∨ toasts = [FileUpload.files_toast]) ∧
  FileUpload.file s' = FileUpload.file s ∧
  FileUpload.uploading s' = FileUpload.uploading s ∧
  FileUpload.progress s' = FileUpload.progress s ∧
  (∀ response, fetch = Returned response → FileUpload.ok response = false →
     s' = s ∧ toasts = []) ∧
  ((∃ e, fetch = Thrown e)
   ∨ (∃ response e, fetch = Returned response ∧ FileUpload.ok response = true
                    ∧ FileUpload.json response = Thrown e) →
   s' = s ∧ toasts = [FileUpload.files_toast]) ∧
  (∀ response files,
     fetch = Returned response → FileUpload.ok response = true →
     FileUpload.json response = Returned files →
     FileUpload.uploadedFiles s' = files
     ∧ (files = [] → FileUpload.filePath s' = FileUpload.filePath s ∧ toasts = [])
     ∧ (∀ lastFile p, last files = Some lastFile →
          member lastFile "path" = Returned p →
          FileUpload.filePath s' = p ∧ toasts = [])).
Proof.
  simpl. unfold FileUpload.fetchUploadedFiles, FileUpload.fetch_try.
  destruct fetch as [response|e]; simpl; [|by settle_branch].
  destruct (FileUpload.ok response) eqn:Hok; simpl; [|by settle_branch].
  destruct (FileUpload.json response) as [files|e] eqn:Hjson; simpl;
    [|by settle_branch].
  destruct (last files) as [lastFile|] eqn:Hlast; simpl; [|by settle_branch].
  destruct (member lastFile "path") as [p|e] eqn:Hp; simpl; by settle_branch.
Qed.

Lemma fetchUploadedFiles_outcome_witness :
  FileUpload.fetchUploadedFiles
    (Returned (FileUpload.mkFilesResponse false (Returned []))) selected_file
  = (selected_file, [])
  ∧ FileUpload.filePath
      (FileUpload.fetchUploadedFiles
         (Returned (FileUpload.mkFilesResponse true
            (Returned [JObj [("path", JStr "/a.xlsx")];
                       JObj [("path", JStr "/b.xlsx")]]))) selected_file).1
    = JStr "/b.xlsx".
Proof.
  split.
  - destruct (fetchUploadedFiles_outcome
      (Returned (FileUpload.mkFilesResponse false (Returned []))) selected_file)
      as (_ & _ & _ & _ & Hnot_ok & _).
    destruct (Hnot_ok _ eq_refl eq_refl) as [Hs Ht].
    by apply injective_projections.
  - destruct (fetchUploadedFiles_outcome
      (Returned (FileUpload.mkFilesResponse true
         (Returned [JObj [("path", JStr "/a.xlsx")];
                    JObj [("path", JStr "/b.xlsx")]]))) selected_file)
      as (_ & _ & _ & _ & _ & _ & Hok).
    destruct (Hok _ _ eq_refl eq_refl eq_refl) as (_ & _ & Hlast).
    exact (proj1 (Hlast _ _ eq_refl eq_refl)).
Defined.

Lemma onprogress_frame (w : FileUpload.World) events s :
  let s' := foldl (λ s event, FileUpload.onprogress w event s) s events in
  FileUpload.file s' = FileUpload.file s
  ∧ FileUpload.uploading s' = FileUpload.uploading s
  ∧ FileUpload.uploadedFiles s' = FileUpload.uploadedFiles s
  ∧ FileUpload.filePath s' = FileUpload.filePath s.
Proof.
  revert s. induction events as [|event events IH]; intros s; simpl; [done|].
  destruct (IH (FileUpload.onprogress w event s)) as (-> & -> & -> & ->).
  unfold FileUpload.onprogress. by destruct (FileUpload.lengthComputable event).
Qed.

(** X16.  Without a selected file [handleUpload] does nothing.  With one,
    whatever the progress events and however the request ends, the
    component is left idle (not uploading, no file selected, progress 0)
    and exactly one toast is raised.  The toast reports success exactly
    when the request ended with status 200, its body parsed and the
    parsed value has a [path]; then the parsed value is appended to the
    uploaded files and its path is selected.  In every other case the
    selected path stays; the uploaded files stay too, except that a body
    that parses to [null] is appended although the upload is reported
    as failed. *)
Theorem handleUpload_outcome (w : FileUpload.World) (s : FileUpload.State) :
  let s' := (FileUpload.handleUpload w s).1 in
  let toasts := (FileUpload.handleUpload w s).2 in
  (FileUpload.file s = None → s' = s ∧ toasts = []) ∧
  (∀ name, FileUpload.file s = Some name →
     FileUpload.uploading s' = false ∧ FileUpload.file s' = None
     ∧ FileUpload.progress s' = 0
     ∧ (∃ toast, toasts = [toast])
     ∧ (∀ status statusText responseText data p,
          FileUpload.xhr w = FileUpload.Load status statusText responseText →
          status = 200 →
          FileUpload.JSON_parse w responseText = Returned data →
          member data "path" = Returned p →
          toasts = [FileUpload.mkToast "上傳成功"
                      ("文件 " +:+ name +:+ " 已成功上傳") false]
          ∧ FileUpload.uploadedFiles s' = FileUpload.uploadedFiles s ++ [data]
          ∧ FileUpload.filePath s' = p)
     ∧ (∀ status statusText responseText data e,
          FileUpload.xhr w = FileUpload.Load status statusText responseText →
          status = 200 →
          FileUpload.JSON_parse w responseText = Returned data →
          member data "path" = Thrown e →
          toasts = [FileUpload.mkToast "上傳失敗" "無法解析伺服器回應" true]
          ∧ FileUpload.uploadedFiles s' = FileUpload.uploadedFiles s ++ [data]
          ∧ FileUpload.filePath s' = FileUpload.filePath s)
     ∧ (FileUpload.xhr w = FileUpload.NetworkError
        ∨ (∃ status statusText responseText,
             FileUpload.xhr w = FileUpload.Load status statusText responseText
             ∧ (status ≠ 200
                ∨ ∃ e, FileUpload.JSON_parse w responseText = Thrown e)) →
        (∃ text, toasts = [FileUpload.mkToast "上傳失敗" text true])
        ∧ FileUpload.uploadedFiles s' = FileUpload.uploadedFiles s
        ∧ FileUpload.filePath s' = FileUpload.filePath s)).
Proof.
  simpl. unfold FileUpload.handleUpload. split.
  - by intros ->.
  - intros name ->.
    pose proof (onprogress_frame w (FileUpload.progress_events w)
      (FileUpload.setProgress 0 (FileUpload.setUploading true s)))
      as (_ & _ & Hfiles & Hpath).
    simpl in Hfiles, Hpath.
    set (s1 := foldl _ _ _) in *.
    unfold FileUpload.settle.
    destruct (FileUpload.xhr w) as [status statusText responseText|] eqn:Hxhr;
      [|by settle_branch].
    destruct (status =? 200) eqn:Hstatus;
      [apply Z.eqb_eq in Hstatus|apply Z.eqb_neq in Hstatus; by settle_branch].
    destruct (FileUpload.JSON_parse w responseText) as [data|e] eqn:Hparse;
      [|by settle_branch].
    destruct (member data "path") as [p|e] eqn:Hmember; simpl;
      rewrite ?Hfiles, ?Hpath; by settle_branch.
Qed.

Lemma handleUpload_outcome_witness :
  (FileUpload.handleUpload null_upload selected_file).2
  = [FileUpload.mkToast "上傳失敗" "無法解析伺服器回應" true]
  ∧ FileUpload.uploadedFiles (FileUpload.handleUpload null_upload selected_file).1
    = [JObj [("path", JStr "/a.xlsx")]; JNull]
  ∧ FileUpload.filePath (FileUpload.handleUpload null_upload selected_file).1
    = JStr "/a.xlsx".
Proof.
  destruct (handleUpload_outcome null_upload selected_file) as [_ Hrun].
  destruct (Hrun "data.xlsx" eq_refl) as (_ & _ & _ & _ & _ & Hnull & _).
  exact (Hnull _ _ _ _ _ eq_refl eq_refl eq_refl eq_refl).
Defined.
